(** * ProWriter backend: order lifecycle and document access

    A shallow embedding of the hardened server of [server.js] (the second
    listing, whose routes use [toInt], [authMiddleware] and [requireAdmin]):
    the SQLite tables as lists of records in rowid order, the route handlers
    as functions from a store to a store and a reply, and the file tree
    under the server's directory as a finite map from paths to what is
    there.  A handler that runs several statements is also given as the
    chain of its statements, each with its callback; the stores the server
    can reach are those the statements of the requests leave in whatever
    order they fall, and the handler as a function is the chain run with
    nothing in between.

    What lies outside the repository is taken as an input of the handler
    that consults it: the payload [jwt.verify] returns, [Date.now()], the
    digits [generateCode] draws, the hash [bcrypt.hashSync] produces, the
    MX lookup, and the name multer gives an uploaded file.  The store never
    fails on its own: the only errors [db.run] reports are the constraint
    violations of the schema.  The disk is an input of the routes that
    serve files: what multer, the preview conversion or anybody else has
    put there or removed is not derived from the requests. *)

From Stdlib Require Import ZArith String Ascii List Bool Lia DecimalString.
From stdpp Require Import gmap strings list fin_maps.

Local Open Scope string_scope.
Local Open Scope Z_scope.

(** ** Values *)

(** The storage classes a column of this schema holds, which are also the
    JavaScript values [db.get] hands back for it: [null], a number, a
    string.  A property that a row object does not have at all reads as
    [undefined], which is [None] at type [option value].

    A string is a sequence of characters below U+0100, one [ascii] each
    (Latin-1); a number is an integer that a double holds exactly and
    that prints with all its digits (below [10^21] in size).  A string
    with a character beyond U+00FF and a number with a fractional part
    are outside the model. *)
Inductive value : Type :=
| VNull
| VInt (n : Z)
| VText (s : string).

#[global] Instance value_eq_dec : EqDecision value.
Proof. solve_decision. Defined.

Module JS.

(** Truthiness, as [if (x)] and [!x] see a value. *)
Definition truthy (v : value) : bool :=
  match v with
  | VNull => false
  | VInt n => negb (n =? 0)
  | VText s => negb (String.eqb s "")
  end.

(** The same for a property read, [undefined] being falsy. *)
Definition truthy_prop (p : option value) : bool :=
  match p with
  | None => false
  | Some v => truthy v
  end.

(** [a === b] on property reads: equal type and equal value; [undefined]
    and [null] are each equal only to themselves. *)
Definition strict_eq (a b : option value) : bool :=
  match a, b with
  | None, None => true
  | Some VNull, Some VNull => true
  | Some (VInt x), Some (VInt y) => x =? y
  | Some (VText x), Some (VText y) => String.eqb x y
  | _, _ => false
  end.

(** Decimal rendering of an integer, as a template literal prints it. *)
Definition show_int (n : Z) : string := NilZero.string_of_int (Z.to_int n).

(** [String(x)]. *)
Definition to_String (p : option value) : string :=
  match p with
  | None => "undefined"
  | Some VNull => "null"
  | Some (VInt n) => show_int n
  | Some (VText s) => s
  end.

(** The lower case of an ASCII letter, which is all that [LIKE] folds. *)
Definition lower_ascii (c : ascii) : ascii :=
  let n := nat_of_ascii c in
  if ((65 <=? n)%nat && (n <=? 90)%nat)%bool then ascii_of_nat (n + 32) else c.

(** The lower case of a character below U+0100: the letters [A] to [Z],
    and [U+00C0] to [U+00DE] without the multiplication sign [U+00D7]. *)
Definition lower_char (c : ascii) : ascii :=
  let n := nat_of_ascii c in
  if (((65 <=? n)%nat && (n <=? 90)%nat)
      || ((192 <=? n)%nat && (n <=? 222)%nat && negb (n =? 215)%nat))%bool
  then ascii_of_nat (n + 32) else c.

(** [s.toLowerCase()] *)
Fixpoint toLowerCase (s : string) : string :=
  match s with
  | EmptyString => EmptyString
  | String c s' => String (lower_char c) (toLowerCase s')
  end.

(** White space and line terminators below U+0100, which [trim] strips
    and [\s] matches: tab to carriage return, the space, the no-break
    space. *)
Definition is_space (c : ascii) : bool :=
  let n := nat_of_ascii c in
  ((n =? 32)%nat || ((9 <=? n)%nat && (n <=? 13)%nat) || (n =? 160)%nat)%bool.

Fixpoint drop_spaces (l : list ascii) : list ascii :=
  match l with
  | c :: l' => if is_space c then drop_spaces l' else l
  | [] => []
  end.

(** [s.trim()] *)
Definition trim (s : string) : string :=
  string_of_list_ascii
    (rev (drop_spaces (rev (drop_spaces (list_ascii_of_string s))))).

(** *** Numbers *)

(** A JavaScript number: not a number, an infinity, or the finite double
    [m * 2^e]. *)
Inductive number : Type :=
| NaN
| Infinity (negative : bool)
| Finite (m e : Z).

(** The double nearest to [p / q], for [p] and [q] positive: 53 bits of
    mantissa, ties to the even mantissa, exponents from the subnormals
    ([2^-1074]) up to overflow. *)
Definition nearest_double (p q : Z) : number :=
  let l := Z.log2 p - Z.log2 q in
  let above := if 0 <=? l then q * 2 ^ l <=? p else q <=? p * 2 ^ (- l) in
  let e := Z.max ((if above then l else l - 1) - 52) (-1074) in
  let num := if e <? 0 then p * 2 ^ (- e) else p in
  let den := if e <? 0 then q else q * 2 ^ e in
  let k := num / den in
  let r := num mod den in
  let m := if (den <? 2 * r) || ((den =? 2 * r) && Z.odd k) then k + 1 else k in
  if 1024 <=? Z.log2 m + e then Infinity false else Finite m e.

Definition negate (n : number) : number :=
  match n with
  | NaN => NaN
  | Infinity b => Infinity (negb b)
  | Finite m e => Finite (- m) e
  end.

(** The number the decimal numeral [m * 10^e] writes. *)
Definition decimal (m e : Z) : number :=
  if m =? 0 then Finite 0 0
  else if 0 <=? e then nearest_double (m * 10 ^ e) 1
  else nearest_double m (10 ^ (- e)).

Definition is_zero (n : number) : bool :=
  match n with
  | Finite m _ => m =? 0
  | _ => false
  end.

(** The integer a finite number is, if it is one. *)
Definition integral (n : number) : option Z :=
  match n with
  | Finite m e =>
      if 0 <=? e then Some (m * 2 ^ e)
      else if m mod 2 ^ (- e) =? 0 then Some (m / 2 ^ (- e))
      else None
  | _ => None
  end.

(** [Math.trunc] of a finite number; [None] where [Number.isFinite] fails. *)
Definition trunc (n : number) : option Z :=
  match n with
  | Finite m e => Some (if 0 <=? e then m * 2 ^ e else Z.quot m (2 ^ (- e)))
  | _ => None
  end.

Definition digit_of (base : Z) (c : ascii) : option Z :=
  let n := Z.of_nat (nat_of_ascii c) in
  let v := if (48 <=? n) && (n <=? 57) then n - 48
           else if (97 <=? n) && (n <=? 102) then n - 87
           else if (65 <=? n) && (n <=? 70) then n - 55
           else 16 in
  if v <? base then Some v else None.

(** The digits in front of [l]: their value on top of [acc], how many
    they are, and what follows them. *)
Fixpoint take_digits (l : list ascii) (acc count : Z) : Z * Z * list ascii :=
  match l with
  | c :: l' =>
      match digit_of 10 c with
      | Some v => take_digits l' (acc * 10 + v) (count + 1)
      | None => (acc, count, l)
      end
  | [] => (acc, count, [])
  end.

(** The value of [l] read as digits of [base], all of it and not empty. *)
Fixpoint radix_value (base : Z) (l : list ascii) (acc : Z) : option Z :=
  match l with
  | [] => Some acc
  | c :: l' =>
      match digit_of base c with
      | Some v => radix_value base l' (acc * base + v)
      | None => None
      end
  end.

Definition is_e (c : ascii) : bool := Ascii.eqb c "e"%char || Ascii.eqb c "E"%char.

(** An exponent part, or nothing: [e], an optional sign, digits. *)
Definition exponent (l : list ascii) : option Z :=
  match l with
  | [] => Some 0
  | c :: l1 =>
      if is_e c then
        let (neg, l2) :=
          match l1 with
          | s :: l2 =>
              if Ascii.eqb s "-"%char then (true, l2)
              else if Ascii.eqb s "+"%char then (false, l2)
              else (false, l1)
          | [] => (false, l1)
          end in
        match take_digits l2 0 0 with
        | (x, n, []) => if 0 <? n then Some (if neg then - x else x) else None
        | _ => None
        end
      else None
  end.

(** An unsigned decimal numeral, all of [l]: digits with an optional point
    among them and an optional exponent, with one digit at least before
    the exponent.  The result is the mantissa, the power of ten, and
    whether the numeral is made of digits alone. *)
Definition numeral (l : list ascii) : option (Z * Z * bool) :=
  let '(i, ni, l1) := take_digits l 0 0 in
  let '(m, nf, l2, dotted) :=
    match l1 with
    | c :: r =>
        if Ascii.eqb c "."%char
        then let '(m, nf, l2) := take_digits r i 0 in (m, nf, l2, true)
        else (i, 0, l1, false)
    | [] => (i, 0, l1, false)
    end in
  if ni + nf =? 0 then None
  else
    match exponent l2 with
    | Some x => Some (m, x - nf, negb dotted && bool_decide (l2 = []))
    | None => None
    end.

Definition signed (l : list ascii) : bool * list ascii :=
  match l with
  | c :: r =>
      if Ascii.eqb c "-"%char then (true, r)
      else if Ascii.eqb c "+"%char then (false, r)
      else (false, l)
  | [] => (false, l)
  end.

Definition prefixed (l : list ascii) : option (Z * list ascii) :=
  match l with
  | z :: c :: r =>
      if Ascii.eqb z "0"%char then
        if Ascii.eqb c "x"%char || Ascii.eqb c "X"%char then Some (16, r)
        else if Ascii.eqb c "o"%char || Ascii.eqb c "O"%char then Some (8, r)
        else if Ascii.eqb c "b"%char || Ascii.eqb c "B"%char then Some (2, r)
        else None
      else None
  | _ => None
  end.

(** [Number(s)] for a string. *)
Definition string_to_number (s : string) : number :=
  let t := trim s in
  if String.eqb t "" then Finite 0 0
  else if String.eqb t "Infinity" || String.eqb t "+Infinity" then Infinity false
  else if String.eqb t "-Infinity" then Infinity true
  else
    match prefixed (list_ascii_of_string t) with
    | Some (base, r) =>
        match r with
        | [] => NaN
        | _ => match radix_value base r 0 with
               | Some n => decimal n 0
               | None => NaN
               end
        end
    | None =>
        let (neg, r) := signed (list_ascii_of_string t) in
        match numeral r with
        | Some (m, e, _) => if neg then negate (decimal m e) else decimal m e
        | None => NaN
        end
    end.

(** [Number(x)]: [null] is [0], a number is itself, a string is read by
    [string_to_number]. *)
Definition to_Number (v : value) : number :=
  match v with
  | VNull => Finite 0 0
  | VInt n => Finite n 0
  | VText s => string_to_number s
  end.

(** [String(x).toLowerCase() === 'paid'], the test both file routes and
    the submission route apply to a payment status. *)
Definition is_paid (p : option value) : bool :=
  String.eqb (toLowerCase (to_String p)) "paid".

End JS.

(** ** Paths *)

Module Path.

(** The part of [s] after its last slash. *)
Fixpoint after_last_slash (s : string) (acc : string) : string :=
  match s with
  | EmptyString => acc
  | String c s' =>
      if Ascii.eqb c "/"%char then after_last_slash s' EmptyString
      else after_last_slash s' (String.append acc (String c EmptyString))
  end.

Fixpoint strip_trailing_slashes_rev (r : list ascii) : list ascii :=
  match r with
  | c :: r' => if Ascii.eqb c "/"%char then strip_trailing_slashes_rev r' else r
  | [] => []
  end.

Definition strip_trailing_slashes (s : string) : string :=
  string_of_list_ascii
    (rev (strip_trailing_slashes_rev (rev (list_ascii_of_string s)))).

(** [path.basename(p)]: the last segment, trailing slashes ignored. *)
Definition basename (p : string) : string :=
  after_last_slash (strip_trailing_slashes p) EmptyString.

(** [path.join(dir, name)] for a [name] that is a plain segment. *)
Definition join (dir name : string) : string :=
  String.append dir (String.append "/" name).

(** The last segment of [p] as it stands. *)
Definition last_segment (p : string) : string := after_last_slash p EmptyString.

(** A dot file, as [send] sees a path segment under its default options:
    more than one character, the first a dot. *)
Definition dot_name (seg : string) : bool :=
  match seg with
  | String c (String _ _) => Ascii.eqb c "."%char
  | _ => false
  end.

Definition hidden (p : string) : bool := dot_name (last_segment p).

(** [p.split('/')] *)
Fixpoint split_from (s acc : string) : list string :=
  match s with
  | EmptyString => [acc]
  | String c s' =>
      if Ascii.eqb c "/"%char then acc :: split_from s' EmptyString
      else split_from s' (String.append acc (String c EmptyString))
  end.

Definition split (p : string) : list string := split_from p EmptyString.

(** The segments of [path.normalize('./' + p)]: an empty segment and [.]
    are dropped, [..] takes back the segment before it and stays where
    there is none.  [kept] holds the segments kept so far, last first. *)
Fixpoint resolve (segs kept : list string) : list string :=
  match segs with
  | [] => rev kept
  | seg :: rest =>
      if String.eqb seg "" || String.eqb seg "." then resolve rest kept
      else if String.eqb seg ".." then
        match kept with
        | k :: kept' =>
            if String.eqb k ".." then resolve rest (seg :: kept)
            else resolve rest kept'
        | [] => resolve rest [seg]
        end
      else resolve rest (seg :: kept)
  end.

Definition normalize (p : string) : list string := resolve (split p) [].

Definition ends_with_slash (p : string) : bool :=
  match rev (list_ascii_of_string p) with
  | c :: _ => Ascii.eqb c "/"%char
  | [] => false
  end.

(** [p] without one slash at its end, if it has one. *)
Definition chop_slash (p : string) : string :=
  match rev (list_ascii_of_string p) with
  | c :: r => if Ascii.eqb c "/"%char then string_of_list_ascii (rev r) else p
  | [] => p
  end.

(** Both directories, relative to the directory of [server.js]. *)
Definition uploadDir : string := "uploads".
Definition previewDir : string := join uploadDir "previews".

(** The directory of the site's static pages. *)
Definition publicDir : string := "public".

(** The path of the segments [segs] under [root]. *)
Definition under (root : string) (segs : list string) : string :=
  fold_left join segs root.

End Path.

(** The file tree under the directory of [server.js]: what is at each
    path that holds something, a regular file or a directory. *)
Inductive node : Type :=
| File
| Directory.

#[global] Instance node_eq_dec : EqDecision node.
Proof. solve_decision. Defined.

Definition disk : Type := gmap string node.

(** [fs.existsSync(p)]: true of a file and of a directory alike. *)
Definition existsSync (d : disk) (p : string) : bool := bool_decide (is_Some (d !! p)).

Definition is_file (d : disk) (p : string) : bool := bool_decide (d !! p = Some File).

(** Whether [res.sendFile(p)] sends anything.  [send] under its default
    options sends a regular file whose name is not a dot file; for a
    missing path, a directory or a dot file the request ends in 404 and no
    byte of a file goes out. *)
Definition sends (d : disk) (p : string) : bool := is_file d p && negb (Path.hidden p).

(** Whether [fs.createReadStream(p).pipe(res)] streams anything: only a
    regular file can be read. *)
Definition streams (d : disk) (p : string) : bool := is_file d p.

(** ** Schema

    One record per table of the [CREATE TABLE] statements, one field per
    column.  The columns of [orders] that the admin update may overwrite
    with whatever the request carries hold a [value]. *)

Record user : Type := {
  u_id : Z;
  u_name : string;
  u_email : string;
  u_password : string;
  u_role : string;
  u_country : string;
  u_approved : bool
}.

Record order : Type := {
  o_id : Z;
  title : value;
  description : value;
  client_id : value;
  writer_id : value;
  status : value;
  submission_date : value;
  expected_ready : value;
  client_guide : value;
  submission_file : value;
  payment_status : value;
  payment_ref : value;
  amount : value;
  o_created_at : Z
}.

Record verification : Type := {
  v_id : Z;
  v_user_id : Z;
  v_email : string;
  v_code : string;
  v_expires_at : Z;
  v_used : bool;
  v_created_at : Z
}.

#[global] Instance user_eq_dec : EqDecision user.
Proof. solve_decision. Defined.
#[global] Instance order_eq_dec : EqDecision order.
Proof. solve_decision. Defined.
#[global] Instance verification_eq_dec : EqDecision verification.
Proof. solve_decision. Defined.

(** The database: each table in rowid order, and the next key each
    [AUTOINCREMENT] column hands out. *)
Record store : Type := {
  users : list user;
  orders : list order;
  email_verifications : list verification;
  next_user_id : Z;
  next_order_id : Z;
  next_verification_id : Z
}.

Definition empty_store : store :=
  {| users := []; orders := []; email_verifications := [];
     next_user_id := 1; next_order_id := 1; next_verification_id := 1 |}.

Definition with_users (us : list user) (n : Z) (s : store) : store :=
  {| users := us; orders := orders s;
     email_verifications := email_verifications s;
     next_user_id := n; next_order_id := next_order_id s;
     next_verification_id := next_verification_id s |}.

Definition with_orders (os : list order) (s : store) : store :=
  {| users := users s; orders := os;
     email_verifications := email_verifications s;
     next_user_id := next_user_id s; next_order_id := next_order_id s;
     next_verification_id := next_verification_id s |}.

Definition with_verifications (vs : list verification) (s : store) : store :=
  {| users := users s; orders := orders s;
     email_verifications := vs;
     next_user_id := next_user_id s; next_order_id := next_order_id s;
     next_verification_id := next_verification_id s |}.

(** *** Column writes of [UPDATE orders SET ...] *)

Definition set_title (v : value) (o : order) : order :=
  {| o_id := o_id o; title := v; description := description o;
     client_id := client_id o; writer_id := writer_id o; status := status o;
     submission_date := submission_date o; expected_ready := expected_ready o;
     client_guide := client_guide o; submission_file := submission_file o;
     payment_status := payment_status o; payment_ref := payment_ref o;
     amount := amount o; o_created_at := o_created_at o |}.

Definition set_description (v : value) (o : order) : order :=
  {| o_id := o_id o; title := title o; description := v;
     client_id := client_id o; writer_id := writer_id o; status := status o;
     submission_date := submission_date o; expected_ready := expected_ready o;
     client_guide := client_guide o; submission_file := submission_file o;
     payment_status := payment_status o; payment_ref := payment_ref o;
     amount := amount o; o_created_at := o_created_at o |}.

Definition set_client_id (v : value) (o : order) : order :=
  {| o_id := o_id o; title := title o; description := description o;
     client_id := v; writer_id := writer_id o; status := status o;
     submission_date := submission_date o; expected_ready := expected_ready o;
     client_guide := client_guide o; submission_file := submission_file o;
     payment_status := payment_status o; payment_ref := payment_ref o;
     amount := amount o; o_created_at := o_created_at o |}.

Definition set_writer_id (v : value) (o : order) : order :=
  {| o_id := o_id o; title := title o; description := description o;
     client_id := client_id o; writer_id := v; status := status o;
     submission_date := submission_date o; expected_ready := expected_ready o;
     client_guide := client_guide o; submission_file := submission_file o;
     payment_status := payment_status o; payment_ref := payment_ref o;
     amount := amount o; o_created_at := o_created_at o |}.

Definition set_status (v : value) (o : order) : order :=
  {| o_id := o_id o; title := title o; description := description o;
     client_id := client_id o; writer_id := writer_id o; status := v;
     submission_date := submission_date o; expected_ready := expected_ready o;
     client_guide := client_guide o; submission_file := submission_file o;
     payment_status := payment_status o; payment_ref := payment_ref o;
     amount := amount o; o_created_at := o_created_at o |}.

Definition set_submission_date (v : value) (o : order) : order :=
  {| o_id := o_id o; title := title o; description := description o;
     client_id := client_id o; writer_id := writer_id o; status := status o;
     submission_date := v; expected_ready := expected_ready o;
     client_guide := client_guide o; submission_file := submission_file o;
     payment_status := payment_status o; payment_ref := payment_ref o;
     amount := amount o; o_created_at := o_created_at o |}.

Definition set_expected_ready (v : value) (o : order) : order :=
  {| o_id := o_id o; title := title o; description := description o;
     client_id := client_id o; writer_id := writer_id o; status := status o;
     submission_date := submission_date o; expected_ready := v;
     client_guide := client_guide o; submission_file := submission_file o;
     payment_status := payment_status o; payment_ref := payment_ref o;
     amount := amount o; o_created_at := o_created_at o |}.

Definition set_submission_file (v : value) (o : order) : order :=
  {| o_id := o_id o; title := title o; description := description o;
     client_id := client_id o; writer_id := writer_id o; status := status o;
     submission_date := submission_date o; expected_ready := expected_ready o;
     client_guide := client_guide o; submission_file := v;
     payment_status := payment_status o; payment_ref := payment_ref o;
     amount := amount o; o_created_at := o_created_at o |}.

Definition set_payment_status (v : value) (o : order) : order :=
  {| o_id := o_id o; title := title o; description := description o;
     client_id := client_id o; writer_id := writer_id o; status := status o;
     submission_date := submission_date o; expected_ready := expected_ready o;
     client_guide := client_guide o; submission_file := submission_file o;
     payment_status := v; payment_ref := payment_ref o;
     amount := amount o; o_created_at := o_created_at o |}.

Definition set_payment_ref (v : value) (o : order) : order :=
  {| o_id := o_id o; title := title o; description := description o;
     client_id := client_id o; writer_id := writer_id o; status := status o;
     submission_date := submission_date o; expected_ready := expected_ready o;
     client_guide := client_guide o; submission_file := submission_file o;
     payment_status := payment_status o; payment_ref := v;
     amount := amount o; o_created_at := o_created_at o |}.

Definition set_amount (v : value) (o : order) : order :=
  {| o_id := o_id o; title := title o; description := description o;
     client_id := client_id o; writer_id := writer_id o; status := status o;
     submission_date := submission_date o; expected_ready := expected_ready o;
     client_guide := client_guide o; submission_file := submission_file o;
     payment_status := payment_status o; payment_ref := payment_ref o;
     amount := v; o_created_at := o_created_at o |}.

(** ** The SQL the handlers issue *)

Module Sql.

(** [col = ?]: never true of [NULL], and true of two integers or two
    texts that are the same. *)
Definition eq (a b : value) : bool :=
  match a, b with
  | VInt x, VInt y => (x =? y)%Z
  | VText x, VText y => String.eqb x y
  | _, _ => false
  end.

(** [s LIKE p]: [%] stands for any run of characters, [_] for any one
    character, and letters match without regard to ASCII case. *)
Fixpoint like (p : string) : string -> bool :=
  match p with
  | EmptyString => fun s => match s with EmptyString => true | _ => false end
  | String c p' =>
      if Ascii.eqb c "%"%char then
        fix any (s : string) : bool :=
          like p' s ||
          match s with
          | EmptyString => false
          | String _ s' => any s'
          end
      else if Ascii.eqb c "_"%char then
        fun s => match s with
                 | EmptyString => false
                 | String _ s' => like p' s'
                 end
      else
        fun s => match s with
                 | EmptyString => false
                 | String d s' =>
                     Ascii.eqb (JS.lower_ascii c) (JS.lower_ascii d) && like p' s'
                 end
  end.

(** [col LIKE ?] on a column: [NULL] matches nothing, a number is
    matched through its text. *)
Definition like_value (p : string) (v : value) : bool :=
  match v with
  | VNull => false
  | VInt n => like p (JS.show_int n)
  | VText s => like p s
  end.

(** [db.get]: the first row, in rowid order, that the [WHERE] clause
    keeps, or nothing. *)
Definition get {A : Type} (where_ : A -> bool) (table : list A) : option A :=
  List.find where_ table.

(** [UPDATE t SET ... WHERE ...]: every row the clause keeps is
    rewritten, the others stay. *)
Definition update {A : Type} (where_ : A -> bool) (set : A -> A)
    (table : list A) : list A :=
  List.map (fun r => if where_ r then set r else r) table.

(** [DELETE FROM t WHERE ...]. *)
Definition delete {A : Type} (where_ : A -> bool) (table : list A) : list A :=
  List.filter (fun r => negb (where_ r)) table.

(** [WHERE id = ?] on each table. *)
Definition order_is (id : Z) (o : order) : bool := (o_id o =? id)%Z.
Definition user_is (id : Z) (u : user) : bool := (u_id u =? id)%Z.

(** The foreign keys of [orders] ([PRAGMA foreign_keys = ON]): a value
    written to [client_id] or [writer_id] is [NULL] or the id of a row of
    [users]; anything else makes the statement fail. *)
Definition references_user (us : list user) (v : value) : bool :=
  match v with
  | VNull => true
  | VInt n => existsb (user_is n) us
  | VText _ => false
  end.

(** [NOT NULL] on [title] and [description]. *)
Definition not_null (v : value) : bool :=
  match v with VNull => false | _ => true end.

End Sql.

(** ** Requests and responses *)

(** What a handler writes itself, status and body: [res.status(c).json],
    [res.status(c).send], the JSON body that carries the link to a
    submission, and the redirection [express.static] answers for a
    directory.  Of a JSON body only the [message] is kept, or the [url]. *)
Inductive reply : Type :=
| Json (code : Z) (message : string)
| Text (code : Z) (text : string)
| Link (url : string)
| Redirect (location : string).

#[global] Instance reply_eq_dec : EqDecision reply.
Proof. solve_decision. Defined.

(** What a handler of the document routes ends with: a reply of its own,
    or a call that hands the request over to the file system, where
    [SendFile] is [res.sendFile(path)] and [Pipe] is
    [fs.createReadStream(path).pipe(res)], each after the [res.setHeader]
    calls listed.  What such a call sends depends on the disk: see
    [outcome_of]. *)
Inductive response : Type :=
| Reply (r : reply)
| SendFile (headers : list (string * string)) (path : string)
| Pipe (headers : list (string * string)) (path : string).

Coercion Reply : reply >-> response.

#[global] Instance response_eq_dec : EqDecision response.
Proof. solve_decision. Defined.

(** The payload of a verified bearer credential, as [/api/login] signs it. *)
Record principal : Type := {
  p_id : Z;
  p_role : string;
  p_email : string
}.

(** [toInt] has run on every numeric input of a request: [None] is its
    [null].  [!x] for such a result: [null] and [0] are falsy. *)
Definition falsy_id (x : option Z) : bool :=
  match x with None => true | Some n => (n =? 0)%Z end.

(** ** Row objects

    [db.get] builds a JavaScript object with one property per selected
    column; reading any other property of it gives [undefined]. *)

Definition column (c : string) (o : order) : option value :=
  if String.eqb c "id" then Some (VInt (o_id o))
  else if String.eqb c "title" then Some (title o)
  else if String.eqb c "description" then Some (description o)
  else if String.eqb c "client_id" then Some (client_id o)
  else if String.eqb c "writer_id" then Some (writer_id o)
  else if String.eqb c "status" then Some (status o)
  else if String.eqb c "submission_date" then Some (submission_date o)
  else if String.eqb c "expected_ready" then Some (expected_ready o)
  else if String.eqb c "client_guide" then Some (client_guide o)
  else if String.eqb c "submission_file" then Some (submission_file o)
  else if String.eqb c "payment_status" then Some (payment_status o)
  else if String.eqb c "payment_ref" then Some (payment_ref o)
  else if String.eqb c "amount" then Some (amount o)
  else None.

(** [SELECT c1, ..., cn FROM orders]: the object made of one row. *)
Definition select (cols : list string) (o : order) : gmap string value :=
  list_to_map (omap (fun c => pair c <$> column c o) cols).

Arguments select : simpl never.

(** *** Column affinity

    What a bound value becomes when it is stored.  The driver binds a
    JavaScript number as an [INTEGER] when it is a 32-bit integer and as a
    [REAL] otherwise, a string as [TEXT]. *)

(** [q] without the zeros at its end. *)
Fixpoint strip_zeros (fuel : nat) (q : Z) : Z :=
  match fuel with
  | O => q
  | S fuel' => if (q mod 10 =? 0) && (10 <=? q) then strip_zeros fuel' (q / 10) else q
  end.

(** The text of a [REAL] whose value is the integer [n]: SQLite prints
    it with fifteen significant digits ([%!.15g]), as digits and [.0] up
    to fifteen digits, beyond that with an exponent.  Where the sixteenth
    digit and what follows it are exactly a half, the versions of SQLite
    differ; the model rounds up. *)
Definition real_text (n : Z) : string :=
  let a := Z.abs n in
  let len := Z.of_nat (String.length (JS.show_int a)) in
  let body :=
    if len <=? 15 then String.append (JS.show_int a) ".0"
    else
      let p := 10 ^ (len - 15) in
      let q := if p <=? 2 * (a mod p) then a / p + 1 else a / p in
      let '(q, len) := if q =? 10 ^ 15 then (10 ^ 14, len + 1) else (q, len) in
      match JS.show_int (strip_zeros 15 q) with
      | String c rest =>
          String c (String.append "."
            (String.append (if String.eqb rest "" then "0" else rest)
               (String.append "e+" (JS.show_int (len - 1)))))
      | EmptyString => EmptyString
      end in
  if n <? 0 then String.append "-" body else body.

(** A [TEXT] column: a number is stored as its text. *)
Definition text_affinity (v : value) : value :=
  match v with
  | VInt n =>
      if (- 2 ^ 31 <=? n) && (n <? 2 ^ 31) then VText (JS.show_int n)
      else VText (real_text n)
  | _ => v
  end.

(** [sqlite3Isspace] *)
Definition blank (c : ascii) : bool :=
  let n := nat_of_ascii c in
  ((n =? 32)%nat || ((9 <=? n)%nat && (n <=? 13)%nat))%bool.

Fixpoint drop_blanks (l : list ascii) : list ascii :=
  match l with
  | c :: l' => if blank c then drop_blanks l' else l
  | [] => []
  end.

(** The numeral a text writes for a column of numeric affinity: blanks
    around, a sign, digits with an optional point and exponent.  The
    result is the sign, the mantissa, the power of ten, and whether the
    numeral is made of digits alone. *)
Definition numeric_text (s : string) : option (bool * Z * Z * bool) :=
  let (neg, r) :=
    JS.signed (rev (drop_blanks (rev (drop_blanks (list_ascii_of_string s))))) in
  match JS.numeral r with
  | Some (m, e, pure) => Some (neg, m, e, pure)
  | None => None
  end.

(** The [REAL] a numeral is read as, when its value is an integer. *)
Definition real_value (neg : bool) (m e : Z) : option Z :=
  JS.integral (if neg then JS.negate (JS.decimal m e) else JS.decimal m e).

(** An [INTEGER] column: a text that writes a number is stored as that
    number, exactly when it is made of digits and fits 64 bits, else
    through the double nearest to it.  A number with a fractional part is
    stored as a [REAL], which [value] does not hold: the text is left as
    it is, and the foreign keys of the two reference columns refuse it as
    they refuse the [REAL]. *)
Definition numeric_affinity (v : value) : value :=
  match v with
  | VText s =>
      match numeric_text s with
      | Some (neg, m, e, pure) =>
          let i := if neg then - m else m in
          if pure && (- 2 ^ 63 <=? i) && (i <? 2 ^ 63) then VInt i
          else match real_value neg m e with
               | Some k => VInt k
               | None => v
               end
      | None => v
      end
  | _ => v
  end.

(** A [REAL] column, [amount]: a text that writes a number is stored as
    the double nearest to it.  The model holds the amounts that are
    integers; a text that writes another number is left as it is. *)
Definition real_affinity (v : value) : value :=
  match v with
  | VText s =>
      match numeric_text s with
      | Some (neg, m, e, _) =>
          match real_value neg m e with
          | Some k => VInt k
          | None => v
          end
      | None => v
      end
  | _ => v
  end.

(** ** Order lifecycle *)

Definition bad_request (s : store) (m : string) : store * reply := (s, Json 400 m).
Definition ok (s : store) (m : string) : store * reply := (s, Json 200 m).

(** [authMiddleware]: [auth] is what [getUserFromRequest] returns, the
    payload of a valid credential or nothing; [k] is [next()]. *)
Definition authMiddleware (auth : option principal) (s : store)
    (k : principal -> store * reply) : store * reply :=
  match auth with
  | None => (s, Json 401 "Unauthorized")
  | Some u => k u
  end.

(** [requireAdmin], on the [req.user] the middleware before it has set. *)
Definition requireAdmin (u : principal) (s : store)
    (k : store * reply) : store * reply :=
  if String.eqb (p_role u) "admin" then k
  else (s, Json 403 "Admin privileges required").

(** Both, in front of a handler [k]. *)
Definition admin_only (auth : option principal) (s : store)
    (k : store * reply) : store * reply :=
  authMiddleware auth s (fun u => requireAdmin u s k).

(** [WHERE writer_id = ? AND status = 'In Progress'] *)
Definition active_for (w : Z) (o : order) : bool :=
  Sql.eq (writer_id o) (VInt w) && Sql.eq (status o) (VText "In Progress").

(** A fresh row of [orders] with the column defaults of the schema. *)
Definition new_order (id now : Z) (t d : string) (c : Z)
    (sd er guide : value) : order :=
  {| o_id := id; title := VText t; description := VText d;
     client_id := VInt c; writer_id := VNull;
     status := VText "Pending Assignment";
     submission_date := sd; expected_ready := er; client_guide := guide;
     submission_file := VNull; payment_status := VText "unpaid";
     payment_ref := VNull; amount := VInt 0; o_created_at := now / 1000 |}.

(** [x ? String(x) : null] for a string field of the form. *)
Definition text_or_null (x : string) : value :=
  if String.eqb x "" then VNull else VText x.

(** [POST /api/orders].  [file] is the name multer stored the guide
    under, if one was sent. *)
Definition create_order (now : Z) (title_ description_ : string)
    (client : option Z) (submission_date_ expected_ready_ : string)
    (file : option string) (s : store) : store * reply :=
  let t := JS.trim title_ in
  let d := JS.trim description_ in
  match client with
  | Some c =>
      if String.eqb t "" || (String.eqb d "" && negb (bool_decide (is_Some file)))
      then bad_request s "Missing required fields: title, client_id and (description or guide file)"
      else
        let guide :=
          match file with
          | Some f => VText (String.append "/uploads/" (Path.basename f))
          | None => VNull
          end in
        if Sql.references_user (users s) (VInt c) then
          let o := new_order (next_order_id s) now t d c
                     (text_or_null submission_date_)
                     (text_or_null expected_ready_) guide in
          ({| users := users s; orders := orders s ++ [o];
              email_verifications := email_verifications s;
              next_user_id := next_user_id s;
              next_order_id := next_order_id s + 1;
              next_verification_id := next_verification_id s |},
           Json 200 "Order submitted successfully")
        else (s, Json 500 "Failed to submit order")
  | None =>
      bad_request s "Missing required fields: title, client_id and (description or guide file)"
  end.

(** The statement both [/api/assign] and [/api/claim] end with:
    [UPDATE orders SET writer_id = ?, status = ? WHERE id = ?]. *)
Definition take_order (oid w : Z) (s : store) : store :=
  with_orders
    (Sql.update (Sql.order_is oid)
       (fun o => set_status (VText "In Progress") (set_writer_id (VInt w) o))
       (orders s)) s.

(** [POST /api/assign]: [proceedAssign] behind the two middlewares. *)
Definition assign (auth : option principal) (orderId writerId : option Z)
    (s : store) : store * reply :=
  admin_only auth s
    match orderId, writerId with
    | Some oid, Some w =>
        match Sql.get (active_for w) (orders s) with
        | Some _ => (s, Json 400 "Writer already has an active order")
        | None =>
            match select ["writer_id"; "status"] <$> Sql.get (Sql.order_is oid) (orders s) with
            | None => (s, Json 404 "Order not found")
            | Some order =>
                if JS.truthy_prop (order !! "writer_id")
                then (s, Json 400 "Order already assigned")
                else if negb (JS.strict_eq (order !! "status") (Some (VText "Pending Assignment")))
                then (s, Json 400 "Order not available for assignment")
                else if Sql.references_user (users s) (VInt w)
                then (take_order oid w s, Json 200 "Order assigned successfully")
                else (s, Json 500 "Failed to assign order")
            end
        end
    | _, _ => bad_request s "Missing or invalid order or writer ID"
    end.

(** [POST /api/claim]: the writer is the caller. *)
Definition claim (auth : option principal) (orderId : option Z)
    (s : store) : store * reply :=
  authMiddleware auth s (fun u =>
      if negb (String.eqb (p_role u) "writer")
      then (s, Json 403 "Writer privileges required")
      else
        match orderId with
        | Some oid =>
            let w := p_id u in
            match Sql.get (active_for w) (orders s) with
            | Some _ => (s, Json 400 "You already have an active order")
            | None =>
                match select ["writer_id"; "status"] <$> Sql.get (Sql.order_is oid) (orders s) with
                | None => (s, Json 404 "Order not found")
                | Some order =>
                    if JS.truthy_prop (order !! "writer_id")
                    then (s, Json 400 "Order already assigned")
                    else if negb (JS.strict_eq (order !! "status") (Some (VText "Pending Assignment")))
                    then (s, Json 400 "Order not available for assignment")
                    else if Sql.references_user (users s) (VInt w)
                    then (take_order oid w s, Json 200 "Order claimed successfully")
                    else (s, Json 500 "Failed to claim order")
                end
            end
        | None => bad_request s "Missing orderId or invalid writer"
        end).

(** [POST /api/update-status]: no middleware, no lookup of the order. *)
Definition update_status (orderId : option Z) (status_ : option value)
    (s : store) : store * reply :=
  match orderId, status_ with
  | Some oid, Some st =>
      if JS.truthy st then
        (with_orders
           (Sql.update (Sql.order_is oid) (set_status (text_affinity st)) (orders s)) s,
         Json 200 "Status updated successfully")
      else bad_request s "Missing orderId or status"
  | _, _ => bad_request s "Missing orderId or status"
  end.

(** [POST /api/submit-work/:orderId].  [file] is the name multer stored
    the upload under; the preview is produced after the answer, on disk. *)
Definition submit_work (orderId : option Z) (file : option string)
    (s : store) : store * reply :=
  match orderId with
  | None => bad_request s "Invalid order id"
  | Some oid =>
      match file with
      | None => bad_request s "No file uploaded"
      | Some f =>
          let filePath := String.append "/uploads/" (Path.basename f) in
          (with_orders
             (Sql.update (Sql.order_is oid)
                (fun o => set_status (VText "Submitted")
                            (set_submission_file (VText filePath) o))
                (orders s)) s,
           Json 200 "Work submitted successfully")
      end
  end.

(** [POST /api/send-to-client/:orderId] *)
Definition send_to_client (auth : option principal) (orderId : option Z)
    (s : store) : store * reply :=
  admin_only auth s
    match orderId with
    | None => bad_request s "Invalid order id"
    | Some oid =>
        (with_orders
           (Sql.update (Sql.order_is oid)
              (set_status (VText "Delivered to Client")) (orders s)) s,
         Json 200 "Work delivered to client successfully")
    end.

(** [DELETE /api/orders/:id] *)
Definition delete_order (auth : option principal) (id : option Z)
    (s : store) : store * reply :=
  admin_only auth s
    match id with
    | None => bad_request s "Invalid id"
    | Some oid =>
        (with_orders (Sql.delete (Sql.order_is oid) (orders s)) s,
         Json 200 "Order deleted successfully")
    end.

(** [PUT /api/orders/:id].  The body is the parsed JSON object; of its
    properties only those named in [allowed] are written, in that order. *)
Definition allowed : list string :=
  ["title"; "description"; "client_id"; "writer_id"; "status"; "amount";
   "payment_status"; "payment_ref"; "submission_date"; "expected_ready"].

Definition set_column (c : string) (v : value) (o : order) : order :=
  if String.eqb c "title" then set_title (text_affinity v) o
  else if String.eqb c "description" then set_description (text_affinity v) o
  else if String.eqb c "client_id" then set_client_id (numeric_affinity v) o
  else if String.eqb c "writer_id" then set_writer_id (numeric_affinity v) o
  else if String.eqb c "status" then set_status (text_affinity v) o
  else if String.eqb c "amount" then set_amount (real_affinity v) o
  else if String.eqb c "payment_status" then set_payment_status (text_affinity v) o
  else if String.eqb c "payment_ref" then set_payment_ref (text_affinity v) o
  else if String.eqb c "submission_date" then set_submission_date (text_affinity v) o
  else if String.eqb c "expected_ready" then set_expected_ready (text_affinity v) o
  else o.

(** The constraint a single assignment has to meet. *)
Definition assignment_ok (us : list user) (kv : string * value) : bool :=
  let (c, v) := kv in
  if String.eqb c "title" || String.eqb c "description"
  then Sql.not_null (text_affinity v)
  else if String.eqb c "client_id" || String.eqb c "writer_id"
  then Sql.references_user us (numeric_affinity v)
  else true.

Definition assignments (body : gmap string value) : list (string * value) :=
  omap (fun k => pair k <$> body !! k) allowed.

Definition apply_assignments (asg : list (string * value)) (o : order) : order :=
  fold_left (fun o kv => set_column (fst kv) (snd kv) o) asg o.

Definition update_order (auth : option principal) (id : option Z)
    (body : gmap string value) (s : store) : store * reply :=
  admin_only auth s
    match id with
    | None => bad_request s "Invalid id"
    | Some oid =>
        let asg := assignments body in
        match asg with
        | [] => bad_request s "No valid fields to update"
        | _ :: _ =>
            if existsb (Sql.order_is oid) (orders s)
               && negb (forallb (assignment_ok (users s)) asg)
            then (s, Json 500 "Failed to update order")
            else
              (with_orders
                 (Sql.update (Sql.order_is oid) (apply_assignments asg) (orders s)) s,
               Json 200 "Order updated")
        end
    end.

(** ** Payments *)

(** [SET payment_status = 'paid', payment_ref = ?, status = 'Delivered to Client'] *)
Definition confirmed (paymentRef : string) (o : order) : order :=
  set_status (VText "Delivered to Client")
    (set_payment_ref (VText paymentRef) (set_payment_status (VText "paid") o)).

(** [markOrderPaid(orderId, paymentRef, cb)]: the store it leaves.  The
    statement touches no constrained column, so [cb] always gets [null]. *)
Definition markOrderPaid (orderId : Z) (paymentRef : string) (s : store) : store :=
  with_orders (Sql.update (Sql.order_is orderId) (confirmed paymentRef) (orders s)) s.

(** Which of the [MPESA_*] variables of the environment are set. *)
Record mpesa_env : Type := {
  consumer_key : bool;
  consumer_secret : bool;
  shortcode : bool;
  passkey : bool;
  callback_url : bool
}.

(** The reference [`${prefix}-${Date.now()}-${Math.round(Math.random()*1e6)}`]. *)
Definition make_ref (prefix : string) (now rnd : Z) : string :=
  String.append prefix
    (String.append "-" (String.append (JS.show_int now)
       (String.append "-" (JS.show_int rnd)))).

(** [UPDATE orders SET payment_status = 'pending', payment_ref = ?, amount = ? WHERE id = ?] *)
Definition record_pending (oid : Z) (ref : string) (amt : Z) (s : store) : store :=
  with_orders
    (Sql.update (Sql.order_is oid)
       (fun o => set_amount (VInt amt)
                   (set_payment_ref (VText ref)
                      (set_payment_status (VText "pending") o)))
       (orders s)) s.

(** [POST /api/payments/initiate].  [now] and [rnd] are what [Date.now()]
    and the random draw give; [stk_ok] tells whether the STK push to the
    gateway came back. *)
Definition payments_initiate (env : mpesa_env) (now rnd : Z) (stk_ok : bool)
    (orderId : option Z) (phoneNumber : string) (amt : Z)
    (s : store) : store * reply :=
  match orderId with
  | None => bad_request s "Missing orderId or phoneNumber"
  | Some oid =>
      if String.eqb (JS.trim phoneNumber) "" then bad_request s "Missing orderId or phoneNumber"
      else
        match Sql.get (Sql.order_is oid) (orders s) with
        | None => (s, Json 404 "Order not found")
        | Some _ =>
            if negb (consumer_key env) then
              (record_pending oid (make_ref "SIM" now rnd) amt s,
               Json 200 "Simulated payment initiated")
            else if negb (consumer_secret env) || negb (shortcode env)
                    || negb (passkey env) || negb (callback_url env)
            then (s, Json 500 "MPesa credentials not fully configured on server")
            else
              (record_pending oid (make_ref "MPESA" now rnd) amt s,
               if stk_ok then Json 200 "STK push initiated"
               else Json 502 "Failed to initiate STK push")
        end
  end.

(** The call [setTimeout] holds after a simulated initiation: the order
    and the reference [markOrderPaid] will be given four seconds later. *)
Definition simulated_confirmation (env : mpesa_env) (now rnd : Z)
    (orderId : option Z) (phoneNumber : string) (s : store) : option (Z * string) :=
  match orderId with
  | None => None
  | Some oid =>
      if String.eqb (JS.trim phoneNumber) "" then None
      else
        match Sql.get (Sql.order_is oid) (orders s) with
        | None => None
        | Some _ =>
            if negb (consumer_key env) then Some (oid, make_ref "SIM" now rnd)
            else None
        end
  end.

(** The two shapes of body [/api/payments/callback] accepts. *)
Inductive callback_body : Type :=
| StkCallback (ResultCode : option value) (CheckoutRequestID : string)
              (ResultParameter : option (list (string * option Z)))
| Generic (orderId : option Z) (payment_ref : option value).

(** [forEach(p => { if (p.Key === 'AccountReference') foundOrder = toInt(p.Value) })] *)
Definition account_reference (found : option Z)
    (ps : list (string * option Z)) : option Z :=
  fold_left
    (fun acc p => if String.eqb (fst p) "AccountReference" then snd p else acc)
    ps found.

(** [Number(cb.ResultCode || -1)] *)
Definition result_code (rc : option value) : JS.number :=
  match rc with
  | Some v => if JS.truthy v then JS.to_Number v else JS.Finite (-1) 0
  | None => JS.Finite (-1) 0
  end.

(** [POST /api/payments/callback].  [qOrder] is [toInt(req.query.orderId)];
    in each parameter of an STK body the value has been through [toInt]. *)
Definition payments_callback (now : Z) (qOrder : option Z) (body : callback_body)
    (s : store) : store * reply :=
  match body with
  | StkCallback rc checkoutId params =>
      let foundOrder :=
        if falsy_id qOrder
        then match params with
             | Some ps => account_reference qOrder ps
             | None => qOrder
             end
        else qOrder in
      if JS.is_zero (result_code rc) && negb (falsy_id foundOrder) then
        match foundOrder with
        | Some oid =>
            let ref :=
              if String.eqb checkoutId ""
              then String.append "MPESA-CB-" (JS.show_int now)
              else checkoutId in
            (markOrderPaid oid ref s, Json 200 "Payment confirmed")
        | None => (s, Json 200 "Callback processed")
        end
      else (s, Json 200 "Callback processed")
  | Generic orderId payment_ref =>
      match orderId with
      | Some oid =>
          if JS.truthy_prop payment_ref
          then (markOrderPaid oid (JS.to_String payment_ref) s,
                Json 200 "Payment confirmed")
          else bad_request s "Missing orderId or payment_ref"
      | None => bad_request s "Missing orderId or payment_ref"
      end
  end.

(** ** Accounts and verification codes *)

(** [/^[^\s@]+@[^\s@]+\.[^\s@]+$/.test(e)]: one [@], no blank, and a dot
    inside the part after the [@]. *)
Definition is_at (c : ascii) : bool := Ascii.eqb c "@"%char.
Definition is_dot (c : ascii) : bool := Ascii.eqb c "."%char.
Definition plain (c : ascii) : bool := negb (JS.is_space c) && negb (is_at c).

Fixpoint until_at (l : list ascii) : list ascii * option (list ascii) :=
  match l with
  | [] => ([], None)
  | c :: l' =>
      if is_at c then ([], Some l')
      else let (a, b) := until_at l' in (c :: a, b)
  end.

Definition email_format_ok (e : string) : bool :=
  match until_at (list_ascii_of_string e) with
  | (loc, Some dom) =>
      negb (bool_decide (loc = [])) && forallb plain loc && forallb plain dom
      && existsb is_dot (removelast (tl dom))
  | (_, None) => false
  end.

(** [String(email).trim().toLowerCase()] *)
Definition normalize_email (e : string) : string := JS.toLowerCase (JS.trim e).

Definition user_by_email (e : string) (u : user) : bool := String.eqb (u_email u) e.

Definition new_verification (id uid : Z) (e code : string) (now : Z) : verification :=
  {| v_id := id; v_user_id := uid; v_email := e; v_code := code;
     v_expires_at := now + 15 * 60 * 1000; v_used := false;
     v_created_at := now / 1000 |}.

(** [INSERT INTO email_verifications (user_id, email, code, expires_at)] *)
Definition insert_verification (uid : Z) (e code : string) (now : Z) (s : store) : store :=
  {| users := users s; orders := orders s;
     email_verifications :=
       email_verifications s ++ [new_verification (next_verification_id s) uid e code now];
     next_user_id := next_user_id s; next_order_id := next_order_id s;
     next_verification_id := next_verification_id s + 1 |}.

(** [POST /api/register].  [mx] is the answer of the MX lookup, [hashed]
    the bcrypt hash of the password, [code] the six digits drawn. *)
Definition register (now : Z) (mx : bool) (hashed code : string)
    (name_ email_ password_ role_ country_ : string) (s : store) : store * reply :=
  if String.eqb name_ "" || String.eqb email_ "" || String.eqb password_ ""
     || String.eqb country_ ""
  then bad_request s "Missing required fields"
  else
    let emailLower := normalize_email email_ in
    if negb (email_format_ok emailLower) then bad_request s "Invalid email format"
    else if negb mx then bad_request s "Email domain is invalid or has no MX records"
    else
      let userRole :=
        if bool_decide (role_ ∈ ["admin"; "writer"; "client"]) then role_ else "client" in
      match Sql.get (user_by_email emailLower) (users s) with
      | Some _ => (s, Json 409 "Email already registered")
      | None =>
          let userId := next_user_id s in
          let u := {| u_id := userId; u_name := name_; u_email := emailLower;
                      u_password := hashed; u_role := userRole;
                      u_country := country_; u_approved := false |} in
          (insert_verification userId emailLower code now
             (with_users (users s ++ [u]) (userId + 1) s),
           Json 200 "Registered. Check your email for a verification code.")
      end.

(** [POST /api/resend-verification] *)
Definition resend_verification (now : Z) (code : string) (email_ : string)
    (s : store) : store * reply :=
  if String.eqb email_ "" then bad_request s "Missing email"
  else
    let emailLower := normalize_email email_ in
    match Sql.get (user_by_email emailLower) (users s) with
    | None => (s, Json 404 "Email not found")
    | Some u =>
        if u_approved u then bad_request s "Email already verified"
        else (insert_verification (u_id u) emailLower code now s,
              Json 200 "Verification code resent")
    end.

(** The row the query of [/api/verify-email] returns:
    [JOIN users u ON u.id = v.user_id WHERE v.email = ? AND v.used = 0
     ORDER BY v.created_at DESC LIMIT 1].  Rows created within the same
    second come out in rowid order. *)
Definition candidate (us : list user) (e : string) (v : verification) : bool :=
  String.eqb (v_email v) e && negb (v_used v) && existsb (Sql.user_is (v_user_id v)) us.

Definition newer (best : option verification) (v : verification) : option verification :=
  match best with
  | None => Some v
  | Some b => if (v_created_at b <? v_created_at v)%Z then Some v else Some b
  end.

Definition newest (l : list verification) : option verification :=
  fold_left newer l None.

Definition active_verification (e : string) (s : store) : option verification :=
  newest (List.filter (candidate (users s) e) (email_verifications s)).

Definition verification_is (id : Z) (v : verification) : bool := (v_id v =? id)%Z.

Definition mark_used (v : verification) : verification :=
  {| v_id := v_id v; v_user_id := v_user_id v; v_email := v_email v;
     v_code := v_code v; v_expires_at := v_expires_at v; v_used := true;
     v_created_at := v_created_at v |}.

Definition approve (u : user) : user :=
  {| u_id := u_id u; u_name := u_name u; u_email := u_email u;
     u_password := u_password u; u_role := u_role u; u_country := u_country u;
     u_approved := true |}.

(** [UPDATE email_verifications SET used = 1 WHERE id = ?] and then
    [UPDATE users SET approved = 1 WHERE id = ?], for the row found. *)
Definition verified (r : verification) (s : store) : store :=
  {| users := Sql.update (Sql.user_is (v_user_id r)) approve (users s);
     orders := orders s;
     email_verifications :=
       Sql.update (verification_is (v_id r)) mark_used (email_verifications s);
     next_user_id := next_user_id s; next_order_id := next_order_id s;
     next_verification_id := next_verification_id s |}.

(** [POST /api/verify-email] *)
Definition verify_email (now : Z) (email_ code_ : string) (s : store) : store * reply :=
  if String.eqb email_ "" || String.eqb code_ "" then bad_request s "Missing email or code"
  else
    match active_verification (normalize_email email_) s with
    | None => bad_request s "No active verification found"
    | Some row =>
        if (v_expires_at row <? now)%Z then bad_request s "Code expired"
        else if negb (String.eqb (v_code row) (JS.trim code_)) then bad_request s "Invalid code"
        else (verified row s, Json 200 "Email verified. You may now log in.")
    end.

(** [POST /api/approve-user/:id] *)
Definition approve_user (auth : option principal) (id : option Z)
    (s : store) : store * reply :=
  admin_only auth s
    match id with
    | None => bad_request s "Invalid user id"
    | Some uid =>
        match Sql.get (Sql.user_is uid) (users s) with
        | None => (s, Json 404 "User not found")
        | Some u =>
            if u_approved u then ok s "User already approved"
            else
              ({| users := Sql.update (Sql.user_is uid) approve (users s);
                  orders := orders s;
                  email_verifications :=
                    Sql.update (fun v => (v_user_id v =? uid)%Z) mark_used
                      (email_verifications s);
                  next_user_id := next_user_id s; next_order_id := next_order_id s;
                  next_verification_id := next_verification_id s |},
               Json 200 "User approved successfully")
        end
    end.

(** What deleting user [uid] does to a row of [orders]:
    [ON DELETE SET NULL] on both references. *)
Definition forget_user (uid : Z) (o : order) : order :=
  let o1 := if Sql.eq (client_id o) (VInt uid) then set_client_id VNull o else o in
  if Sql.eq (writer_id o1) (VInt uid) then set_writer_id VNull o1 else o1.

(** [DELETE /api/users/:id], with [ON DELETE CASCADE] on the codes. *)
Definition delete_user (auth : option principal) (id : option Z)
    (s : store) : store * reply :=
  admin_only auth s
    match id with
    | None => bad_request s "Invalid id"
    | Some uid =>
        if existsb (Sql.user_is uid) (users s) then
          ({| users := Sql.delete (Sql.user_is uid) (users s);
              orders := map (forget_user uid) (orders s);
              email_verifications :=
                Sql.delete (fun v => (v_user_id v =? uid)%Z) (email_verifications s);
              next_user_id := next_user_id s; next_order_id := next_order_id s;
              next_verification_id := next_verification_id s |},
           Json 200 "User deleted successfully")
        else ok s "User deleted successfully"
    end.

(** ** Serving documents *)

(** [toInt] of a column read back from the store. *)
Definition toInt (p : option value) : option Z :=
  match p with
  | None | Some VNull => None
  | Some v => JS.trunc (JS.to_Number v)
  end.

(** The row [SELECT id, role FROM users WHERE id = ?] gives. *)
Definition user_row (u : user) : gmap string value :=
  {[ "id" := VInt (u_id u); "role" := VText (u_role u) ]}.

(** [authUser ? toInt(authUser.id) : toInt(req.query.userId)] *)
Definition requester (auth : option principal) (userId : option Z) : option Z :=
  match auth with
  | Some a => Some (p_id a)
  | None => userId
  end.

Definition submission_columns : list string :=
  ["submission_file"; "client_id"; "writer_id"; "status"].

Definition preview_headers : list (string * string) :=
  [("Content-Type", "application/pdf"); ("Content-Disposition", "inline");
   ("X-Content-Type-Options", "nosniff"); ("Cache-Control", "no-store")].

Definition inline_headers : list (string * string) :=
  [("Content-Type", "application/octet-stream"); ("Content-Disposition", "inline");
   ("X-Content-Type-Options", "nosniff"); ("Cache-Control", "no-store");
   ("Accept-Ranges", "none")].

(** [GET /api/submission/:orderId] *)
Definition submission (auth : option principal) (orderId userId : option Z)
    (s : store) : response :=
  match orderId with
  | None => Json 400 "Invalid order id"
  | Some oid =>
      match select submission_columns <$> Sql.get (Sql.order_is oid) (orders s) with
      | None => Json 404 "Order not found"
      | Some order =>
          if negb (JS.truthy_prop (order !! "submission_file"))
          then Json 404 "No submission available"
          else
            let reqId := requester auth userId in
            let url := String.append "/uploads/"
                         (Path.basename (JS.to_String (order !! "submission_file"))) in
            let direct :=
              match auth with
              | Some a =>
                  String.eqb (p_role a) "admin"
                  || JS.strict_eq (Some (VInt (p_id a))) (order !! "writer_id")
              | None => false
              end in
            if direct then Link url
            else if negb (falsy_id reqId)
                    && bool_decide (reqId = toInt (order !! "client_id"))
            then
              match select ["payment_status"] <$> Sql.get (Sql.order_is oid) (orders s) with
              | Some prow =>
                  if JS.is_paid (prow !! "payment_status") then Link url
                  else Json 403 "Download blocked until payment is completed"
              | None => Json 403 "Download blocked until payment is completed"
              end
            else Json 403 "Access denied"
      end
  end.

(** [path.join(previewDir, `${orderId}.pdf`)] *)
Definition preview_artifact (oid : Z) : string :=
  Path.join Path.previewDir (String.append (JS.show_int oid) ".pdf").

(** [path.join(uploadDir, path.basename(order.submission_file))].  Where
    [submission_file] is truthy it is a string: only [/api/submit-work]
    writes that column. *)
Definition original_of (submission_file_ : option value) : string :=
  Path.join Path.uploadDir (Path.basename (JS.to_String submission_file_)).

(** The innermost callback of the preview route: what is answered once
    the order row and the requester's row are both at hand. *)
Definition preview_respond (d : disk) (oid : Z)
    (order user : gmap string value) : response :=
  let filePath := original_of (order !! "submission_file") in
  if JS.strict_eq (user !! "role") (Some (VText "admin"))
     || JS.strict_eq (user !! "id") (order !! "writer_id")
  then SendFile [] filePath
  else if JS.strict_eq (user !! "id") (order !! "client_id") then
    if JS.truthy_prop (order !! "payment_status")
       && JS.is_paid (order !! "payment_status")
    then SendFile [] filePath
    else
      let previewFile := preview_artifact oid in
      if existsSync d previewFile then SendFile preview_headers previewFile
      else if existsSync d filePath then Pipe inline_headers filePath
      else Json 404 "File not found"
  else Json 403 "Access denied".

(** [GET /api/preview/:orderId] *)
Definition preview (d : disk) (auth : option principal) (orderId userId : option Z)
    (s : store) : response :=
  match orderId, requester auth userId with
  | None, _ => Json 400 "Invalid order id"
  | Some _, None => Json 403 "Access denied"
  | Some oid, Some requesterId =>
      if (requesterId =? 0)%Z then Json 403 "Access denied"
      else
        match select submission_columns <$> Sql.get (Sql.order_is oid) (orders s) with
        | None => Json 404 "Submission not found"
        | Some order =>
            if negb (JS.truthy_prop (order !! "submission_file"))
            then Json 404 "Submission not found"
            else
              match user_row <$> Sql.get (Sql.user_is requesterId) (users s) with
              | None => Json 403 "Access denied"
              | Some user => preview_respond d oid order user
              end
        end
  end.

(** A [GET /uploads/<name>] request: the credential it may carry, which
    nothing on this path reads, and the path after [/uploads/], percent
    signs decoded.  A request whose path carries an encoded slash is
    outside the model. *)
Record file_request : Type := {
  fr_auth : option principal;
  fr_name : string
}.

(** [WHERE submission_file LIKE ?] with [`%${filename}`]. *)
Definition file_matches (filename : string) (o : order) : bool :=
  Sql.like_value (String.append "%" filename) (submission_file o).

(** The handler of [GET /uploads/:filename]. *)
Definition uploads_route (req : file_request) (s : store) : response :=
  let filename := Path.basename (fr_name req) in
  if String.eqb filename "" then Text 400 "Invalid filename"
  else
    match select ["status"] <$> Sql.get (file_matches filename) (orders s) with
    | None => Text 404 "Not found"
    | Some _ =>
        match select ["payment_status"] <$> Sql.get (file_matches filename) (orders s) with
        | Some prow =>
            if JS.is_paid (prow !! "payment_status")
            then SendFile [] (Path.join Path.uploadDir filename)
            else Text 403 "Direct download blocked. Payment required."
        | None => Text 403 "Direct download blocked. Payment required."
        end
    end.

(** A file name as multer makes it, [`${Date.now()}-${random}${ext}`]:
    not empty and without a slash. *)
Definition plain_name (f : string) : bool :=
  negb (String.eqb f "")
  && forallb (fun c => negb (Ascii.eqb c "/"%char)) (list_ascii_of_string f).

(** Neither a slash nor a dot. *)
Definition quiet (c : ascii) : bool :=
  negb (Ascii.eqb c "/"%char) && negb (Ascii.eqb c "."%char).

(** A name that is one segment and stays that segment under
    [path.normalize]. *)
Definition upload_name (n : string) : bool :=
  plain_name n && negb (String.eqb n ".") && negb (String.eqb n "..").

(** The route [/uploads/:filename] takes a request whose path after
    [/uploads/] is one segment, with or without a slash behind it. *)
Definition route_matches (name : string) : bool := plain_name (Path.chop_slash name).

(** [express.static(root)] with its default options, for the request
    path [p] under the mount point; [url] is the path of the request as
    it was sent.  [None] is [next()]: the middleware passes on a path that
    climbs out of [root], a dot file, and a path that holds no regular
    file.  A path with a slash at its end is answered with the
    [index.html] under it, a directory without one with a redirection to
    the same path with the slash. *)
Definition serve_static (root : string) (d : disk) (url p : string) : option response :=
  let segs := Path.normalize p in
  let target := Path.under root segs in
  if match segs with seg :: _ => String.eqb seg ".." | [] => false end then None
  else if String.eqb p "" || Path.ends_with_slash p then
    if is_file d (Path.join target "index.html")
    then Some (SendFile [] (Path.join target "index.html"))
    else None
  else if Path.dot_name (List.last segs "") then None
  else
    match d !! target with
    | Some File => Some (SendFile [] target)
    | Some Directory => Some (Reply (Redirect (String.append url "/")))
    | None => None
    end.

(** What is registered for [GET /uploads/<name>], in the order of
    registration: the static middleware of the site's pages, mounted on
    every path; the static middleware of [app.use("/uploads", ...)]; the
    route.  [cors()] and [express.json()], registered before them, let a
    [GET] through. *)
Inductive layer : Type :=
| StaticPublic
| StaticUploads
| UploadsRoute.

#[global] Instance layer_eq_dec : EqDecision layer.
Proof. solve_decision. Defined.

Definition uploads_stack : list layer := [StaticPublic; StaticUploads; UploadsRoute].

Definition run_layer (l : layer) (d : disk) (s : store) (req : file_request) : option response :=
  let url := String.append "/uploads/" (fr_name req) in
  match l with
  | StaticPublic =>
      serve_static Path.publicDir d url (String.append "uploads/" (fr_name req))
  | StaticUploads => serve_static Path.uploadDir d url (fr_name req)
  | UploadsRoute =>
      if route_matches (fr_name req) then Some (uploads_route req s) else None
  end.

(** Express walks the stack until a layer answers; the layers that ran
    are returned with the answer.  Where no layer answers, Express
    itself answers 404. *)
Fixpoint dispatch (stack : list layer) (d : disk) (s : store) (req : file_request)
    : list layer * option response :=
  match stack with
  | [] => ([], None)
  | l :: rest =>
      match run_layer l d s req with
      | Some r => ([l], Some r)
      | None => let (ran, r) := dispatch rest d s req in (l :: ran, r)
      end
  end.

Definition get_uploads (d : disk) (s : store) (req : file_request)
    : list layer * option response :=
  dispatch uploads_stack d s req.

(** The three outcomes of a document request: the original file as it is,
    a file or stream under the restrictive headers, or no file at all. *)
Inductive outcome : Type :=
| Full
| Preview
| Deny.

#[global] Instance outcome_eq_dec : EqDecision outcome.
Proof. solve_decision. Defined.

(** What a requester gets on disk [d].  A call of [res.sendFile] without
    headers gives the file in full and one under the restrictive headers a
    preview, when [send] sends the file; the stream gives a preview when
    the file can be read; the link to the file stands for the file; any
    other reply, and any call that sends nothing, gives no file. *)
Definition outcome_of (d : disk) (r : response) : outcome :=
  match r with
  | SendFile [] p => if sends d p then Full else Deny
  | SendFile (_ :: _) p => if sends d p then Preview else Deny
  | Pipe _ p => if streams d p then Preview else Deny
  | Reply (Link _) => Full
  | Reply _ => Deny
  end.

(** What the requester of [GET /uploads/<name>] gets on disk [d]. *)
Definition legacy_outcome (d : disk) (s : store) (req : file_request) : outcome :=
  match snd (get_uploads d s req) with
  | Some r => outcome_of d r
  | None => Deny
  end.

(** Whether the handler ended with a reply of its own rather than with a
    call that sends a file. *)
Definition refused (r : response) : bool :=
  match r with
  | Reply _ => true
  | _ => false
  end.

(** The status code of a reply. *)
Definition code_of (r : reply) : Z :=
  match r with
  | Json c _ => c
  | Text c _ => c
  | Link _ => 200
  | Redirect _ => 301
  end.

(** ** The server as a transition system *)

(** One constructor per request that writes to the store, and one for the
    timer of a simulated payment. *)
Inductive op : Type :=
| Register (now : Z) (mx : bool) (hashed code name_ email_ password_ role_ country_ : string)
| ResendVerification (now : Z) (code email_ : string)
| VerifyEmail (now : Z) (email_ code_ : string)
| ApproveUser (auth : option principal) (id : option Z)
| DeleteUser (auth : option principal) (id : option Z)
| CreateOrder (now : Z) (title_ description_ : string) (client : option Z)
              (submission_date_ expected_ready_ : string) (file : option string)
| Assign (auth : option principal) (orderId writerId : option Z)
| Claim (auth : option principal) (orderId : option Z)
| UpdateStatus (orderId : option Z) (status_ : option value)
| SubmitWork (orderId : option Z) (file : option string)
| SendToClient (auth : option principal) (orderId : option Z)
| DeleteOrder (auth : option principal) (id : option Z)
| UpdateOrder (auth : option principal) (id : option Z) (body : gmap string value)
| PaymentsInitiate (env : mpesa_env) (now rnd : Z) (stk_ok : bool)
                   (orderId : option Z) (phoneNumber : string) (amt : Z)
| TimerFires (orderId : Z) (paymentRef : string)
| PaymentsCallback (now : Z) (qOrder : option Z) (body : callback_body).

(** What a request answers and the store it leaves.  The timer answers
    nobody. *)
Definition handle (o : op) (s : store) : store * option reply :=
  let http (r : store * reply) := (fst r, Some (snd r)) in
  match o with
  | Register now mx h c n e p r co => http (register now mx h c n e p r co s)
  | ResendVerification now c e => http (resend_verification now c e s)
  | VerifyEmail now e c => http (verify_email now e c s)
  | ApproveUser a i => http (approve_user a i s)
  | DeleteUser a i => http (delete_user a i s)
  | CreateOrder now t d c sd er f => http (create_order now t d c sd er f s)
  | Assign a i w => http (assign a i w s)
  | Claim a i => http (claim a i s)
  | UpdateStatus i st => http (update_status i st s)
  | SubmitWork i f => http (submit_work i f s)
  | SendToClient a i => http (send_to_client a i s)
  | DeleteOrder a i => http (delete_order a i s)
  | UpdateOrder a i b => http (update_order a i b s)
  | PaymentsInitiate env now rnd k i ph amt =>
      http (payments_initiate env now rnd k i ph amt s)
  | TimerFires i r => (markOrderPaid i r s, None)
  | PaymentsCallback now q b => http (payments_callback now q b s)
  end.

Definition step (o : op) (s : store) : store := fst (handle o s).

(** The store after a sequence of requests, oldest first. *)
Definition run (ops : list op) (s : store) : store :=
  fold_left (fun s o => step o s) ops s.

(** The two requests that overwrite [status] with what the caller sends. *)
Definition overwrites_status (o : op) : bool :=
  match o with
  | UpdateStatus _ _ | UpdateOrder _ _ _ => true
  | _ => false
  end.

(** ** Requests in flight

    A handler does not run in one piece.  [db.get], [db.all] and [db.run]
    hand their statement to the database and return; what follows in the
    handler is the callback, which runs once the statement has, and the
    statements of other requests run in between: the server holds no lock
    and opens no transaction.  What is left of a request is its answer or
    its next statement, which reads or writes the store as it is by then
    and leaves the rest. *)
#[warnings="-register-all"]
Inductive task : Type :=
| Answer (r : option reply)
| Statement (callback : store -> store * task).

Definition respond (r : reply) : task := Answer (Some r).

(** [db.get(sql, params, callback)] *)
Definition db_get (callback : store -> task) : task :=
  Statement (fun s => (s, callback s)).

(** A handler with one statement, whose checks before it do not read the
    store: the checks and the statement, as one step. *)
Definition single (handler : store -> store * reply) : task :=
  Statement (fun s => (fst (handler s), respond (snd (handler s)))).

(** The request run on its own, with no statement of another request
    between its own. *)
Fixpoint finish (t : task) (s : store) : store * option reply :=
  match t with
  | Answer r => (s, r)
  | Statement callback => finish (snd (callback s)) (fst (callback s))
  end.

Definition behind_auth (auth : option principal) (k : principal -> task) : task :=
  match auth with
  | None => respond (Json 401 "Unauthorized")
  | Some u => k u
  end.

Definition behind_admin (auth : option principal) (k : task) : task :=
  behind_auth auth (fun u =>
    if String.eqb (p_role u) "admin" then k
    else respond (Json 403 "Admin privileges required")).

(** The chain [/api/assign] and [/api/claim] share: the writer's orders
    in progress are read, then the order, then the order is written; the
    three answers [busy], [done] and [failed] are the handler's own. *)
Definition take (oid w : Z) (busy done failed : string) : task :=
  db_get (fun s =>
    match Sql.get (active_for w) (orders s) with
    | Some _ => respond (Json 400 busy)
    | None =>
        db_get (fun s =>
          match select ["writer_id"; "status"] <$> Sql.get (Sql.order_is oid) (orders s) with
          | None => respond (Json 404 "Order not found")
          | Some order =>
              if JS.truthy_prop (order !! "writer_id")
              then respond (Json 400 "Order already assigned")
              else if negb (JS.strict_eq (order !! "status") (Some (VText "Pending Assignment")))
              then respond (Json 400 "Order not available for assignment")
              else
                Statement (fun s =>
                  if Sql.references_user (users s) (VInt w)
                  then (take_order oid w s, respond (Json 200 done))
                  else (s, respond (Json 500 failed)))
          end)
    end).

Definition assign_task (auth : option principal) (orderId writerId : option Z) : task :=
  behind_admin auth
    match orderId, writerId with
    | Some oid, Some w =>
        take oid w "Writer already has an active order"
          "Order assigned successfully" "Failed to assign order"
    | _, _ => respond (Json 400 "Missing or invalid order or writer ID")
    end.

Definition claim_task (auth : option principal) (orderId : option Z) : task :=
  behind_auth auth (fun u =>
    if negb (String.eqb (p_role u) "writer")
    then respond (Json 403 "Writer privileges required")
    else
      match orderId with
      | Some oid =>
          take oid (p_id u) "You already have an active order"
            "Order claimed successfully" "Failed to claim order"
      | None => respond (Json 400 "Missing orderId or invalid writer")
      end).

(** [INSERT INTO email_verifications] under the foreign key on
    [user_id]; [done] and [failed] are the two answers of the callback. *)
Definition verification_insert (uid : Z) (e code : string) (now : Z)
    (done failed : reply) : task :=
  Statement (fun s =>
    if Sql.references_user (users s) (VInt uid)
    then (insert_verification uid e code now s, respond done)
    else (s, respond failed)).

Definition register_task (now : Z) (mx : bool) (hashed code : string)
    (name_ email_ password_ role_ country_ : string) : task :=
  if String.eqb name_ "" || String.eqb email_ "" || String.eqb password_ ""
     || String.eqb country_ ""
  then respond (Json 400 "Missing required fields")
  else
    let emailLower := normalize_email email_ in
    if negb (email_format_ok emailLower) then respond (Json 400 "Invalid email format")
    else if negb mx then respond (Json 400 "Email domain is invalid or has no MX records")
    else
      let userRole :=
        if bool_decide (role_ ∈ ["admin"; "writer"; "client"]) then role_ else "client" in
      db_get (fun s =>
        match Sql.get (user_by_email emailLower) (users s) with
        | Some _ => respond (Json 409 "Email already registered")
        | None =>
            (* INSERT INTO users, under [email TEXT UNIQUE] *)
            Statement (fun s =>
              match Sql.get (user_by_email emailLower) (users s) with
              | Some _ => (s, respond (Json 500 "Registration failed"))
              | None =>
                  let userId := next_user_id s in
                  let u := {| u_id := userId; u_name := name_; u_email := emailLower;
                              u_password := hashed; u_role := userRole;
                              u_country := country_; u_approved := false |} in
                  (with_users (users s ++ [u]) (userId + 1) s,
                   verification_insert userId emailLower code now
                     (Json 200 "Registered. Check your email for a verification code.")
                     (Json 500 "Registration failed (verification)"))
              end)
        end).

Definition resend_task (now : Z) (code : string) (email_ : string) : task :=
  if String.eqb email_ "" then respond (Json 400 "Missing email")
  else
    let emailLower := normalize_email email_ in
    db_get (fun s =>
      match Sql.get (user_by_email emailLower) (users s) with
      | None => respond (Json 404 "Email not found")
      | Some u =>
          if u_approved u then respond (Json 400 "Email already verified")
          else verification_insert (u_id u) emailLower code now
                 (Json 200 "Verification code resent")
                 (Json 500 "Failed to create verification code")
      end).

Definition verify_task (now : Z) (email_ code_ : string) : task :=
  if String.eqb email_ "" || String.eqb code_ ""
  then respond (Json 400 "Missing email or code")
  else
    db_get (fun s =>
      match active_verification (normalize_email email_) s with
      | None => respond (Json 400 "No active verification found")
      | Some row =>
          if (v_expires_at row <? now)%Z then respond (Json 400 "Code expired")
          else if negb (String.eqb (v_code row) (JS.trim code_))
          then respond (Json 400 "Invalid code")
          else
            (* UPDATE email_verifications SET used = 1 WHERE id = ? *)
            Statement (fun s =>
              (with_verifications
                 (Sql.update (verification_is (v_id row)) mark_used (email_verifications s)) s,
               (* UPDATE users SET approved = 1 WHERE id = ? *)
               Statement (fun s =>
                 (with_users (Sql.update (Sql.user_is (v_user_id row)) approve (users s))
                    (next_user_id s) s,
                  respond (Json 200 "Email verified. You may now log in.")))))
      end).

Definition approve_user_task (auth : option principal) (id : option Z) : task :=
  behind_admin auth
    match id with
    | None => respond (Json 400 "Invalid user id")
    | Some uid =>
        db_get (fun s =>
          match Sql.get (Sql.user_is uid) (users s) with
          | None => respond (Json 404 "User not found")
          | Some u =>
              if u_approved u then respond (Json 200 "User already approved")
              else
                (* UPDATE users SET approved = 1 WHERE id = ? *)
                Statement (fun s =>
                  (with_users (Sql.update (Sql.user_is uid) approve (users s))
                     (next_user_id s) s,
                   (* UPDATE email_verifications SET used = 1 WHERE user_id = ? *)
                   Statement (fun s =>
                     (with_verifications
                        (Sql.update (fun v => (v_user_id v =? uid)%Z) mark_used
                           (email_verifications s)) s,
                      respond (Json 200 "User approved successfully")))))
          end)
    end.

Definition initiate_task (env : mpesa_env) (now rnd : Z) (stk_ok : bool)
    (orderId : option Z) (phoneNumber : string) (amt : Z) : task :=
  match orderId with
  | None => respond (Json 400 "Missing orderId or phoneNumber")
  | Some oid =>
      if String.eqb (JS.trim phoneNumber) ""
      then respond (Json 400 "Missing orderId or phoneNumber")
      else
        db_get (fun s =>
          match Sql.get (Sql.order_is oid) (orders s) with
          | None => respond (Json 404 "Order not found")
          | Some _ =>
              if negb (consumer_key env) then
                Statement (fun s =>
                  (record_pending oid (make_ref "SIM" now rnd) amt s,
                   respond (Json 200 "Simulated payment initiated")))
              else if negb (consumer_secret env) || negb (shortcode env)
                      || negb (passkey env) || negb (callback_url env)
              then respond (Json 500 "MPesa credentials not fully configured on server")
              else
                Statement (fun s =>
                  (record_pending oid (make_ref "MPESA" now rnd) amt s,
                   respond (if stk_ok then Json 200 "STK push initiated"
                            else Json 502 "Failed to initiate STK push")))
          end)
  end.

(** What a request is when it arrives. *)
Definition task_of (o : op) : task :=
  match o with
  | Register now mx h c n e p r co => register_task now mx h c n e p r co
  | ResendVerification now c e => resend_task now c e
  | VerifyEmail now e c => verify_task now e c
  | ApproveUser a i => approve_user_task a i
  | DeleteUser a i => single (delete_user a i)
  | CreateOrder now t d c sd er f => single (create_order now t d c sd er f)
  | Assign a i w => assign_task a i w
  | Claim a i => claim_task a i
  | UpdateStatus i st => single (update_status i st)
  | SubmitWork i f => single (submit_work i f)
  | SendToClient a i => single (send_to_client a i)
  | DeleteOrder a i => single (delete_order a i)
  | UpdateOrder a i b => single (update_order a i b)
  | PaymentsInitiate env now rnd k i ph amt => initiate_task env now rnd k i ph amt
  | TimerFires i r => Statement (fun s => (markOrderPaid i r s, Answer None))
  | PaymentsCallback now q b => single (payments_callback now q b)
  end.

(** The server between two events: the database, and the requests in
    flight, each with the request it came from. *)
Record config : Type := {
  db : store;
  flight : list (op * task)
}.

(** A request arrives, or the request at position [i] of those in flight
    moves on: its next statement runs, or its answer leaves. *)
Inductive event : Type :=
| Arrive (o : op)
| Advance (i : nat).

Definition fire (e : event) (c : config) : config :=
  match e with
  | Arrive o => {| db := db c; flight := (flight c ++ [(o, task_of o)])%list |}
  | Advance i =>
      match flight c !! i with
      | Some (o, Statement callback) =>
          {| db := fst (callback (db c));
             flight := <[i := (o, snd (callback (db c)))]> (flight c) |}
      | Some (_, Answer _) => {| db := db c; flight := delete i (flight c) |}
      | None => c
      end
  end.

Definition play (es : list event) (c : config) : config :=
  fold_left (fun c e => fire e c) es c.

Definition start : config := {| db := empty_store; flight := [] |}.

(** The stores the server can be in: those some sequence of events
    leaves, whatever the order in which the statements of the requests
    fall. *)
Definition reachable (s : store) : Prop := exists es, db (play es start) = s.

(** One request after the other, each run to its answer before the next
    arrives. *)
Definition in_turn (ops : list op) : list event :=
  flat_map (fun o => Arrive o :: repeat (Advance 0) 4) ops.

(** What holds of every statement of a request. *)
Fixpoint always (Q : store -> store -> Prop) (t : task) : Prop :=
  match t with
  | Answer _ => True
  | Statement callback =>
      forall s, Q s (fst (callback s)) /\ always Q (snd (callback s))
  end.

(** The writer an assignment or a claim would give an order to. *)
Definition taker (o : op) : option Z :=
  match o with
  | Assign _ _ w => w
  | Claim a _ => p_id <$> a
  | _ => None
  end.

(** An arrival the single-active property does not survive: one of the
    two overwrites, or an assignment or claim for a writer while another
    for that writer has not answered yet. *)
Definition disturbs (c : config) (e : event) : bool :=
  match e with
  | Arrive o =>
      overwrites_status o
      || match taker o with
         | Some w => existsb (fun p => bool_decide (taker (fst p) = Some w)) (flight c)
         | None => false
         end
  | Advance _ => false
  end.

Fixpoint calm (es : list event) (c : config) : bool :=
  match es with
  | [] => true
  | e :: es => negb (disturbs c e) && calm es (fire e c)
  end.

(** *** What a request relies on and what it keeps

    A property [I] of the store is kept by every run if each statement
    keeps it.  A statement may count on what an earlier statement of its
    own request has read, as far as the statements of the other requests
    keep that: [R o s0 s] is what request [o] relies on between two of
    its statements, [G o s s1] what each of its statements guarantees to
    the others.  [J] is a property already known of every store,
    [admitted] the requests a run is made of, and [apart] tells which
    requests may be in flight together. *)
Section Discipline.

Variables J I : store -> Prop.
Variables R G : op -> store -> store -> Prop.
Variable apart : op -> op -> Prop.
Variable admitted : op -> Prop.

Fixpoint sound (o : op) (t : task) (s0 : store) : Prop :=
  match t with
  | Answer _ => True
  | Statement callback =>
      forall s, J s -> I s -> R o s0 s ->
        I (fst (callback s)) /\ G o s (fst (callback s))
        /\ sound o (snd (callback s)) (fst (callback s))
  end.

Definition may_fire (c : config) (e : event) : Prop :=
  match e with
  | Arrive o =>
      admitted o /\ Forall (fun p => apart o (fst p) /\ apart (fst p) o) (flight c)
  | Advance _ => True
  end.

Fixpoint permitted (es : list event) (c : config) : Prop :=
  match es with
  | [] => True
  | e :: es => may_fire c e /\ permitted es (fire e c)
  end.

Definition config_ok (c : config) : Prop :=
  I (db c)
  /\ (forall i p, flight c !! i = Some p ->
        exists s0, R (fst p) s0 (db c) /\ sound (fst p) (snd p) s0)
  /\ (forall i j p q, i <> j -> flight c !! i = Some p -> flight c !! j = Some q ->
        apart (fst p) (fst q)).

End Discipline.

Definition is_update_order (o : op) : bool :=
  match o with
  | UpdateOrder _ _ _ => true
  | _ => false
  end.

Definition is_initiate (o : op) : bool :=
  match o with
  | PaymentsInitiate _ _ _ _ _ _ _ => true
  | _ => false
  end.

(** *** Properties of a store *)

(** How many orders writer [w] has in progress. *)
Definition count_active (w : Z) (os : list order) : nat :=
  length (List.filter (active_for w) os).

Definition single_active (s : store) : Prop :=
  forall w, (count_active w (orders s) <= 1)%nat.

(** What an assignment or a claim relies on between its statements: the
    writer it has found without an order in progress still has none. *)
Definition idle_kept (o : op) (s0 s : store) : Prop :=
  forall w, taker o = Some w ->
    count_active w (orders s0) = 0%nat -> count_active w (orders s) = 0%nat.

(** What a statement of a request guarantees to the others: it gives no
    order in progress to a writer who has none, the writer the request
    itself takes an order for apart. *)
Definition others_idle_kept (o : op) (s s1 : store) : Prop :=
  forall w, taker o <> Some w ->
    count_active w (orders s) = 0%nat -> count_active w (orders s1) = 0%nat.

(** The two requests are not both an assignment or claim for one writer. *)
Definition other_writer (o o' : op) : Prop :=
  taker o = None \/ taker o' = None \/ taker o <> taker o'.

(** Both references of an order point into [us] or are [NULL]. *)
Definition refs_ok (us : list user) (o : order) : Prop :=
  Sql.references_user us (client_id o) = true
  /\ Sql.references_user us (writer_id o) = true.

(** Keys are positive, below the next key, and not repeated; every
    reference of an order is [NULL] or the id of a user. *)
Record store_ok (s : store) : Prop := {
  ok_next : 0 < next_user_id s /\ 0 < next_order_id s /\ 0 < next_verification_id s;
  ok_user_ids : Forall (fun u => 0 < u_id u < next_user_id s) (users s);
  ok_order_ids : Forall (fun o => 0 < o_id o < next_order_id s) (orders s);
  ok_verification_ids :
    Forall (fun v => 0 < v_id v < next_verification_id s) (email_verifications s);
  ok_users_nodup : NoDup (map u_id (users s));
  ok_orders_nodup : NoDup (map o_id (orders s));
  ok_verifications_nodup : NoDup (map v_id (email_verifications s));
  ok_references : Forall (refs_ok (users s)) (orders s)
}.

(** The order of the payment states, and a step backwards in it. *)
Definition pay_rank (v : value) : option nat :=
  match v with
  | VText t =>
      if String.eqb t "unpaid" then Some 0%nat
      else if String.eqb t "pending" then Some 1%nat
      else if String.eqb t "paid" then Some 2%nat
      else None
  | _ => None
  end.

Definition regresses (before after : value) : Prop :=
  exists i j, pay_rank before = Some i /\ pay_rank after = Some j /\ (j < i)%nat.

(** ** A worked history

    Three accounts, two orders, and the requests that take the first order
    from creation to payment.  The later sections evaluate the handlers on
    the stores it passes through. *)

Module History.

Definition ann : principal := {| p_id := 1; p_role := "client"; p_email := "ann@mail.example" |}.
Definition wes : principal := {| p_id := 2; p_role := "writer"; p_email := "wes@mail.example" |}.
Definition ada : principal := {| p_id := 3; p_role := "admin"; p_email := "ada@mail.example" |}.

Definition sign_up : list op :=
  [ Register 1000 true "hash-a" "111111" "Ann" "Ann@Mail.example" "pw-a" "client" "KE";
    Register 2000 true "hash-w" "222222" "Wes" "wes@mail.example" "pw-w" "writer" "KE";
    Register 3000 true "hash-d" "333333" "Ada" "ada@mail.example" "pw-d" "admin" "KE";
    VerifyEmail 4000 "ann@mail.example" "111111";
    VerifyEmail 5000 "wes@mail.example" "222222";
    VerifyEmail 6000 "ada@mail.example" "333333" ].

Definition two_orders : list op :=
  sign_up ++
  [ CreateOrder 7000 "Essay" "Two pages on rivers" (Some 1) "" "" None;
    CreateOrder 8000 "Report" "Quarterly figures" (Some 1) "" "" None ].

Definition upload : string := "1700000000000-123456789.docx".

(** Wes claims the essay and hands it in. *)
Definition submitted : list op :=
  two_orders ++ [ Claim (Some wes) (Some 1); SubmitWork (Some 1) (Some upload) ].

(** The gateway confirms Ann's payment for it. *)
Definition paid : list op :=
  submitted ++ [ PaymentsCallback 9000 None (Generic (Some 1) (Some (VText "REF-1"))) ].

Definition on_disk : disk := {[ Path.join Path.uploadDir upload := File ]}.

(** Wes claims both orders at once: each of the two requests has read
    his orders in progress and the order it is after before the other
    has written. *)
Definition racing : list event :=
  in_turn two_orders ++
  [ Arrive (Claim (Some wes) (Some 1)); Arrive (Claim (Some wes) (Some 2));
    Advance 0; Advance 1; Advance 0; Advance 1; Advance 0; Advance 1 ].

(** All five [MPESA_*] variables are set: payments go to the gateway. *)
Definition live : mpesa_env :=
  {| consumer_key := true; consumer_secret := true; shortcode := true;
     passkey := true; callback_url := true |}.

(** Ann starts paying for the essay: the STK push has gone out, with
    [/api/payments/callback?orderId=1] as the address to call back. *)
Definition awaiting : list op :=
  submitted ++ [ PaymentsInitiate live 9500 42 true (Some 1) "254708374149" 500 ].

(** The callback the gateway sends when the customer has paid: the
    result code is the number [0]. *)
Definition paid_callback : callback_body :=
  StkCallback (Some (VInt 0)) "ws_CO_191220191020363925" None.

(** No [MPESA_*] variable is set: payments are simulated. *)
Definition simulated : mpesa_env :=
  {| consumer_key := false; consumer_secret := false; shortcode := false;
     passkey := false; callback_url := false |}.

(** The essay is paid, and a payment is initiated on it once more: the
    request has read the order, its [UPDATE] is next. *)
Definition paid_again : list event :=
  in_turn paid ++
  [ Arrive (PaymentsInitiate simulated 9500 42 true (Some 1) "0700000000" 500);
    Advance 0 ].

(** Wes claims the essay while Ann places a third order. *)
Definition overlapping : list event :=
  in_turn two_orders ++
  [ Arrive (Claim (Some wes) (Some 1));
    Arrive (CreateOrder 9000 "Notes" "One page" (Some 1) "" "" None);
    Advance 0; Advance 1; Advance 0; Advance 0; Advance 1; Advance 0 ].

(** The rows those histories leave behind, written out. *)
Definition ann_row : user :=
  {| u_id := 1; u_name := "Ann"; u_email := "ann@mail.example"; u_password := "hash-a";
     u_role := "client"; u_country := "KE"; u_approved := true |}.
Definition wes_row : user :=
  {| u_id := 2; u_name := "Wes"; u_email := "wes@mail.example"; u_password := "hash-w";
     u_role := "writer"; u_country := "KE"; u_approved := true |}.
Definition ada_row : user :=
  {| u_id := 3; u_name := "Ada"; u_email := "ada@mail.example"; u_password := "hash-d";
     u_role := "admin"; u_country := "KE"; u_approved := true |}.

Definition accounts : list user := [ann_row; wes_row; ada_row].

Definition codes : list verification :=
  [ mark_used (new_verification 1 1 "ann@mail.example" "111111" 1000);
    mark_used (new_verification 2 2 "wes@mail.example" "222222" 2000);
    mark_used (new_verification 3 3 "ada@mail.example" "333333" 3000) ].

Definition essay : order :=
  set_status (VText "Submitted")
    (set_submission_file (VText (String.append "/uploads/" upload))
       (set_writer_id (VInt 2)
          (new_order 1 7000 "Essay" "Two pages on rivers" 1 VNull VNull VNull))).

Definition report : order :=
  new_order 2 8000 "Report" "Quarterly figures" 1 VNull VNull VNull.

Definition desk (os : list order) : store :=
  {| users := accounts; orders := os; email_verifications := codes;
     next_user_id := 4; next_order_id := 3; next_verification_id := 4 |}.

(** A second code is sent to Ann before she verifies, and the draw gives
    the same digits again. *)
Definition same_digits : list op :=
  [ Register 1000 true "hash-a" "111111" "Ann" "ann@mail.example" "pw-a" "client" "KE";
    ResendVerification 61000 "111111" "ann@mail.example" ].

End History.


(** Writer [w] already has an order in progress. *)
Definition has_active (w : Z) (s : store) : Prop :=
  exists o, In o (orders s) /\ writer_id o = VInt w /\ status o = VText "In Progress".

(** The requester of a document request is resolved to the stored user
    [u]: the credential or the [userId] of the query names a key that is
    not [0], and [users] has a row under it. *)
Definition resolved (s : store) (auth : option principal) (userId : option Z)
    (u : user) : Prop :=
  exists rid, requester auth userId = Some rid /\ rid <> 0
              /\ Sql.get (Sql.user_is rid) (users s) = Some u.

(** What a statement of request [o] does to the payment status of an
    order it leaves in the table: the confirmations write ['paid'],
    initiating a payment writes ['pending'], the admin update writes what
    the body carries under [payment_status], and neither of them reads
    what was there; no other request writes the column. *)
Definition pay_change (o : op) (before after : value) : Prop :=
  match o with
  | UpdateOrder _ _ body =>
      after = before
      \/ exists v, body !! "payment_status" = Some v /\ after = text_affinity v
  | PaymentsInitiate _ _ _ _ _ _ _ => after = before \/ after = VText "pending"
  | TimerFires _ _ | PaymentsCallback _ _ _ => after = before \/ after = VText "paid"
  | _ => after = before
  end.

(** The request an event runs a statement of, if it runs one. *)
Definition origin (c : config) (e : event) : option op :=
  match e with
  | Arrive _ => None
  | Advance i => fst <$> flight c !! i
  end.

(** ** Credentials and the routes that only read *)

(** [s.slice(n)] *)
Fixpoint slice_from (n : nat) (s : string) : string :=
  match n, s with
  | O, _ => s
  | S n', String _ s' => slice_from n' s'
  | S _, EmptyString => EmptyString
  end.

(** The token a request carries: what follows ['Bearer '] in the
    [Authorization] header when the header starts so, else the
    [userToken] of the query.  Either input is empty when absent. *)
Definition token_of (authorization userToken : string) : option string :=
  if String.prefix "Bearer " authorization then Some (slice_from 7 authorization)
  else if negb (String.eqb userToken "") then Some userToken
  else None.

(** [getUserFromRequest(req)].  [verify] is [jwt.verify] under the
    server's secret, [None] where it throws. *)
Definition getUserFromRequest (verify : string -> option principal)
    (authorization userToken : string) : option principal :=
  match token_of authorization userToken with
  | Some token => if String.eqb token "" then None else verify token
  | None => None
  end.

(** What [/api/login] sends of the user row: every column but the
    password, which it deletes first. *)
Record profile : Type := {
  pf_id : Z;
  pf_name : string;
  pf_email : string;
  pf_role : string;
  pf_country : string;
  pf_approved : bool
}.

Definition profile_of (u : user) : profile :=
  {| pf_id := u_id u; pf_name := u_name u; pf_email := u_email u;
     pf_role := u_role u; pf_country := u_country u; pf_approved := u_approved u |}.

(** [LoggedIn user payload]: the answer [{ user, token }], the token
    being [jwt.sign(payload)]. *)
Inductive login_answer : Type :=
| LoginRefused (r : reply)
| LoggedIn (user_ : profile) (payload : principal).

(** [POST /api/login].  [compareSync] is [bcrypt.compareSync]. *)
Definition login (compareSync : string -> string -> bool)
    (email_ password_ : string) (s : store) : login_answer :=
  if String.eqb email_ "" || String.eqb password_ ""
  then LoginRefused (Json 400 "Missing credentials")
  else
    match Sql.get (user_by_email (normalize_email email_)) (users s) with
    | None => LoginRefused (Json 401 "Invalid account")
    | Some u =>
        if negb (u_approved u) then LoginRefused (Json 403 "Email not verified")
        else if negb (compareSync password_ (u_password u))
        then LoginRefused (Json 401 "Invalid account")
        else LoggedIn (profile_of u)
               {| p_id := u_id u; p_role := u_role u; p_email := u_email u |}
    end.

(** [col IS NULL] *)
Definition is_sql_null (v : value) : bool :=
  match v with VNull => true | _ => false end.

(** [GET /api/unassigned-orders]:
    [WHERE writer_id IS NULL AND status = 'Pending Assignment']. *)
Definition unassigned (o : order) : bool :=
  is_sql_null (writer_id o) && Sql.eq (status o) (VText "Pending Assignment").

Definition unassigned_orders (s : store) : list order :=
  List.filter unassigned (orders s).

(** [ORDER BY created_at DESC]; rows of the same second stay in rowid
    order. *)
Fixpoint insert_newest_first (o : order) (l : list order) : list order :=
  match l with
  | [] => [o]
  | x :: l' =>
      if (o_created_at x <=? o_created_at o)%Z then o :: l
      else x :: insert_newest_first o l'
  end.

Definition newest_first (l : list order) : list order :=
  fold_right insert_newest_first [] l.

(** [GET /api/assigned-orders/:writer_id] *)
Definition assigned_orders (writer : option Z) (s : store) : reply + list order :=
  match writer with
  | None => inl (Json 400 "Invalid writer id")
  | Some w =>
      inr (newest_first (List.filter (fun o => Sql.eq (writer_id o) (VInt w)) (orders s)))
  end.

(** [GET /api/orders/:id/payment-status]: the row of
    [SELECT id, payment_status, payment_ref, amount, status], or a refusal. *)
Definition payment_status_route (id : option Z) (s : store)
    : reply + gmap string value :=
  match id with
  | None => inl (Json 400 "Invalid id")
  | Some oid =>
      match select ["id"; "payment_status"; "payment_ref"; "amount"; "status"]
              <$> Sql.get (Sql.order_is oid) (orders s) with
      | None => inl (Json 404 "Order not found")
      | Some row => inr row
      end
  end.

(** The address of the stream a preview page embeds:
    [/api/preview/${orderId}?userToken=...] or
    [/api/preview/${orderId}?userId=${requesterId}]. *)
Inductive stream_url : Type :=
| StreamByToken (orderId : Z) (rawToken : string)
| StreamByUserId (orderId requesterId : Z).

(** Of the page [/api/preview-view] builds, the address of the stream in
    its frame and the name at the head of its watermark. *)
Inductive view : Type :=
| ViewRefused (r : reply)
| ViewPage (previewStreamUrl : stream_url) (who : string).

(** The row [SELECT id, name, email, role FROM users WHERE id = ?] gives. *)
Definition user_card (u : user) : gmap string value :=
  {[ "id" := VInt (u_id u); "name" := VText (u_name u);
     "email" := VText (u_email u); "role" := VText (u_role u) ]}.

(** [user.email || user.name || 'user'] *)
Definition watermark_name (user_ : gmap string value) : string :=
  if JS.truthy_prop (user_ !! "email") then JS.to_String (user_ !! "email")
  else if JS.truthy_prop (user_ !! "name") then JS.to_String (user_ !! "name")
  else "user".

(** [GET /api/preview-view/:orderId].  [rawToken] is the token the
    request carries, empty when it carries none; [auth] is what
    [getUserFromRequest] makes of it. *)
Definition preview_view (rawToken : string) (auth : option principal)
    (orderId userId : option Z) (s : store) : view :=
  match orderId, requester auth userId with
  | None, _ => ViewRefused (Text 400 "Invalid order id")
  | Some _, None => ViewRefused (Text 403 "Access denied")
  | Some oid, Some requesterId =>
      if (requesterId =? 0)%Z then ViewRefused (Text 403 "Access denied")
      else
        match select submission_columns <$> Sql.get (Sql.order_is oid) (orders s) with
        | None => ViewRefused (Text 404 "Submission not found")
        | Some order =>
            if negb (JS.truthy_prop (order !! "submission_file"))
            then ViewRefused (Text 404 "Submission not found")
            else
              match user_card <$> Sql.get (Sql.user_is requesterId) (users s) with
              | None => ViewRefused (Text 403 "Access denied")
              | Some user_ =>
                  ViewPage
                    (if negb (String.eqb rawToken "") then StreamByToken oid rawToken
                     else StreamByUserId oid requesterId)
                    (watermark_name user_)
              end
        end
  end.

(** *** Properties of the accounts *)

(** Addresses are not repeated, roles are among the three the server
    knows, and every verification row belongs to a stored user, under that
    user's address. *)
Record accounts_ok (s : store) : Prop := {
  ok_emails_nodup : NoDup (map u_email (users s));
  ok_roles : Forall (fun u => u_role u ∈ ["admin"; "writer"; "client"]) (users s);
  ok_codes_owned :
    Forall (fun v => exists u, In u (users s) /\ u_id u = v_user_id v
                               /\ u_email u = v_email v)
           (email_verifications s)
}.

(** What a request that has read or written a row of [users] counts on
    until its next statement: no key is given out twice, and a row that
    is there later under a key given out by then has the address the row
    under that key had. *)
Definition accounts_kept (s0 s : store) : Prop :=
  next_user_id s0 <= next_user_id s
  /\ forall u, In u (users s) -> u_id u < next_user_id s0 ->
       exists u0, In u0 (users s0) /\ u_id u0 = u_id u /\ u_email u0 = u_email u.

(** No order has a writer while it is still pending assignment. *)
Definition assigned_means_started (s : store) : Prop :=
  Forall (fun o => writer_id o <> VNull -> status o <> VText "Pending Assignment")
         (orders s).

(** The credential of a request to one of the routes behind
    [authMiddleware, requireAdmin], if it is one. *)
Definition admin_route (o : op) : option (option principal) :=
  match o with
  | ApproveUser a _ | DeleteUser a _ | Assign a _ _ | SendToClient a _
  | DeleteOrder a _ | UpdateOrder a _ _ => Some a
  | _ => None
  end.

(** The status code of what a request answers; the timer answers none. *)
Definition answer_code (o : op) (s : store) : option Z :=
  code_of <$> snd (handle o s).

(** Verification row [v] belongs to a user of [us], under that user's
    address. *)
Definition owned_by (us : list user) (v : verification) : Prop :=
  exists u, In u us /\ u_id u = v_user_id v /\ u_email u = v_email v.

(** The account [/api/register] inserts, under the key [id]. *)
Definition registered (id : Z) (name_ email_ hashed role_ country_ : string) : user :=
  {| u_id := id; u_name := name_; u_email := normalize_email email_;
     u_password := hashed;
     u_role := if bool_decide (role_ ∈ ["admin"; "writer"; "client"]) then role_ else "client";
     u_country := country_; u_approved := false |}.

(** The store a registration that goes through leaves. *)
Definition registered_store (now : Z) (hashed code name_ email_ role_ country_ : string)
    (s : store) : store :=
  insert_verification (next_user_id s) (normalize_email email_) code now
    (with_users
       (users s ++ [registered (next_user_id s) name_ email_ hashed role_ country_])
       (next_user_id s + 1) s).

(** *** How requests change the table of orders *)

(** Row [b] is row [a] after some statements: the key, the guide the
    client attached and the time of creation are those of [a]. *)
Definition fixed_columns (a b : order) : Prop :=
  o_id b = o_id a /\ client_guide b = client_guide a
  /\ o_created_at b = o_created_at a.

(** What one request can do to [orders]: rewrite rows in place, delete
    the row under one key, or append one row under the next key. *)
Inductive orders_change (s s1 : store) : Prop :=
| change_update (p : order -> bool) (f : order -> order) :
    (forall r, fixed_columns r (f r)) ->
    orders s1 = Sql.update p f (orders s) ->
    next_order_id s1 = next_order_id s -> orders_change s s1
| change_delete (d : Z) :
    orders s1 = Sql.delete (Sql.order_is d) (orders s) ->
    next_order_id s1 = next_order_id s -> orders_change s s1
| change_insert (x : order) :
    o_id x = next_order_id s ->
    orders s1 = (orders s ++ [x])%list ->
    next_order_id s1 = next_order_id s + 1 -> orders_change s s1.

(** What has become in [s1] of the order that [s] holds under [oid]: it
    is gone, or it is there with the same fixed columns; and a key that
    [s] does not hold is not held by [s1] either. *)
Definition same_order (oid : Z) (s s1 : store) : Prop :=
  match Sql.get (Sql.order_is oid) (orders s) with
  | None => Sql.get (Sql.order_is oid) (orders s1) = None
  | Some r =>
      match Sql.get (Sql.order_is oid) (orders s1) with
      | None => True
      | Some r1 => fixed_columns r r1
      end
  end.

(** * Properties *)

(** ** Reading and rewriting tables *)

Section Tables.

Context {A : Type}.
Implicit Types (p q : A -> bool) (f : A -> A) (l : list A).

Lemma get_update p q f l :
  (forall r, q (f r) = q r) ->
  Sql.get q (Sql.update p f l) = (fun r => if p r then f r else r) <$> Sql.get q l.
Proof.
  intros Hq. unfold Sql.get, Sql.update.
  induction l as [|r l IH]; simpl; [reflexivity|].
  assert (Hr : q (if p r then f r else r) = q r) by (destruct (p r); auto).
  rewrite Hr. destruct (q r); [reflexivity | exact IH].
Qed.

Lemma update_update p f l :
  (forall r, p (f r) = p r) -> (forall r, f (f r) = f r) ->
  Sql.update p f (Sql.update p f l) = Sql.update p f l.
Proof.
  intros Hp Hf. unfold Sql.update. rewrite map_map. apply map_ext.
  intros r. destruct (p r) eqn:E.
  - rewrite Hp, E. apply Hf.
  - rewrite E. reflexivity.
Qed.

Lemma update_none p f l :
  Sql.get p l = None -> Sql.update p f l = l.
Proof.
  unfold Sql.get, Sql.update. induction l as [|r l IH]; simpl; [reflexivity|].
  destruct (p r) eqn:E; [discriminate|]. intros H. f_equal. auto.
Qed.

Lemma get_some p l r : Sql.get p l = Some r -> In r l /\ p r = true.
Proof. apply find_some. Qed.

Lemma get_none p l r : Sql.get p l = None -> In r l -> p r = false.
Proof. intros H. apply (find_none _ _ H). Qed.

Lemma get_delete p q l :
  (forall r, q r = true -> p r = false) ->
  Sql.get q (Sql.delete p l) = Sql.get q l.
Proof.
  intros H. unfold Sql.get, Sql.delete.
  induction l as [|r l IH]; simpl; [reflexivity|].
  destruct (q r) eqn:E.
  - rewrite (H _ E). simpl. rewrite E. reflexivity.
  - destruct (p r); simpl; [exact IH | rewrite E; exact IH].
Qed.

Lemma in_update p f l r :
  In r (Sql.update p f l) ->
  exists r0, In r0 l /\ r = (if p r0 then f r0 else r0).
Proof.
  unfold Sql.update. rewrite in_map_iff. intros (r0 & E & H). eauto.
Qed.

End Tables.

(** What the objects of the queries hold. *)
Lemma select_assign_writer o :
  select ["writer_id"; "status"] o !! "writer_id" = Some (writer_id o).
Proof. reflexivity. Qed.

Lemma select_assign_status o :
  select ["writer_id"; "status"] o !! "status" = Some (status o).
Proof. reflexivity. Qed.

Lemma select_submission_file o :
  select submission_columns o !! "submission_file" = Some (submission_file o).
Proof. reflexivity. Qed.

Lemma select_submission_client o :
  select submission_columns o !! "client_id" = Some (client_id o).
Proof. reflexivity. Qed.

Lemma select_submission_writer o :
  select submission_columns o !! "writer_id" = Some (writer_id o).
Proof. reflexivity. Qed.

(** The query of the preview route does not ask for [payment_status], so
    the object it gets has no such property. *)
Lemma select_submission_payment o :
  select submission_columns o !! "payment_status" = None.
Proof. reflexivity. Qed.

Lemma select_payment o :
  select ["payment_status"] o !! "payment_status" = Some (payment_status o).
Proof. reflexivity. Qed.

Lemma user_row_id u : user_row u !! "id" = Some (VInt (u_id u)).
Proof. reflexivity. Qed.

Lemma user_row_role u : user_row u !! "role" = Some (VText (u_role u)).
Proof. reflexivity. Qed.

Lemma order_is_true id o : Sql.order_is id o = true <-> o_id o = id.
Proof. unfold Sql.order_is. apply Z.eqb_eq. Qed.

Lemma user_is_true id u : Sql.user_is id u = true <-> u_id u = id.
Proof. unfold Sql.user_is. apply Z.eqb_eq. Qed.

(** ** Payment confirmation (C7) *)

Lemma markOrderPaid_orders oid ref s :
  orders (markOrderPaid oid ref s) = Sql.update (Sql.order_is oid) (confirmed ref) (orders s).
Proof. reflexivity. Qed.

Lemma markOrderPaid_twice oid ref s :
  markOrderPaid oid ref (markOrderPaid oid ref s) = markOrderPaid oid ref s.
Proof.
  unfold markOrderPaid, with_orders; simpl. f_equal.
  apply (update_update (Sql.order_is oid) (confirmed ref)); reflexivity.
Qed.

(** Confirming a payment with reference [ref] for order [oid] writes
    ['paid'], the reference and ['Delivered to Client'] into that order and
    leaves its other columns, the other orders and the other tables alone;
    the callback body that carries an order id and a reference does
    exactly this and answers 200; and confirming a second time with the
    same reference leaves the store as the first confirmation left it. *)
Lemma generic_callback_confirms (now : Z) (q : option Z) (oid : Z) (ref : string) (s : store) :
  ref <> "" ->
  let s1 := markOrderPaid oid ref s in
  payments_callback now q (Generic (Some oid) (Some (VText ref))) s
    = (s1, Json 200 "Payment confirmed")
  /\ (forall o, Sql.get (Sql.order_is oid) (orders s) = Some o ->
        exists o1, Sql.get (Sql.order_is oid) (orders s1) = Some o1
          /\ payment_status o1 = VText "paid"
          /\ payment_ref o1 = VText ref
          /\ status o1 = VText "Delivered to Client"
          /\ o1 = confirmed ref o)
  /\ (forall id, id <> oid ->
        Sql.get (Sql.order_is id) (orders s1) = Sql.get (Sql.order_is id) (orders s))
  /\ users s1 = users s /\ email_verifications s1 = email_verifications s
  /\ fst (payments_callback now q (Generic (Some oid) (Some (VText ref))) s1) = s1
  /\ markOrderPaid oid ref s1 = s1.
Proof.
  intros Href s1.
  assert (Ht : JS.truthy_prop (Some (VText ref)) = true).
  { simpl. destruct ref; [congruence | reflexivity]. }
  assert (Hcb : forall s0, payments_callback now q (Generic (Some oid) (Some (VText ref))) s0
                  = (markOrderPaid oid ref s0, Json 200 "Payment confirmed")).
  { intros s0. unfold payments_callback. rewrite Ht. reflexivity. }
  split; [apply Hcb|].
  split.
  { intros o Ho. subst s1. rewrite markOrderPaid_orders.
    rewrite get_update by reflexivity. rewrite Ho. simpl.
    apply get_some in Ho as [_ Hid]. rewrite Hid.
    eexists. split; [reflexivity|]. repeat split. }
  split.
  { intros id Hne. subst s1. rewrite markOrderPaid_orders.
    rewrite get_update by reflexivity.
    destruct (Sql.get (Sql.order_is id) (orders s)) as [o|] eqn:Ho; [|reflexivity].
    simpl. apply get_some in Ho as [_ Hid]. apply order_is_true in Hid.
    destruct (Sql.order_is oid o) eqn:E; [|reflexivity].
    apply order_is_true in E. congruence. }
  split; [reflexivity|]. split; [reflexivity|].
  split.
  - rewrite Hcb. simpl. apply markOrderPaid_twice.
  - apply markOrderPaid_twice.
Qed.

(** A simulated payment ends paid: the call the timer holds after the
    initiation leaves the order paid, under the reference the initiation
    answered with, and delivered. *)
Lemma simulated_payment_confirms env now rnd k oid ph amt s i ref o :
  simulated_confirmation env now rnd (Some oid) ph s = Some (i, ref) ->
  Sql.get (Sql.order_is oid) (orders s) = Some o ->
  let s1 := fst (payments_initiate env now rnd k (Some oid) ph amt s) in
  exists o1, Sql.get (Sql.order_is i) (orders (step (TimerFires i ref) s1)) = Some o1
    /\ payment_status o1 = VText "paid" /\ payment_ref o1 = VText ref
    /\ status o1 = VText "Delivered to Client".
Proof.
  unfold simulated_confirmation, payments_initiate. intros H Ho.
  destruct (String.eqb (JS.trim ph) ""); [discriminate|]. rewrite Ho in *.
  destruct (consumer_key env); simpl negb in *; cbv iota in *; [discriminate|].
  injection H as <- <-. simpl fst. unfold step, handle. simpl fst.
  rewrite markOrderPaid_orders, get_update by reflexivity.
  unfold record_pending. simpl orders. rewrite get_update by reflexivity.
  rewrite Ho. simpl. apply get_some in Ho as [_ Hid].
  unfold Sql.order_is in *. rewrite Hid. simpl o_id. rewrite Hid.
  eexists. split; [reflexivity|]. repeat split.
Qed.

(** The STK branch of the callback reads the result code through
    [Number(cb.ResultCode || -1)]: the string ["0"] confirms the payment,
    the number [0] is falsy, reads as [-1] and confirms nothing. *)
Lemma stk_text_zero_confirms now oid checkout params s :
  oid <> 0 -> checkout <> "" ->
  payments_callback now (Some oid) (StkCallback (Some (VText "0")) checkout params) s
  = (markOrderPaid oid checkout s, Json 200 "Payment confirmed").
Proof.
  intros Ho Hc. unfold payments_callback, falsy_id.
  apply Z.eqb_neq in Ho. rewrite Ho. simpl result_code. cbv iota. rewrite Ho.
  destruct (String.eqb_spec checkout "") as [E|_]; [contradiction | reflexivity].
Qed.

Lemma awaiting_store :
  run History.awaiting empty_store
  = History.desk
      [ set_amount (VInt 500)
          (set_payment_ref (VText (make_ref "MPESA" 9500 42))
             (set_payment_status (VText "pending") History.essay));
        History.report ].
Proof. vm_compute. reflexivity. Qed.

(** C7. The code does not confirm the payment the gateway reports.  Ann
    has started paying for the essay and the order is pending; the
    gateway calls back with result code [0], the number, on the address
    the push gave it.  The handler reads the code through
    [Number(cb.ResultCode || -1)], takes the [0] for [-1], answers
    'Callback processed' and leaves the store as it was: the order is
    still pending, its reference and its status are what they were.  The
    same body with the code as the string ["0"] is confirmed: the order
    is paid, holds the checkout id as reference, and is delivered. *)
Theorem stk_success_callback_leaves_order_unpaid :
  let s := run History.awaiting empty_store in
  let answered := payments_callback 9600 (Some 1) History.paid_callback s in
  let as_text :=
    payments_callback 9600 (Some 1)
      (StkCallback (Some (VText "0")) "ws_CO_191220191020363925" None) s in
  payment_status <$> Sql.get (Sql.order_is 1) (orders s) = Some (VText "pending")
  /\ answered = (s, Json 200 "Callback processed")
  /\ payment_status <$> Sql.get (Sql.order_is 1) (orders (fst answered))
     = Some (VText "pending")
  /\ snd as_text = Json 200 "Payment confirmed"
  /\ Sql.get (Sql.order_is 1) (orders (fst as_text))
     = confirmed "ws_CO_191220191020363925"
         <$> Sql.get (Sql.order_is 1) (orders s)
  /\ payment_status <$> Sql.get (Sql.order_is 1) (orders (fst as_text))
     = Some (VText "paid").
Proof.
  intros s answered as_text. subst s answered as_text.
  rewrite stk_text_zero_confirms by discriminate.
  rewrite awaiting_store. repeat split.
Qed.

(** ** Status updates (C8) *)

(** The claim fails on an order that does not exist: nothing is written,
    and the answer is still the success message. *)
Lemma update_status_missing_order_reports_success :
  Sql.get (Sql.order_is 7) (orders empty_store) = None
  /\ update_status (Some 7) (Some (VText "Submitted")) empty_store
     = (empty_store, Json 200 "Status updated successfully").
Proof. split; reflexivity. Qed.

(** C8 (amended). For a non-empty status string, update status answers
    with the success message whatever the store holds; an order with the
    given id gets the supplied status, whatever its old status was, and
    keeps every other column; the other orders and tables are untouched;
    and when no order has that id the store is left as it was, the answer
    being success all the same. *)
Theorem update_status_unconditional (oid : Z) (st : string) (s : store) :
  st <> "" ->
  let s1 := fst (update_status (Some oid) (Some (VText st)) s) in
  snd (update_status (Some oid) (Some (VText st)) s)
    = Json 200 "Status updated successfully"
  /\ (forall o, Sql.get (Sql.order_is oid) (orders s) = Some o ->
        Sql.get (Sql.order_is oid) (orders s1) = Some (set_status (VText st) o))
  /\ (forall id, id <> oid ->
        Sql.get (Sql.order_is id) (orders s1) = Sql.get (Sql.order_is id) (orders s))
  /\ (Sql.get (Sql.order_is oid) (orders s) = None -> s1 = s)
  /\ users s1 = users s /\ email_verifications s1 = email_verifications s.
Proof.
  intros Hst s1.
  assert (Ht : JS.truthy (VText st) = true).
  { simpl. destruct st; [congruence | reflexivity]. }
  assert (E : update_status (Some oid) (Some (VText st)) s
              = (with_orders (Sql.update (Sql.order_is oid) (set_status (VText st)) (orders s)) s,
                 Json 200 "Status updated successfully")).
  { unfold update_status. rewrite Ht. reflexivity. }
  subst s1. rewrite E. simpl.
  split; [reflexivity|]. split.
  { intros o Ho. rewrite get_update by reflexivity. rewrite Ho. simpl.
    apply get_some in Ho as [_ Hid]. rewrite Hid. reflexivity. }
  split.
  { intros id Hne. rewrite get_update by reflexivity.
    destruct (Sql.get (Sql.order_is id) (orders s)) as [o|] eqn:Ho; [|reflexivity].
    simpl. apply get_some in Ho as [_ Hid]. apply order_is_true in Hid.
    destruct (Sql.order_is oid o) eqn:E'; [|reflexivity].
    apply order_is_true in E'. congruence. }
  split; [|split; reflexivity].
  intros Hnone. rewrite (update_none _ _ _ Hnone). destruct s; reflexivity.
Qed.

Lemma update_status_unconditional_witness :
  "Pending Assignment" <> ""
  /\ snd (update_status (Some 1) (Some (VText "Pending Assignment"))
            (run History.paid empty_store))
     = Json 200 "Status updated successfully".
Proof.
  split; [discriminate|].
  apply (update_status_unconditional 1 "Pending Assignment"
           (run History.paid empty_store)).
  discriminate.
Defined.

(** ** The worked history, evaluated *)

Lemma submitted_store :
  run History.submitted empty_store = History.desk [History.essay; History.report].
Proof. vm_compute. reflexivity. Qed.

Lemma paid_store :
  run History.paid empty_store
  = History.desk [confirmed "REF-1" History.essay; History.report].
Proof. vm_compute. reflexivity. Qed.

(** ** Runs *)

Lemma play_app es es' c : play (es ++ es') c = play es' (play es c).
Proof. apply fold_left_app. Qed.

Lemma task_induction (P : task -> Prop) :
  (forall r, P (Answer r)) ->
  (forall callback, (forall s, P (snd (callback s))) -> P (Statement callback)) ->
  forall t, P t.
Proof.
  intros HA HS. fix IH 1. intros [r|callback]; [apply HA | apply HS; intros s; apply IH].
Qed.

Lemma references_user_in us u : In u us -> Sql.references_user us (VInt (u_id u)) = true.
Proof.
  intros Hin. unfold Sql.references_user. apply existsb_exists. exists u.
  split; [exact Hin|]. unfold Sql.user_is. apply Z.eqb_refl.
Qed.

Lemma get_in {A : Type} (q : A -> bool) (l : list A) (x : A) :
  Sql.get q l = Some x -> In x l.
Proof.
  unfold Sql.get. induction l as [|r l IH]; simpl; [discriminate|].
  destruct (q r); [intros [= <-]; left; reflexivity | intros H; right; auto].
Qed.

Ltac walk :=
  repeat (cbn beta iota delta [finish db_get respond single fst snd];
          match goal with
          | |- context [match ?x with _ => _ end] =>
              destruct x eqn:?; try reflexivity; try discriminate
          end).

(** A request run on its own does what its handler does. *)
Lemma finish_task_of o s : finish (task_of o) s = handle o s.
Proof.
  destruct o; simpl task_of; simpl handle; try reflexivity.
  - unfold register_task, register, bad_request, verification_insert. walk.
    all: match goal with
         | H : Sql.references_user _ _ = false |- _ =>
             simpl in H; rewrite existsb_app in H; simpl in H;
             unfold Sql.user_is in H; simpl in H;
             rewrite Z.eqb_refl, orb_true_r in H; discriminate
         end.
  - unfold resend_task, resend_verification, bad_request, verification_insert. walk.
    match goal with
    | H : Sql.get _ _ = Some ?u, F : Sql.references_user _ _ = false |- _ =>
        rewrite (references_user_in _ u (get_in _ _ _ H)) in F; discriminate
    end.
  - unfold verify_task, verify_email, bad_request, verified. walk.
  - unfold approve_user_task, approve_user, behind_admin, behind_auth, admin_only,
      authMiddleware, requireAdmin, bad_request, ok. walk.
  - unfold assign_task, assign, behind_admin, behind_auth, admin_only,
      authMiddleware, requireAdmin, bad_request, take. walk.
  - unfold claim_task, claim, behind_auth, authMiddleware, bad_request, take. walk.
  - unfold initiate_task, payments_initiate, bad_request. walk.
Qed.

Lemma advance_to_finish t :
  forall c i o, flight c !! i = Some (o, t) ->
  exists es, db (play es c) = fst (finish t (db c)).
Proof.
  induction t as [r|callback IH] using task_induction; intros c i o Hi.
  - exists []. reflexivity.
  - destruct (IH (db c) (fire (Advance i) c) i o) as [es Hes].
    + simpl. rewrite Hi. simpl. apply list_lookup_insert_eq. eapply lookup_lt_Some; exact Hi.
    + exists (Advance i :: es).
      change (play (Advance i :: es) c) with (play es (fire (Advance i) c)).
      rewrite Hes. simpl. rewrite Hi. reflexivity.
Qed.

Lemma reachable_empty : reachable empty_store.
Proof. exists []. reflexivity. Qed.

Lemma reachable_step o s : reachable s -> reachable (step o s).
Proof.
  intros [es <-].
  destruct (advance_to_finish (task_of o) (fire (Arrive o) (play es start))
              (length (flight (play es start))) o) as [es' Hes'].
  - simpl. rewrite lookup_app_r by lia. rewrite Nat.sub_diag. reflexivity.
  - exists (es ++ Arrive o :: es')%list. rewrite play_app.
    change (play (Arrive o :: es') (play es start))
      with (play es' (fire (Arrive o) (play es start))).
    rewrite Hes'. simpl db. rewrite finish_task_of. reflexivity.
Qed.

(** ** What every run keeps *)

Section Invariant.

Variables J I : store -> Prop.
Variables R G : op -> store -> store -> Prop.
Variable apart : op -> op -> Prop.
Variable admitted : op -> Prop.

Hypothesis rely_refl : forall o s, R o s s.
Hypothesis rely_trans : forall o s1 s2 s3, R o s1 s2 -> R o s2 s3 -> R o s1 s3.
Hypothesis guarantee_rely : forall o o' s s1, apart o o' -> G o s s1 -> R o' s s1.
Hypothesis fresh : forall o s0, admitted o -> sound J I R G o (task_of o) s0.
Hypothesis known : forall es, J (db (play es start)).
Hypothesis initially : I empty_store.

Lemma origin_after_insert (l : list (op * task)) i o t t' j p :
  l !! i = Some (o, t) -> <[i := (o, t')]> l !! j = Some p ->
  exists p0, l !! j = Some p0 /\ fst p0 = fst p.
Proof.
  intros Hi Hp. apply list_lookup_insert_Some in Hp as [(-> & <- & _)|[Hne Hp]].
  - exists (o, t). split; [exact Hi | reflexivity].
  - exists p. split; [exact Hp | reflexivity].
Qed.

Lemma fire_config_ok c e :
  J (db c) -> config_ok J I R G apart c -> may_fire apart admitted c e ->
  config_ok J I R G apart (fire e c).
Proof.
  intros HJ (HI & Hfl & Hap) He. destruct e as [o|i].
  - destruct He as [Hadm Hall]. simpl. split; [exact HI|]. split.
    + intros i p Hp. apply lookup_snoc_Some in Hp as [[_ Hp]|[_ <-]].
      * exact (Hfl i p Hp).
      * exists (db c). split; [apply rely_refl | apply fresh; exact Hadm].
    + intros i j p q Hij Hp Hq.
      apply lookup_snoc_Some in Hp as [[Hi Hp]|[Hi <-]];
        apply lookup_snoc_Some in Hq as [[Hj Hq]|[Hj <-]].
      * exact (Hap i j p q Hij Hp Hq).
      * exact (proj2 (Forall_lookup_1 _ _ _ _ Hall Hp)).
      * exact (proj1 (Forall_lookup_1 _ _ _ _ Hall Hq)).
      * lia.
  - simpl. destruct (flight c !! i) as [[o [r|callback]]|] eqn:Ei.
    + split; [exact HI|]. split.
      * intros j p Hp. simpl in Hp. rewrite list_lookup_delete in Hp.
        exact (Hfl _ p Hp).
      * intros j k p q Hjk Hp Hq. simpl in Hp, Hq.
        rewrite list_lookup_delete in Hp, Hq.
        refine (Hap _ _ p q _ Hp Hq). repeat destruct decide; lia.
    + destruct (Hfl i _ Ei) as (s0 & HR & Hs). simpl in Hs.
      destruct (Hs (db c) HJ HI HR) as (HI' & HG & Hs').
      split; [exact HI'|]. split.
      * intros j p Hp. simpl in Hp.
        apply list_lookup_insert_Some in Hp as [(-> & <- & _)|[Hne Hp]].
        -- exists (fst (callback (db c))). split; [apply rely_refl | exact Hs'].
        -- destruct (Hfl j p Hp) as (s0' & HR' & Hsound). exists s0'.
           split; [|exact Hsound]. simpl db.
           eapply rely_trans; [exact HR'|].
           eapply guarantee_rely; [|exact HG].
           exact (Hap i j _ p Hne Ei Hp).
      * intros j k p q Hjk Hp Hq. simpl in Hp, Hq.
        destruct (origin_after_insert _ _ _ _ _ _ _ Ei Hp) as (p0 & Hp0 & <-).
        destruct (origin_after_insert _ _ _ _ _ _ _ Ei Hq) as (q0 & Hq0 & <-).
        exact (Hap j k p0 q0 Hjk Hp0 Hq0).
    + split; [exact HI|]. split; assumption.
Qed.

Lemma permitted_snoc es e c :
  permitted apart admitted (es ++ [e]) c
  <-> permitted apart admitted es c /\ may_fire apart admitted (play es c) e.
Proof.
  revert c. induction es as [|x es IH]; intros c; simpl.
  - tauto.
  - rewrite IH. tauto.
Qed.

Lemma permitted_config_ok es :
  permitted apart admitted es start -> config_ok J I R G apart (play es start).
Proof.
  induction es as [|e es IH] using rev_ind; intros H.
  - split; [exact initially|]. split.
    + intros i p Hp. simpl in Hp. rewrite lookup_nil in Hp. discriminate.
    + intros i j p q _ Hp. simpl in Hp. rewrite lookup_nil in Hp. discriminate.
  - apply permitted_snoc in H as [Hes He]. rewrite play_app.
    apply fire_config_ok; [apply known | apply IH; exact Hes | exact He].
Qed.

End Invariant.

(** Where no request is kept out and none has to stay apart from
    another, every run is permitted. *)
Lemma permitted_all es c : permitted (fun _ _ => True) (fun _ => True) es c.
Proof.
  revert c. induction es as [|e es IH]; intros c; simpl; [exact I|].
  split; [|apply IH]. destruct e; simpl; [|exact I].
  split; [exact I|]. apply List.Forall_forall. intros; split; exact I.
Qed.

Lemma reachable_keeps (J I : store -> Prop) (R : op -> store -> store -> Prop) :
  (forall o s, R o s s) ->
  (forall o s1 s2 s3, R o s1 s2 -> R o s2 s3 -> R o s1 s3) ->
  (forall o s0, sound J I R (fun _ s s1 => forall o', R o' s s1) o (task_of o) s0) ->
  (forall s, reachable s -> J s) ->
  I empty_store ->
  forall s, reachable s -> I s.
Proof.
  intros Hrefl Htrans Hsound HJ HI s [es <-].
  refine (proj1 (permitted_config_ok J I R (fun _ s s1 => forall o', R o' s s1)
                   (fun _ _ => True) (fun _ => True)
                   Hrefl Htrans _ _ _ HI es (permitted_all es start))).
  - intros o o' s s1 _ H. apply H.
  - intros o s0 _. apply Hsound.
  - intros es'. apply HJ. exists es'. reflexivity.
Qed.

Lemma reachable_run ops : reachable (run ops empty_store).
Proof.
  unfold run. generalize empty_store, reachable_empty.
  induction ops as [|o ops IH]; intros s Hs; simpl; [exact Hs|].
  apply IH. apply reachable_step. exact Hs.
Qed.

(** ** File names *)

Lemma list_ascii_app a b :
  list_ascii_of_string (String.append a b)
  = (list_ascii_of_string a ++ list_ascii_of_string b)%list.
Proof. induction a as [|c a IH]; simpl; [reflexivity | rewrite IH; reflexivity]. Qed.

Lemma append_cons c a b : String.append (String c a) b = String c (String.append a b).
Proof. reflexivity. Qed.

Lemma append_empty a : String.append a "" = a.
Proof.
  induction a as [|c a IH]; [reflexivity | rewrite append_cons, IH; reflexivity].
Qed.

Lemma append_assoc a b c :
  String.append (String.append a b) c = String.append a (String.append b c).
Proof.
  induction a as [|x a IH]; [reflexivity | rewrite !append_cons, IH; reflexivity].
Qed.

Lemma after_last_slash_app a b acc :
  Path.after_last_slash (String.append a b) acc
  = Path.after_last_slash b (Path.after_last_slash a acc).
Proof.
  revert acc. induction a as [|c a IH]; intros acc; [reflexivity|].
  rewrite append_cons. simpl Path.after_last_slash.
  destruct (Ascii.eqb c "/"%char); apply IH.
Qed.

Lemma after_last_slash_plain f acc :
  forallb (fun c => negb (Ascii.eqb c "/"%char)) (list_ascii_of_string f) = true ->
  Path.after_last_slash f acc = String.append acc f.
Proof.
  revert acc. induction f as [|c f IH]; intros acc H.
  - symmetry. apply append_empty.
  - simpl in H. apply andb_true_iff in H as [Hc Hf]. apply negb_true_iff in Hc.
    simpl Path.after_last_slash. rewrite Hc, (IH _ Hf), append_assoc. reflexivity.
Qed.

Lemma strip_keeps_plain_end pre f :
  plain_name f = true ->
  Path.strip_trailing_slashes (String.append pre f) = String.append pre f.
Proof.
  unfold plain_name, Path.strip_trailing_slashes. intros H.
  apply andb_true_iff in H as [Hne Hf]. rewrite list_ascii_app, rev_app_distr.
  destruct (rev (list_ascii_of_string f)) as [|c r] eqn:E.
  - apply (f_equal (@rev ascii)) in E. rewrite rev_involutive in E. simpl in E.
    destruct f; [discriminate Hne | discriminate E].
  - assert (Hc : Ascii.eqb c "/"%char = false).
    { rewrite forallb_forall in Hf. apply negb_true_iff. apply Hf.
      apply in_rev. rewrite E. left. reflexivity. }
    simpl. rewrite Hc. change (c :: r ++ rev (list_ascii_of_string pre))%list
      with ((c :: r) ++ rev (list_ascii_of_string pre))%list.
    rewrite <- E, <- rev_app_distr, rev_involutive, <- list_ascii_app.
    apply string_of_list_ascii_of_string.
Qed.

Lemma basename_plain f : plain_name f = true -> Path.basename f = f.
Proof.
  intros H. unfold Path.basename.
  change f with (String.append "" f) at 1.
  rewrite (strip_keeps_plain_end "" f H). change (String.append "" f) with f.
  apply andb_true_iff in H as [_ Hf]. rewrite (after_last_slash_plain f "" Hf).
  reflexivity.
Qed.


Lemma like_any p s :
  Sql.like (String "%"%char p) s
  = Sql.like p s
    || match s with
       | EmptyString => false
       | String _ s1 => Sql.like (String "%"%char p) s1
       end.
Proof. destruct s; reflexivity. Qed.

Lemma like_refl p : Sql.like p p = true.
Proof.
  induction p as [|c p IH]; [reflexivity|].
  destruct (Ascii.eqb c "%"%char) eqn:Ep.
  - apply Ascii.eqb_eq in Ep. subst c. rewrite like_any.
    apply orb_true_iff. right. rewrite like_any, IH. reflexivity.
  - simpl. rewrite Ep. destruct (Ascii.eqb c "_"%char); [exact IH|].
    rewrite Ascii.eqb_refl, IH. reflexivity.
Qed.

Lemma like_suffix pre x : Sql.like (String "%"%char x) (String.append pre x) = true.
Proof.
  induction pre as [|c pre IH].
  - change (String.append "" x) with x. rewrite like_any, like_refl. reflexivity.
  - rewrite append_cons, like_any, IH. apply orb_true_r.
Qed.


Lemma lookup_exists (d : disk) p : existsSync d p = bool_decide (d !! p <> None).
Proof.
  unfold existsSync. destruct (d !! p) as [n|]; apply bool_decide_ext.
  - split; [discriminate | intros _; eauto].
  - split; [intros [x Hx]; discriminate | congruence].
Qed.

Lemma after_slash n acc :
  Path.after_last_slash (String "/"%char n) acc = Path.after_last_slash n "".
Proof. reflexivity. Qed.

Lemma last_segment_join dir n :
  forallb (fun c => negb (Ascii.eqb c "/"%char)) (list_ascii_of_string n) = true ->
  Path.last_segment (Path.join dir n) = n.
Proof.
  intros Hn. unfold Path.last_segment, Path.join.
  rewrite after_last_slash_app.
  change (String.append "/" n) with (String "/"%char n).
  rewrite after_slash, (after_last_slash_plain n "" Hn). reflexivity.
Qed.

Lemma hidden_join dir n :
  forallb (fun c => negb (Ascii.eqb c "/"%char)) (list_ascii_of_string n) = true ->
  Path.hidden (Path.join dir n) = Path.dot_name n.
Proof. intros Hn. unfold Path.hidden. rewrite (last_segment_join dir n Hn). reflexivity. Qed.

(** ** The preview route (C1, C10) *)

Lemma preview_found d auth uid s oid o u :
  resolved s auth uid u ->
  Sql.get (Sql.order_is oid) (orders s) = Some o ->
  preview d auth (Some oid) uid s
  = if JS.truthy (submission_file o)
    then preview_respond d oid (select submission_columns o) (user_row u)
    else Json 404 "Submission not found".
Proof.
  intros (rid & Hr & Hz & Hu) Ho. unfold preview. rewrite Hr.
  apply Z.eqb_neq in Hz. rewrite Hz, Ho. simpl fmap. cbv iota beta.
  rewrite select_submission_file. simpl JS.truthy_prop.
  destruct (JS.truthy (submission_file o)); simpl negb; cbv iota; [|reflexivity].
  rewrite Hu. reflexivity.
Qed.

Lemma exists_of_lookup (d1 d2 : disk) p1 p2 :
  d1 !! p1 = d2 !! p2 -> existsSync d1 p1 = existsSync d2 p2.
Proof. unfold existsSync. intros ->. reflexivity. Qed.

Lemma is_file_of_lookup (d1 d2 : disk) p1 p2 :
  d1 !! p1 = d2 !! p2 -> is_file d1 p1 = is_file d2 p2.
Proof. unfold is_file. intros ->. reflexivity. Qed.

Lemma forallb_weaken {A : Type} (f g : A -> bool) (l : list A) :
  (forall x, f x = true -> g x = true) -> forallb f l = true -> forallb g l = true.
Proof.
  intros H. induction l as [|x l IH]; simpl; [reflexivity|].
  intros Hl. apply andb_true_iff in Hl as [Hx Hl]. rewrite (H x Hx), (IH Hl). reflexivity.
Qed.

Lemma uint_digits u :
  forallb quiet (list_ascii_of_string (NilEmpty.string_of_uint u)) = true.
Proof. induction u; simpl; auto. Qed.

Lemma show_int_shape n :
  exists c rest, JS.show_int n = String c rest
    /\ forallb quiet (list_ascii_of_string (String c rest)) = true.
Proof.
  unfold JS.show_int. destruct (Z.to_int n) as [u|u]; simpl.
  - destruct u; simpl; eexists _, _; (split; [reflexivity|]); simpl;
      try reflexivity; apply uint_digits.
  - eexists _, _. split; [reflexivity|]. simpl.
    destruct u; simpl; try reflexivity; apply uint_digits.
Qed.

(** The preview artifact of an order is never a dot file. *)
Lemma preview_artifact_not_hidden oid : Path.hidden (preview_artifact oid) = false.
Proof.
  unfold preview_artifact.
  destruct (show_int_shape oid) as (c & rest & E & Hq). rewrite E.
  simpl in Hq. apply andb_true_iff in Hq as [Hc Hrest].
  unfold quiet in Hc. apply andb_true_iff in Hc as [Hslash Hdot].
  rewrite hidden_join.
  - rewrite append_cons. simpl. apply negb_true_iff in Hdot.
    destruct (String.append rest ".pdf"); [reflexivity | exact Hdot].
  - rewrite list_ascii_app, forallb_app. apply andb_true_iff. split; [|reflexivity].
    simpl. rewrite Hslash. simpl.
    eapply forallb_weaken; [|exact Hrest]. intros x Hx. unfold quiet in Hx.
    apply andb_true_iff in Hx. tauto.
Qed.

(** The outcome of the innermost callback, as a table. *)
Lemma outcome_preview_respond d oid o u :
  outcome_of d (preview_respond d oid (select submission_columns o) (user_row u))
  = if String.eqb (u_role u) "admin"
       || JS.strict_eq (Some (VInt (u_id u))) (Some (writer_id o))
    then if sends d (original_of (Some (submission_file o))) then Full else Deny
    else if JS.strict_eq (Some (VInt (u_id u))) (Some (client_id o))
    then if existsSync d (preview_artifact oid)
         then if sends d (preview_artifact oid) then Preview else Deny
         else if existsSync d (original_of (Some (submission_file o)))
         then if streams d (original_of (Some (submission_file o)))
              then Preview else Deny
         else Deny
    else Deny.
Proof.
  unfold preview_respond.
  rewrite user_row_role, user_row_id, select_submission_writer,
    select_submission_client, select_submission_payment, select_submission_file.
  change (JS.strict_eq (Some (VText (u_role u))) (Some (VText "admin")))
    with (String.eqb (u_role u) "admin").
  destruct (String.eqb (u_role u) "admin"
            || JS.strict_eq (Some (VInt (u_id u))) (Some (writer_id o))); [reflexivity|].
  destruct (JS.strict_eq (Some (VInt (u_id u))) (Some (client_id o))); [|reflexivity].
  simpl JS.truthy_prop. cbv iota. simpl andb. cbv iota.
  destruct (existsSync d (preview_artifact oid)); [reflexivity|].
  destruct (existsSync d (original_of (Some (submission_file o)))); reflexivity.
Qed.

(** The answer of the preview route is the same whatever the orders'
    [payment_status] column holds. *)
Lemma preview_blind_to_payment_status d auth orderId uid s v :
  preview d auth orderId uid (with_orders (map (set_payment_status v) (orders s)) s)
  = preview d auth orderId uid s.
Proof.
  unfold preview. destruct orderId as [oid|]; [|reflexivity].
  destruct (requester auth uid) as [rid|]; [|reflexivity].
  destruct (rid =? 0)%Z; [reflexivity|]. simpl orders. simpl users.
  assert (E : select submission_columns <$>
                Sql.get (Sql.order_is oid) (map (set_payment_status v) (orders s))
              = select submission_columns <$> Sql.get (Sql.order_is oid) (orders s)).
  { unfold Sql.get. induction (orders s) as [|o os IH]; simpl; [reflexivity|].
    change (Sql.order_is oid (set_payment_status v o)) with (Sql.order_is oid o).
    destruct (Sql.order_is oid o); [reflexivity | exact IH]. }
  rewrite E. reflexivity.
Qed.

(** C1. Ann is the client of the essay and has paid for it, and the file
    is on disk; the preview route answers her with the restricted inline
    stream, not with the file in full, while the submission route hands
    her the link to it. *)
Theorem preview_withholds_paid_file :
  let s := run History.paid empty_store in
  reachable s
  /\ (exists o, Sql.get (Sql.order_is 1) (orders s) = Some o
         /\ client_id o = VInt (p_id History.ann)
         /\ writer_id o <> VInt (p_id History.ann)
         /\ payment_status o = VText "paid")
  /\ resolved s (Some History.ann) None History.ann_row
  /\ preview History.on_disk (Some History.ann) (Some 1) None s
     = Pipe inline_headers (Path.join Path.uploadDir History.upload)
  /\ outcome_of History.on_disk
       (preview History.on_disk (Some History.ann) (Some 1) None s) = Preview
  /\ submission (Some History.ann) (Some 1) None s
     = Link (String.append "/uploads/" History.upload).
Proof.
  intros s. split; [apply reachable_run|]. subst s. rewrite paid_store.
  split.
  { eexists. split; [reflexivity|]. repeat split. discriminate. }
  split.
  { exists 1. repeat split. discriminate. }
  split; [vm_compute; reflexivity|].
  split; vm_compute; reflexivity.
Qed.

(** The claim fails between two requests that agree on all six inputs:
    the same store, the same client, the same unpaid order, once with the
    upload on disk and once without it. *)
Lemma preview_outcome_depends_on_disk :
  let s := run History.submitted empty_store in
  outcome_of History.on_disk
    (preview History.on_disk (Some History.ann) (Some 1) None s) = Preview
  /\ outcome_of ∅ (preview ∅ (Some History.ann) (Some 1) None s) = Deny.
Proof. intros s. subst s. rewrite submitted_store. split; vm_compute; reflexivity. Qed.

(** C10 (amended). Two preview requests whose requesters are stored users
    and whose orders exist, and which agree on the requester's role and id,
    on the order's client, writer and payment status, on whether it has a
    submission file, and also on what the disk holds for the order's
    preview artifact and for its original file (nothing, a file or a
    directory, and whether the original is a dot file, which exists but
    is not sent), have the same outcome. *)
Theorem preview_outcome_function_of_inputs
    (d1 d2 : disk) (s1 s2 : store) (auth1 auth2 : option principal)
    (uid1 uid2 : option Z) (oid1 oid2 : Z) (u1 u2 : user) (o1 o2 : order) :
  resolved s1 auth1 uid1 u1 ->
  resolved s2 auth2 uid2 u2 ->
  Sql.get (Sql.order_is oid1) (orders s1) = Some o1 ->
  Sql.get (Sql.order_is oid2) (orders s2) = Some o2 ->
  u_role u1 = u_role u2 ->
  u_id u1 = u_id u2 ->
  client_id o1 = client_id o2 ->
  writer_id o1 = writer_id o2 ->
  payment_status o1 = payment_status o2 ->
  JS.truthy (submission_file o1) = JS.truthy (submission_file o2) ->
  d1 !! preview_artifact oid1 = d2 !! preview_artifact oid2 ->
  d1 !! original_of (Some (submission_file o1))
    = d2 !! original_of (Some (submission_file o2)) ->
  Path.hidden (original_of (Some (submission_file o1)))
    = Path.hidden (original_of (Some (submission_file o2))) ->
  outcome_of d1 (preview d1 auth1 (Some oid1) uid1 s1)
  = outcome_of d2 (preview d2 auth2 (Some oid2) uid2 s2).
Proof.
  intros Hr1 Hr2 Ho1 Ho2 Hrole Hid Hc Hw _ Hf Hp Hq Hh.
  rewrite (preview_found _ _ _ _ _ _ _ Hr1 Ho1), (preview_found _ _ _ _ _ _ _ Hr2 Ho2).
  rewrite Hf. destruct (JS.truthy (submission_file o2)); [|reflexivity].
  rewrite !outcome_preview_respond, Hrole, Hid, Hc, Hw.
  unfold sends, streams.
  rewrite (exists_of_lookup _ _ _ _ Hp), (exists_of_lookup _ _ _ _ Hq),
    (is_file_of_lookup _ _ _ _ Hp), (is_file_of_lookup _ _ _ _ Hq), Hh,
    !preview_artifact_not_hidden.
  reflexivity.
Qed.

Lemma preview_outcome_function_of_inputs_witness :
  outcome_of History.on_disk
    (preview History.on_disk (Some History.ann) (Some 1) None
       (History.desk [History.essay; History.report]))
  = outcome_of History.on_disk
      (preview History.on_disk None (Some 1) (Some 1)
         (History.desk [History.essay])).
Proof.
  apply (preview_outcome_function_of_inputs _ _ _ _ _ _ _ _ _ _
           History.ann_row History.ann_row History.essay History.essay).
  - exists 1. repeat split. discriminate.
  - exists 1. repeat split. discriminate.
  - reflexivity.
  - reflexivity.
  - reflexivity.
  - reflexivity.
  - reflexivity.
  - reflexivity.
  - reflexivity.
  - reflexivity.
  - reflexivity.
  - reflexivity.
  - reflexivity.
Defined.

(** ** The legacy file route (C3, C4) *)

Lemma uploads_route_found req s o :
  Path.basename (fr_name req) <> "" ->
  Sql.get (file_matches (Path.basename (fr_name req))) (orders s) = Some o ->
  uploads_route req s
  = if JS.is_paid (Some (payment_status o))
    then SendFile [] (Path.join Path.uploadDir (Path.basename (fr_name req)))
    else Text 403 "Direct download blocked. Payment required.".
Proof.
  intros Hn Ho. unfold uploads_route.
  destruct (String.eqb_spec (Path.basename (fr_name req)) "") as [E|_]; [contradiction|].
  rewrite Ho. simpl fmap. cbv iota beta. rewrite select_payment. reflexivity.
Qed.

(** Whatever the route answers, it is a reply of its own or the call
    [res.sendFile] on the name asked for, under the upload directory. *)
Lemma uploads_route_shape req s :
  refused (uploads_route req s) = true
  \/ uploads_route req s = SendFile [] (Path.join Path.uploadDir (Path.basename (fr_name req))).
Proof.
  unfold uploads_route. destruct (String.eqb _ ""); [left; reflexivity|].
  destruct (Sql.get _ _) as [o|]; simpl fmap; cbv iota beta; [|left; reflexivity].
  destruct (JS.is_paid _); [right | left]; reflexivity.
Qed.

Lemma upload_name_plain n : upload_name n = true -> plain_name n = true.
Proof. unfold upload_name. intros H. apply andb_true_iff in H as [H _].
  apply andb_true_iff in H as [H _]. exact H. Qed.

Lemma plain_no_slash n :
  plain_name n = true ->
  forallb (fun c => negb (Ascii.eqb c "/"%char)) (list_ascii_of_string n) = true.
Proof. unfold plain_name. intros H. apply andb_true_iff in H as [_ H]. exact H. Qed.

Lemma split_plain n acc :
  forallb (fun c => negb (Ascii.eqb c "/"%char)) (list_ascii_of_string n) = true ->
  Path.split_from n acc = [String.append acc n].
Proof.
  revert acc. induction n as [|c n IH]; intros acc H.
  - simpl. rewrite append_empty. reflexivity.
  - simpl in H. apply andb_true_iff in H as [Hc Hn]. apply negb_true_iff in Hc.
    simpl Path.split_from. rewrite Hc, (IH _ Hn), append_assoc. reflexivity.
Qed.

Lemma split_under_uploads n :
  forallb (fun c => negb (Ascii.eqb c "/"%char)) (list_ascii_of_string n) = true ->
  Path.split (String.append "uploads/" n) = ["uploads"; n].
Proof.
  intros H. unfold Path.split.
  change (Path.split_from (String.append "uploads/" n) "")
    with ("uploads" :: Path.split_from n "").
  rewrite (split_plain n "" H). reflexivity.
Qed.

Lemma normalize_upload_name n : upload_name n = true -> Path.normalize n = [n].
Proof.
  intros H. unfold Path.normalize, Path.split.
  rewrite (split_plain n "" (plain_no_slash n (upload_name_plain n H))).
  change (String.append "" n) with n.
  unfold upload_name, plain_name in H.
  apply andb_true_iff in H as [H H2]. apply andb_true_iff in H as [H H1].
  apply andb_true_iff in H as [H0 _].
  apply negb_true_iff in H0, H1, H2. simpl. rewrite H0, H1, H2. reflexivity.
Qed.

Lemma normalize_under_uploads n :
  upload_name n = true -> Path.normalize (String.append "uploads/" n) = ["uploads"; n].
Proof.
  intros H. unfold Path.normalize.
  rewrite (split_under_uploads n (plain_no_slash n (upload_name_plain n H))).
  unfold upload_name, plain_name in H.
  apply andb_true_iff in H as [H H2]. apply andb_true_iff in H as [H H1].
  apply andb_true_iff in H as [H0 _].
  apply negb_true_iff in H0, H1, H2. simpl. rewrite H0, H1, H2. reflexivity.
Qed.

Lemma last_char_plain pre n :
  plain_name n = true ->
  exists c r, rev (list_ascii_of_string (String.append pre n)) = c :: r
              /\ Ascii.eqb c "/"%char = false.
Proof.
  unfold plain_name. intros H. apply andb_true_iff in H as [Hne Hf].
  rewrite list_ascii_app, rev_app_distr.
  destruct (rev (list_ascii_of_string n)) as [|c r] eqn:E.
  - apply (f_equal (@rev ascii)) in E. rewrite rev_involutive in E. simpl in E.
    destruct n; [discriminate Hne | discriminate E].
  - exists c, (r ++ rev (list_ascii_of_string pre))%list. split; [reflexivity|].
    rewrite forallb_forall in Hf. apply negb_true_iff. apply Hf.
    apply in_rev. rewrite E. left. reflexivity.
Qed.

Lemma ends_with_slash_plain pre n :
  plain_name n = true -> Path.ends_with_slash (String.append pre n) = false.
Proof.
  intros H. unfold Path.ends_with_slash.
  destruct (last_char_plain pre n H) as (c & r & -> & Hc). exact Hc.
Qed.

Lemma chop_slash_plain n : plain_name n = true -> Path.chop_slash n = n.
Proof.
  intros H. unfold Path.chop_slash.
  destruct (last_char_plain "" n H) as (c & r & E & Hc).
  change (String.append "" n) with n in E. rewrite E, Hc. reflexivity.
Qed.

Lemma nonempty_append pre n : plain_name n = true -> String.eqb (String.append pre n) "" = false.
Proof.
  unfold plain_name. intros H. apply andb_true_iff in H as [Hne _].
  destruct pre; [exact (proj1 (negb_true_iff _) Hne) | reflexivity].
Qed.

(** The static middleware of the upload directory, on a name that is one
    segment. *)
Lemma serve_static_uploads d url n :
  upload_name n = true ->
  serve_static Path.uploadDir d url n
  = if Path.dot_name n then None
    else match d !! Path.join Path.uploadDir n with
         | Some File => Some (SendFile [] (Path.join Path.uploadDir n))
         | Some Directory => Some (Reply (Redirect (String.append url "/")))
         | None => None
         end.
Proof.
  intros H. pose proof (upload_name_plain n H) as Hp. unfold serve_static.
  rewrite (normalize_upload_name n H).
  assert (E : String.eqb n ".." = false).
  { unfold upload_name in H. apply andb_true_iff in H as [_ H].
    apply negb_true_iff in H. exact H. }
  rewrite E.
  pose proof (nonempty_append "" n Hp) as Hne. change (String.append "" n) with n in Hne.
  pose proof (ends_with_slash_plain "" n Hp) as Hs. change (String.append "" n) with n in Hs.
  rewrite Hne, Hs. reflexivity.
Qed.

(** The static middleware of the site's pages lets the request through
    when the pages hold nothing under [uploads/<name>]. *)
Lemma serve_static_public d url n :
  upload_name n = true ->
  d !! Path.join (Path.join Path.publicDir "uploads") n = None ->
  serve_static Path.publicDir d url (String.append "uploads/" n) = None.
Proof.
  intros H Hd. pose proof (upload_name_plain n H) as Hp. unfold serve_static.
  rewrite (normalize_under_uploads n H). simpl String.eqb.
  rewrite (ends_with_slash_plain "uploads/" n Hp).
  simpl orb. cbv iota.
  change (Path.under Path.publicDir ["uploads"; n])
    with (Path.join (Path.join Path.publicDir "uploads") n).
  rewrite Hd. destruct (Path.dot_name _); reflexivity.
Qed.

Lemma route_matches_upload_name n : upload_name n = true -> route_matches n = true.
Proof.
  intros H. unfold route_matches.
  rewrite (chop_slash_plain n (upload_name_plain n H)). apply upload_name_plain. exact H.
Qed.

(** What the stack does with a request for a name that is one segment,
    when the site's pages do not hold it. *)
Lemma get_uploads_cases d s req :
  upload_name (fr_name req) = true ->
  d !! Path.join (Path.join Path.publicDir "uploads") (fr_name req) = None ->
  get_uploads d s req
  = if Path.dot_name (fr_name req)
    then ([StaticPublic; StaticUploads; UploadsRoute], Some (uploads_route req s))
    else match d !! Path.join Path.uploadDir (fr_name req) with
         | Some File =>
             ([StaticPublic; StaticUploads],
              Some (SendFile [] (Path.join Path.uploadDir (fr_name req))))
         | Some Directory =>
             ([StaticPublic; StaticUploads],
              Some (Reply (Redirect
                      (String.append (String.append "/uploads/" (fr_name req)) "/"))))
         | None =>
             ([StaticPublic; StaticUploads; UploadsRoute], Some (uploads_route req s))
         end.
Proof.
  intros H Hpub. unfold get_uploads, uploads_stack, dispatch, run_layer.
  rewrite (serve_static_public d _ _ H Hpub), (serve_static_uploads d _ _ H),
    (route_matches_upload_name _ H).
  destruct (Path.dot_name (fr_name req)); [reflexivity|].
  destruct (d !! Path.join Path.uploadDir (fr_name req)) as [[|]|]; reflexivity.
Qed.

Lemma sends_upload d n :
  upload_name n = true ->
  sends d (Path.join Path.uploadDir n)
  = bool_decide (d !! Path.join Path.uploadDir n = Some File) && negb (Path.dot_name n).
Proof.
  intros H. unfold sends, is_file.
  rewrite (hidden_join _ n (plain_no_slash n (upload_name_plain n H))). reflexivity.
Qed.

(** On a name that is one segment the legacy path gives the file exactly
    when the file is there to send: nothing else decides. *)
Lemma legacy_outcome_cases d s req :
  upload_name (fr_name req) = true ->
  d !! Path.join (Path.join Path.publicDir "uploads") (fr_name req) = None ->
  legacy_outcome d s req
  = if sends d (Path.join Path.uploadDir (fr_name req)) then Full else Deny.
Proof.
  intros H Hpub. unfold legacy_outcome.
  rewrite (get_uploads_cases d s req H Hpub), (sends_upload d _ H).
  pose proof (basename_plain _ (upload_name_plain _ H)) as Hb.
  assert (Hroute : sends d (Path.join Path.uploadDir (fr_name req)) = false ->
                   outcome_of d (uploads_route req s) = Deny).
  { intros Hs. unfold uploads_route. rewrite Hb.
    destruct (String.eqb (fr_name req) ""); [reflexivity|].
    destruct (Sql.get (file_matches (fr_name req)) (orders s));
      simpl fmap; cbv iota beta; [|reflexivity].
    destruct (JS.is_paid _); [simpl; rewrite Hs; reflexivity | reflexivity]. }
  rewrite (sends_upload d _ H) in Hroute.
  destruct (Path.dot_name (fr_name req)) eqn:Ed; simpl snd.
  - simpl negb. rewrite andb_false_r in *. apply Hroute. reflexivity.
  - simpl negb. rewrite andb_true_r in *.
    destruct (d !! Path.join Path.uploadDir (fr_name req)) as [[|]|] eqn:En; simpl snd.
    + simpl. rewrite (sends_upload d _ H), En, Ed. reflexivity.
    + reflexivity.
    + rewrite bool_decide_eq_false_2 in * by discriminate. apply Hroute. reflexivity.
Qed.

(** The claim fails on one disk, with the essay's upload in the upload
    directory: a request that carries no credential is refused by the
    preview route and given the file in full by the legacy path, and the
    client who has not paid gets the restricted preview from the one and
    the file in full from the other. *)
Lemma legacy_path_serves_everyone :
  let s := run History.submitted empty_store in
  let req := {| fr_auth := None; fr_name := History.upload |} in
  (exists o, Sql.get (Sql.order_is 1) (orders s) = Some o
     /\ Sql.get (file_matches (Path.basename (fr_name req))) (orders s) = Some o
     /\ payment_status o = VText "unpaid")
  /\ legacy_outcome History.on_disk s req = Full
  /\ outcome_of History.on_disk (preview History.on_disk None (Some 1) None s) = Deny
  /\ outcome_of History.on_disk
       (preview History.on_disk (Some History.ann) (Some 1) None s) = Preview.
Proof.
  intros s req. subst s req. rewrite submitted_store. split.
  - eexists. split; [vm_compute; reflexivity|]. split; vm_compute; reflexivity.
  - split; [vm_compute; reflexivity|]. split; vm_compute; reflexivity.
Qed.

(** C3 (amended). For an order with a submission and a request for its
    file under the bare name, a multer name that the site's pages do not
    hold: the legacy path gives the file in full exactly when the file is
    in the upload directory to be sent, whoever asks and whatever the
    payment status.  The preview route gives an admin and the order's
    writer the file in full under the same condition, so for them the two
    paths agree; it refuses a requester who is neither admin, writer nor
    client, a request without a requester included, so for such a
    requester the paths agree exactly when there is no file to send; and
    it never gives the file in full to the client of an order that is not
    paid, so for that client the paths disagree whenever the file is
    there to be sent. *)
Theorem legacy_path_agrees_for_staff_only
    (d : disk) (s : store) (auth : option principal) (uid : option Z)
    (oid : Z) (o : order) (req : file_request) :
  Sql.get (Sql.order_is oid) (orders s) = Some o ->
  JS.truthy (submission_file o) = true ->
  fr_name req = Path.basename (JS.to_String (Some (submission_file o))) ->
  upload_name (fr_name req) = true ->
  d !! Path.join (Path.join Path.publicDir "uploads") (fr_name req) = None ->
  let file := Path.join Path.uploadDir (fr_name req) in
  let legacy := legacy_outcome d s req in
  let primary := outcome_of d (preview d auth (Some oid) uid s) in
  legacy = (if sends d file then Full else Deny)
  /\ (forall u, resolved s auth uid u ->
        String.eqb (u_role u) "admin"
        || JS.strict_eq (Some (VInt (u_id u))) (Some (writer_id o)) = true ->
        primary = legacy)
  /\ ((forall u, resolved s auth uid u ->
         String.eqb (u_role u) "admin"
         || JS.strict_eq (Some (VInt (u_id u))) (Some (writer_id o)) = false
         /\ JS.strict_eq (Some (VInt (u_id u))) (Some (client_id o)) = false) ->
      primary = Deny /\ (primary = legacy <-> sends d file = false))
  /\ (forall u, resolved s auth uid u ->
        String.eqb (u_role u) "admin"
        || JS.strict_eq (Some (VInt (u_id u))) (Some (writer_id o)) = false ->
        JS.strict_eq (Some (VInt (u_id u))) (Some (client_id o)) = true ->
        JS.is_paid (Some (payment_status o)) = false ->
        primary <> Full /\ (sends d file = true -> primary <> legacy)).
Proof.
  intros Ho Hf Hname Hn Hpub file legacy primary.
  assert (L : legacy = if sends d file then Full else Deny)
    by exact (legacy_outcome_cases d s req Hn Hpub).
  assert (Horig : original_of (Some (submission_file o)) = file).
  { unfold original_of. rewrite <- Hname. reflexivity. }
  split; [exact L|]. split; [|split].
  - intros u Hr Hstaff. subst primary.
    rewrite (preview_found _ _ _ _ _ _ _ Hr Ho), Hf, outcome_preview_respond, Hstaff, Horig.
    symmetry. exact L.
  - intros Hout.
    assert (P : primary = Deny).
    { subst primary. unfold preview.
      destruct (requester auth uid) as [rid|] eqn:Er; [|reflexivity].
      destruct (Z.eqb_spec rid 0) as [|Hz]; [reflexivity|].
      rewrite Ho. simpl fmap. cbv iota beta. rewrite select_submission_file.
      simpl JS.truthy_prop. rewrite Hf. simpl negb. cbv iota.
      destruct (Sql.get (Sql.user_is rid) (users s)) as [u|] eqn:Eu; [|reflexivity].
      simpl fmap. cbv iota beta.
      assert (Hr : resolved s auth uid u) by (exists rid; auto).
      destruct (Hout u Hr) as [Hs Hc].
      rewrite outcome_preview_respond, Hs, Hc. reflexivity. }
    split; [exact P|]. rewrite P, L.
    destruct (sends d file); split; intros; congruence.
  - intros u Hr Hs Hc _.
    assert (P : primary <> Full).
    { subst primary.
      rewrite (preview_found _ _ _ _ _ _ _ Hr Ho), Hf, outcome_preview_respond, Hs, Hc.
      repeat match goal with
        | |- context [if ?b then _ else _] => destruct b
        end; discriminate. }
    split; [exact P|]. intros Hsend. rewrite L, Hsend. exact P.
Qed.

Lemma legacy_path_agrees_for_staff_only_witness :
  outcome_of History.on_disk
    (preview History.on_disk (Some History.ada) (Some 1) None
       (History.desk [History.essay; History.report]))
  = legacy_outcome History.on_disk (History.desk [History.essay; History.report])
      {| fr_auth := None; fr_name := History.upload |}.
Proof.
  destruct (legacy_path_agrees_for_staff_only History.on_disk
              (History.desk [History.essay; History.report])
              (Some History.ada) None 1 History.essay
              {| fr_auth := None; fr_name := History.upload |}
              eq_refl eq_refl eq_refl eq_refl eq_refl) as (_ & Hstaff & _).
  apply (Hstaff History.ada_row).
  - exists 3. repeat split. discriminate.
  - reflexivity.
Defined.




(** ** Integrity of the store *)

Section Keys.

Context {A : Type} (key : A -> Z).
Implicit Types (p : A -> bool) (f : A -> A) (l : list A).

Lemma keys_update p f l :
  (forall r, key (f r) = key r) -> map key (Sql.update p f l) = map key l.
Proof.
  intros H. unfold Sql.update. rewrite map_map. apply map_ext.
  intros r. destruct (p r); auto.
Qed.

Lemma Forall_update (P : A -> Prop) p f l :
  Forall P l -> (forall r, In r l -> p r = true -> P r -> P (f r)) ->
  Forall P (Sql.update p f l).
Proof.
  intros Hl Hf. unfold Sql.update. apply List.Forall_forall.
  intros r Hr. apply in_map_iff in Hr as (r0 & <- & Hin).
  pose proof (proj1 (List.Forall_forall P l) Hl r0 Hin) as HP.
  destruct (p r0) eqn:E; auto.
Qed.

Lemma Forall_delete (P : A -> Prop) p l :
  Forall P l -> Forall P (Sql.delete p l).
Proof.
  intros Hl. unfold Sql.delete. apply List.Forall_forall. intros r Hr.
  apply filter_In in Hr as [Hin _].
  exact (proj1 (List.Forall_forall P l) Hl r Hin).
Qed.

Lemma NoDup_keys_delete p l :
  NoDup (map key l) -> NoDup (map key (Sql.delete p l)).
Proof.
  unfold Sql.delete. induction l as [|r l IH]; simpl; intros H; [constructor|].
  apply NoDup_cons in H as [Hn Hl].
  destruct (negb (p r)); simpl; [|auto].
  apply NoDup_cons. split; [|auto].
  intros Hin. apply Hn. apply list_elem_of_In in Hin. apply list_elem_of_In.
  apply in_map_iff in Hin as (x & Hx & Hf). apply in_map_iff.
  exists x. split; [exact Hx|]. apply filter_In in Hf. tauto.
Qed.

Lemma NoDup_keys_snoc l r n :
  Forall (fun x => 0 < key x < n) l -> key r = n ->
  NoDup (map key l) -> NoDup (map key (l ++ [r])).
Proof.
  intros Hb Hr Hn. rewrite map_app. simpl. apply NoDup_app. split; [exact Hn|].
  split; [|apply NoDup_singleton].
  intros k Hk Hk'. apply list_elem_of_singleton in Hk'. subst k.
  apply list_elem_of_In in Hk. apply in_map_iff in Hk as (x & Hx & Hin).
  pose proof (proj1 (List.Forall_forall _ l) Hb x Hin) as Hlt. simpl in Hlt. lia.
Qed.

Lemma Forall_bound_snoc l r n :
  Forall (fun x => 0 < key x < n) l -> key r = n -> 0 < n ->
  Forall (fun x => 0 < key x < n + 1) (l ++ [r]).
Proof.
  intros Hb Hr Hn. apply Forall_app. split.
  - eapply List.Forall_impl; [|exact Hb]. simpl. intros; lia.
  - constructor; [lia | constructor].
Qed.

End Keys.

Lemma references_user_same_keys us us' v :
  map u_id us = map u_id us' ->
  Sql.references_user us' v = Sql.references_user us v.
Proof.
  intros H. destruct v as [|n|t]; simpl; try reflexivity.
  assert (E : forall l, existsb (Sql.user_is n) l = existsb (Z.eqb n) (map u_id l)).
  { induction l as [|u l IH]; simpl; [reflexivity|].
    unfold Sql.user_is at 1. rewrite (Z.eqb_sym (u_id u) n), IH. reflexivity. }
  rewrite !E, H. reflexivity.
Qed.

Lemma references_user_snoc us u v :
  Sql.references_user us v = true -> Sql.references_user (us ++ [u]) v = true.
Proof.
  destruct v as [|n|t]; simpl; auto.
  rewrite existsb_app. intros ->. reflexivity.
Qed.

Lemma references_user_positive us v :
  Forall (fun u => 0 < u_id u) us -> Sql.references_user us v = true ->
  v = VNull \/ exists n, v = VInt n /\ 0 < n.
Proof.
  intros Hpos. destruct v as [|n|t]; simpl; intros H; [auto| |discriminate].
  right. exists n. split; [reflexivity|].
  apply existsb_exists in H as (u & Hin & Hu). apply user_is_true in Hu. subst n.
  exact (proj1 (List.Forall_forall _ us) Hpos u Hin).
Qed.

(** Rewriting rows of [orders] in place keeps the store sound when the
    rewrite keeps the key and the references of the rows it touches. *)
Lemma store_ok_update_orders s p f :
  store_ok s ->
  (forall o, o_id (f o) = o_id o) ->
  (forall o, In o (orders s) -> p o = true -> refs_ok (users s) o -> refs_ok (users s) (f o)) ->
  store_ok (with_orders (Sql.update p f (orders s)) s).
Proof.
  intros [H0 H1 H2 H3 H4 H5 H6 H7] Hid Href. constructor; simpl; auto.
  - apply Forall_update; [exact H2|]. intros r _ _. rewrite Hid. auto.
  - rewrite (keys_update o_id) by exact Hid. exact H5.
  - apply Forall_update; assumption.
Qed.

Lemma store_ok_delete_orders s p :
  store_ok s -> store_ok (with_orders (Sql.delete p (orders s)) s).
Proof.
  intros [H0 H1 H2 H3 H4 H5 H6 H7]. constructor; simpl; auto.
  - apply Forall_delete. exact H2.
  - apply NoDup_keys_delete. exact H5.
  - apply Forall_delete. exact H7.
Qed.


Lemma Forall_keys {A : Type} (key : A -> Z) (P : Z -> Prop) (l : list A) :
  Forall (fun x => P (key x)) l <-> Forall P (map key l).
Proof.
  induction l as [|x l IH]; simpl.
  - split; constructor.
  - rewrite !Forall_cons, IH. reflexivity.
Qed.

(** Rewriting rows of [users] and of [email_verifications] in place. *)
Lemma store_ok_same_keys s us vs :
  store_ok s ->
  map u_id us = map u_id (users s) ->
  map v_id vs = map v_id (email_verifications s) ->
  store_ok {| users := us; orders := orders s; email_verifications := vs;
              next_user_id := next_user_id s; next_order_id := next_order_id s;
              next_verification_id := next_verification_id s |}.
Proof.
  intros [H0 H1 H2 H3 H4 H5 H6 H7] Hu Hv. constructor; simpl; auto.
  - apply (Forall_keys u_id (fun k => 0 < k < next_user_id s)). rewrite Hu.
    apply (Forall_keys u_id (fun k => 0 < k < next_user_id s)). exact H1.
  - apply (Forall_keys v_id (fun k => 0 < k < next_verification_id s)). rewrite Hv.
    apply (Forall_keys v_id (fun k => 0 < k < next_verification_id s)). exact H3.
  - rewrite Hu. exact H4.
  - rewrite Hv. exact H6.
  - eapply List.Forall_impl; [|exact H7]. intros o [Hc Hw]. split.
    + rewrite (references_user_same_keys (users s) us) by (symmetry; exact Hu). exact Hc.
    + rewrite (references_user_same_keys (users s) us) by (symmetry; exact Hu). exact Hw.
Qed.

Lemma store_ok_insert_verification uid e code now s :
  store_ok s -> store_ok (insert_verification uid e code now s).
Proof.
  intros [H0 H1 H2 H3 H4 H5 H6 H7]. constructor; simpl; auto.
  - lia.
  - apply (Forall_bound_snoc v_id); [exact H3 | reflexivity | lia].
  - apply (NoDup_keys_snoc v_id _ _ (next_verification_id s)); [exact H3 | reflexivity | exact H6].
Qed.

Lemma store_ok_add_user u s :
  store_ok s -> u_id u = next_user_id s ->
  store_ok (with_users (users s ++ [u]) (next_user_id s + 1) s).
Proof.
  intros [H0 H1 H2 H3 H4 H5 H6 H7] Hu. constructor; simpl; auto.
  - lia.
  - apply (Forall_bound_snoc u_id); [exact H1 | exact Hu | lia].
  - apply (NoDup_keys_snoc u_id _ _ (next_user_id s)); [exact H1 | exact Hu | exact H4].
  - eapply List.Forall_impl; [|exact H7]. intros o [Hc Hw].
    split; apply references_user_snoc; assumption.
Qed.

Lemma store_ok_take_order oid w s :
  store_ok s -> Sql.references_user (users s) (VInt w) = true ->
  store_ok (take_order oid w s).
Proof.
  intros Hs Hw. apply store_ok_update_orders; [exact Hs | reflexivity |].
  intros o _ _ [Hc _]. split; [exact Hc | exact Hw].
Qed.

(** A rewrite that touches neither the key nor a reference. *)
Lemma store_ok_update_plain s p f :
  store_ok s ->
  (forall o, o_id (f o) = o_id o) ->
  (forall o, client_id (f o) = client_id o) ->
  (forall o, writer_id (f o) = writer_id o) ->
  store_ok (with_orders (Sql.update p f (orders s)) s).
Proof.
  intros Hs Hid Hc Hw. apply store_ok_update_orders; [exact Hs | exact Hid |].
  intros o _ _ [H1 H2]. split; [rewrite Hc | rewrite Hw]; assumption.
Qed.

Lemma store_ok_markOrderPaid oid ref s : store_ok s -> store_ok (markOrderPaid oid ref s).
Proof. intros Hs. apply store_ok_update_plain; auto. Qed.

Lemma store_ok_record_pending oid ref amt s :
  store_ok s -> store_ok (record_pending oid ref amt s).
Proof. intros Hs. apply store_ok_update_plain; auto. Qed.

Lemma set_column_id c v o : o_id (set_column c v o) = o_id o.
Proof. unfold set_column. repeat (destruct (String.eqb c _)); reflexivity. Qed.

Lemma set_column_refs us c v o :
  assignment_ok us (c, v) = true -> refs_ok us o -> refs_ok us (set_column c v o).
Proof.
  unfold assignment_ok, set_column, refs_ok. intros Ha [Hc Hw].
  destruct (String.eqb c "title"); [split; assumption|].
  destruct (String.eqb c "description"); [split; assumption|].
  destruct (String.eqb c "client_id"); [split; assumption|].
  destruct (String.eqb c "writer_id"); [split; assumption|].
  repeat (destruct (String.eqb c _); [split; assumption|]).
  split; assumption.
Qed.

Lemma apply_assignments_id asg o : o_id (apply_assignments asg o) = o_id o.
Proof.
  unfold apply_assignments. revert o.
  induction asg as [|kv asg IH]; intros o; simpl; [reflexivity|].
  rewrite IH. apply set_column_id.
Qed.

Lemma apply_assignments_refs us asg o :
  forallb (assignment_ok us) asg = true -> refs_ok us o ->
  refs_ok us (apply_assignments asg o).
Proof.
  unfold apply_assignments. revert o.
  induction asg as [|[c v] asg IH]; intros o; simpl; [auto|].
  intros H Ho. apply andb_true_iff in H as [H1 H2].
  apply IH; [exact H2|]. apply set_column_refs; assumption.
Qed.

Lemma references_user_delete us uid v :
  Sql.references_user us v = true -> v <> VInt uid ->
  Sql.references_user (Sql.delete (Sql.user_is uid) us) v = true.
Proof.
  destruct v as [|n|t]; simpl; auto. intros H Hne.
  apply existsb_exists in H as (u & Hin & Hu). apply existsb_exists.
  exists u. split; [|exact Hu]. unfold Sql.delete. apply filter_In.
  split; [exact Hin|]. apply user_is_true in Hu.
  destruct (Sql.user_is uid u) eqn:E; [|reflexivity].
  apply user_is_true in E. congruence.
Qed.

Lemma sql_eq_int v n : Sql.eq v (VInt n) = true <-> v = VInt n.
Proof.
  destruct v as [|m|t]; simpl; split; try discriminate.
  - intros H. apply Z.eqb_eq in H. congruence.
  - intros H. injection H as ->. apply Z.eqb_refl.
Qed.

Lemma forget_user_refs us uid o :
  refs_ok us o -> refs_ok (Sql.delete (Sql.user_is uid) us) (forget_user uid o).
Proof.
  intros [Hc Hw]. unfold forget_user, refs_ok.
  destruct (Sql.eq (client_id o) (VInt uid)) eqn:E1; simpl.
  - destruct (Sql.eq (writer_id o) (VInt uid)) eqn:E2; simpl.
    + split; reflexivity.
    + split; [reflexivity|]. apply references_user_delete; [exact Hw|].
      intros H. apply sql_eq_int in H. congruence.
  - assert (N1 : client_id o <> VInt uid).
    { intros H. apply sql_eq_int in H. congruence. }
    destruct (Sql.eq (writer_id o) (VInt uid)) eqn:E2; simpl.
    + split; [|reflexivity]. apply references_user_delete; assumption.
    + split; apply references_user_delete; try assumption.
      intros H. apply sql_eq_int in H. congruence.
Qed.

Lemma forget_user_id uid o : o_id (forget_user uid o) = o_id o.
Proof.
  unfold forget_user. destruct (Sql.eq (client_id o) (VInt uid)); simpl;
    destruct (Sql.eq _ _); reflexivity.
Qed.

Lemma store_ok_add_order s now t d c sd er g :
  store_ok s -> Sql.references_user (users s) (VInt c) = true ->
  store_ok {| users := users s;
              orders := orders s ++ [new_order (next_order_id s) now t d c sd er g];
              email_verifications := email_verifications s;
              next_user_id := next_user_id s;
              next_order_id := next_order_id s + 1;
              next_verification_id := next_verification_id s |}.
Proof.
  intros [H0 H1 H2 H3 H4 H5 H6 H7] Hc. constructor; simpl; auto.
  - lia.
  - apply (Forall_bound_snoc o_id); [exact H2 | reflexivity | lia].
  - apply (NoDup_keys_snoc o_id _ _ (next_order_id s)); [exact H2 | reflexivity | exact H5].
  - apply Forall_app. split; [exact H7|]. constructor; [|constructor].
    split; [exact Hc | reflexivity].
Qed.

Lemma store_ok_delete_user uid s :
  store_ok s ->
  store_ok {| users := Sql.delete (Sql.user_is uid) (users s);
              orders := map (forget_user uid) (orders s);
              email_verifications :=
                Sql.delete (fun v => (v_user_id v =? uid)%Z) (email_verifications s);
              next_user_id := next_user_id s; next_order_id := next_order_id s;
              next_verification_id := next_verification_id s |}.
Proof.
  intros [H0 H1 H2 H3 H4 H5 H6 H7]. constructor; simpl; auto.
  - apply Forall_delete. exact H1.
  - apply List.Forall_forall. intros o Ho. apply in_map_iff in Ho as (o0 & <- & Hin).
    rewrite forget_user_id. exact (proj1 (List.Forall_forall _ _) H2 o0 Hin).
  - apply Forall_delete. exact H3.
  - apply NoDup_keys_delete. exact H4.
  - rewrite map_map. erewrite map_ext; [exact H5|]. intros o. apply forget_user_id.
  - apply NoDup_keys_delete. exact H6.
  - apply List.Forall_forall. intros o Ho. apply in_map_iff in Ho as (o0 & <- & Hin).
    apply forget_user_refs. exact (proj1 (List.Forall_forall _ _) H7 o0 Hin).
Qed.

(** Every branch of a handler is either the store as it was or one of the
    writes above. *)
Ltac branches :=
  repeat match goal with
    | |- context [match ?x with _ => _ end] => destruct x eqn:?
    end;
  simpl fst.

Lemma store_ok_register now mx h c n e pw r co s :
  store_ok s -> store_ok (fst (register now mx h c n e pw r co s)).
Proof.
  intros Hs. unfold register, bad_request. branches; try exact Hs.
  - apply store_ok_insert_verification. apply store_ok_add_user; [exact Hs | reflexivity].
  - apply store_ok_insert_verification. apply store_ok_add_user; [exact Hs | reflexivity].
Qed.

Lemma store_ok_resend now c e s :
  store_ok s -> store_ok (fst (resend_verification now c e s)).
Proof.
  intros Hs. unfold resend_verification, bad_request. branches; try exact Hs.
  apply store_ok_insert_verification. exact Hs.
Qed.

Lemma store_ok_verify now e c s :
  store_ok s -> store_ok (fst (verify_email now e c s)).
Proof.
  intros Hs. unfold verify_email, bad_request, verified. branches; try exact Hs.
  apply store_ok_same_keys; [exact Hs | |]; apply keys_update; reflexivity.
Qed.

Lemma store_ok_approve_user a i s :
  store_ok s -> store_ok (fst (approve_user a i s)).
Proof.
  intros Hs. unfold approve_user, admin_only, authMiddleware, requireAdmin, bad_request, ok. branches; try exact Hs.
  apply store_ok_same_keys; [exact Hs | |]; apply keys_update; reflexivity.
Qed.

Lemma store_ok_delete_user_handler a i s :
  store_ok s -> store_ok (fst (delete_user a i s)).
Proof.
  intros Hs. unfold delete_user, admin_only, authMiddleware, requireAdmin, bad_request, ok. branches; try exact Hs.
  apply store_ok_delete_user. exact Hs.
Qed.

Lemma store_ok_create_order now t d c sd er f s :
  store_ok s -> store_ok (fst (create_order now t d c sd er f s)).
Proof.
  intros Hs. unfold create_order, bad_request. branches; try exact Hs;
    apply store_ok_add_order; assumption.
Qed.

Lemma store_ok_assign a i w s : store_ok s -> store_ok (fst (assign a i w s)).
Proof.
  intros Hs. unfold assign, admin_only, authMiddleware, requireAdmin, bad_request. branches; try exact Hs.
  apply store_ok_take_order; assumption.
Qed.

Lemma store_ok_claim a i s : store_ok s -> store_ok (fst (claim a i s)).
Proof.
  intros Hs. unfold claim, authMiddleware, bad_request. branches; try exact Hs.
  apply store_ok_take_order; assumption.
Qed.

Lemma store_ok_update_status i st s :
  store_ok s -> store_ok (fst (update_status i st s)).
Proof.
  intros Hs. unfold update_status, bad_request. branches; try exact Hs.
  apply store_ok_update_plain; auto.
Qed.

Lemma store_ok_submit_work i f s : store_ok s -> store_ok (fst (submit_work i f s)).
Proof.
  intros Hs. unfold submit_work, bad_request. branches; try exact Hs.
  apply store_ok_update_plain; auto.
Qed.

Lemma store_ok_send_to_client a i s :
  store_ok s -> store_ok (fst (send_to_client a i s)).
Proof.
  intros Hs. unfold send_to_client, admin_only, authMiddleware, requireAdmin, bad_request. branches; try exact Hs.
  apply store_ok_update_plain; auto.
Qed.

Lemma store_ok_delete_order a i s : store_ok s -> store_ok (fst (delete_order a i s)).
Proof.
  intros Hs. unfold delete_order, admin_only, authMiddleware, requireAdmin, bad_request. branches; try exact Hs.
  apply store_ok_delete_orders. exact Hs.
Qed.

Lemma store_ok_update_order a i b s :
  store_ok s -> store_ok (fst (update_order a i b s)).
Proof.
  intros Hs. unfold update_order, admin_only, authMiddleware, requireAdmin, bad_request.
  destruct a as [u|]; [|exact Hs].
  destruct (String.eqb (p_role u) "admin"); [|exact Hs].
  destruct i as [oid|]; [|exact Hs].
  destruct (assignments b) as [|kv asg] eqn:Ea; [exact Hs|].
  destruct (existsb (Sql.order_is oid) (orders s)
            && negb (forallb (assignment_ok (users s)) (kv :: asg))) eqn:E;
    [exact Hs|]. simpl fst.
  apply store_ok_update_orders; [exact Hs | apply apply_assignments_id |].
  intros o Hin Hp Ho. apply apply_assignments_refs; [|exact Ho].
  apply andb_false_iff in E as [E|E].
  - assert (existsb (Sql.order_is oid) (orders s) = true)
      by (apply existsb_exists; eauto). congruence.
  - apply negb_false_iff in E. exact E.
Qed.

Lemma store_ok_payments_initiate env now rnd k i ph amt s :
  store_ok s -> store_ok (fst (payments_initiate env now rnd k i ph amt s)).
Proof.
  intros Hs. unfold payments_initiate, bad_request. branches; try exact Hs;
    apply store_ok_record_pending; exact Hs.
Qed.

Lemma store_ok_payments_callback now q b s :
  store_ok s -> store_ok (fst (payments_callback now q b s)).
Proof.
  intros Hs. unfold payments_callback, bad_request. branches; try exact Hs;
    apply store_ok_markOrderPaid; exact Hs.
Qed.

Lemma store_ok_empty : store_ok empty_store.
Proof. constructor; simpl; try constructor; try lia; constructor. Qed.

Lemma store_ok_step o s : store_ok s -> store_ok (step o s).
Proof.
  intros Hs. unfold step, handle. destruct o; simpl fst.
  - apply store_ok_register; exact Hs.
  - apply store_ok_resend; exact Hs.
  - apply store_ok_verify; exact Hs.
  - apply store_ok_approve_user; exact Hs.
  - apply store_ok_delete_user_handler; exact Hs.
  - apply store_ok_create_order; exact Hs.
  - apply store_ok_assign; exact Hs.
  - apply store_ok_claim; exact Hs.
  - apply store_ok_update_status; exact Hs.
  - apply store_ok_submit_work; exact Hs.
  - apply store_ok_send_to_client; exact Hs.
  - apply store_ok_delete_order; exact Hs.
  - apply store_ok_update_order; exact Hs.
  - apply store_ok_payments_initiate; exact Hs.
  - apply store_ok_markOrderPaid; exact Hs.
  - apply store_ok_payments_callback; exact Hs.
Qed.

(** *** Statement by statement *)

Lemma always_single Q h : (forall s, Q s (fst (h s))) -> always Q (single h).
Proof. intros H s. split; [apply H | exact I]. Qed.

Lemma always_impl (Q Q' : store -> store -> Prop) t :
  (forall s s1, Q s s1 -> Q' s s1) -> always Q t -> always Q' t.
Proof.
  intros H. induction t as [r|callback IH] using task_induction; simpl; [auto|].
  intros Ht s. destruct (Ht s) as [Hq Hrest]. split; [apply H; exact Hq | apply IH; exact Hrest].
Qed.

(** What every statement does whatever the store it finds, it does
    whatever the request relies on. *)
Lemma sound_of_always J I R G o t :
  always (fun s s1 => J s -> I s -> I s1 /\ G o s s1) t ->
  forall s0, sound J I R G o t s0.
Proof.
  induction t as [r|callback IH] using task_induction; simpl; [auto|].
  intros Ht s0 s HJ HI _. destruct (Ht s) as [Hq Hrest].
  destruct (Hq HJ HI) as [HI1 HG]. split; [exact HI1|]. split; [exact HG|].
  apply IH. exact Hrest.
Qed.

Ltac statements leaf :=
  repeat first
    [ exact I
    | progress cbn beta iota delta [always sound db_get respond verification_insert fst snd]
    | match goal with
      | |- forall s : store, _ => intros ?
      | |- context [match ?x with _ => _ end] => destruct x eqn:?
      | |- _ /\ _ => split
      end ];
  leaf.

Lemma store_ok_with_users s us :
  store_ok s -> map u_id us = map u_id (users s) ->
  store_ok (with_users us (next_user_id s) s).
Proof.
  intros Hs Hu. exact (store_ok_same_keys s us (email_verifications s) Hs Hu eq_refl).
Qed.

Lemma store_ok_with_verifications s vs :
  store_ok s -> map v_id vs = map v_id (email_verifications s) ->
  store_ok (with_verifications vs s).
Proof.
  intros Hs Hv. exact (store_ok_same_keys s (users s) vs Hs eq_refl Hv).
Qed.

Ltac keeps_store_ok :=
  intros Hs;
  first
    [ exact Hs
    | apply store_ok_insert_verification; exact Hs
    | apply store_ok_add_user; [exact Hs | reflexivity]
    | apply store_ok_with_users; [exact Hs | apply keys_update; reflexivity]
    | apply store_ok_with_verifications; [exact Hs | apply keys_update; reflexivity]
    | apply store_ok_take_order; assumption
    | apply store_ok_record_pending; exact Hs ].

Lemma store_ok_statements o :
  always (fun s s1 => store_ok s -> store_ok s1) (task_of o).
Proof.
  pose proof (store_ok_step o) as Hstep.
  destruct o; simpl task_of; try (apply always_single; exact Hstep); clear Hstep.
  - unfold register_task. statements keeps_store_ok.
  - unfold resend_task. statements keeps_store_ok.
  - unfold verify_task. statements keeps_store_ok.
  - unfold approve_user_task, behind_admin, behind_auth. statements keeps_store_ok.
  - unfold assign_task, behind_admin, behind_auth, take. statements keeps_store_ok.
  - unfold claim_task, behind_auth, take. statements keeps_store_ok.
  - unfold initiate_task. statements keeps_store_ok.
  - statements ltac:(apply store_ok_markOrderPaid).
Qed.

(** Every store the server can reach is sound. *)
Lemma reachable_store_ok s : reachable s -> store_ok s.
Proof.
  apply (reachable_keeps (fun _ => True) store_ok (fun _ _ _ => True));
    [ auto | auto | | auto | apply store_ok_empty ].
  intros o s0. apply sound_of_always.
  eapply always_impl; [|apply store_ok_statements].
  simpl. intros s1 s2 H _ Hs. split; [apply H; exact Hs | auto].
Qed.

(** ** Assignment and claiming (C2) *)

Lemma sql_eq_text v t : Sql.eq v (VText t) = true <-> v = VText t.
Proof.
  destruct v as [|m|u]; simpl; split; try discriminate.
  - intros H. apply String.eqb_eq in H. congruence.
  - intros H. injection H as ->. apply String.eqb_refl.
Qed.

Lemma active_for_true w o :
  active_for w o = true <-> writer_id o = VInt w /\ status o = VText "In Progress".
Proof.
  unfold active_for. rewrite andb_true_iff, sql_eq_int, sql_eq_text. reflexivity.
Qed.

Lemma has_active_get w s : has_active w s <-> Sql.get (active_for w) (orders s) <> None.
Proof.
  split.
  - intros (o & Hin & Hw & Hs) Hnone.
    pose proof (get_none _ _ o Hnone Hin) as H.
    assert (active_for w o = true) by (apply active_for_true; auto). congruence.
  - intros H. destruct (Sql.get (active_for w) (orders s)) as [o|] eqn:E; [|congruence].
    apply get_some in E as [Hin Ha]. apply active_for_true in Ha. exists o. tauto.
Qed.

Lemma strict_eq_text v t :
  JS.strict_eq (Some v) (Some (VText t)) = true <-> v = VText t.
Proof.
  destruct v as [|m|u]; simpl; split; try discriminate.
  - intros H. apply String.eqb_eq in H. congruence.
  - intros H. injection H as ->. apply String.eqb_refl.
Qed.

(** The decision the two handlers share, once the caller is let in. *)
Lemma assign_cases admin oid w s :
  p_role admin = "admin" ->
  assign (Some admin) (Some oid) (Some w) s
  = match Sql.get (active_for w) (orders s) with
    | Some _ => (s, Json 400 "Writer already has an active order")
    | None =>
        match Sql.get (Sql.order_is oid) (orders s) with
        | None => (s, Json 404 "Order not found")
        | Some o =>
            if JS.truthy (writer_id o) then (s, Json 400 "Order already assigned")
            else if negb (JS.strict_eq (Some (status o)) (Some (VText "Pending Assignment")))
            then (s, Json 400 "Order not available for assignment")
            else if Sql.references_user (users s) (VInt w)
            then (take_order oid w s, Json 200 "Order assigned successfully")
            else (s, Json 500 "Failed to assign order")
        end
    end.
Proof.
  intros Hr. unfold assign, admin_only, authMiddleware, requireAdmin. rewrite Hr. simpl String.eqb. cbv iota.
  destruct (Sql.get (active_for w) (orders s)); [reflexivity|].
  destruct (Sql.get (Sql.order_is oid) (orders s)) as [o|]; [|reflexivity].
  simpl fmap. cbv iota beta. rewrite select_assign_writer, select_assign_status.
  reflexivity.
Qed.

Lemma claim_cases writer oid s :
  p_role writer = "writer" ->
  claim (Some writer) (Some oid) s
  = match Sql.get (active_for (p_id writer)) (orders s) with
    | Some _ => (s, Json 400 "You already have an active order")
    | None =>
        match Sql.get (Sql.order_is oid) (orders s) with
        | None => (s, Json 404 "Order not found")
        | Some o =>
            if JS.truthy (writer_id o) then (s, Json 400 "Order already assigned")
            else if negb (JS.strict_eq (Some (status o)) (Some (VText "Pending Assignment")))
            then (s, Json 400 "Order not available for assignment")
            else if Sql.references_user (users s) (VInt (p_id writer))
            then (take_order oid (p_id writer) s, Json 200 "Order claimed successfully")
            else (s, Json 500 "Failed to claim order")
        end
    end.
Proof.
  intros Hr. unfold claim, authMiddleware. rewrite Hr. simpl String.eqb. cbv iota. simpl negb. cbv iota zeta.
  destruct (Sql.get (active_for (p_id writer)) (orders s)); [reflexivity|].
  destruct (Sql.get (Sql.order_is oid) (orders s)) as [o|]; [|reflexivity].
  simpl fmap. cbv iota beta. rewrite select_assign_writer, select_assign_status.
  reflexivity.
Qed.

(** In a reachable store a writer reference that is set is truthy. *)
Lemma writer_set_truthy s o :
  store_ok s -> In o (orders s) -> writer_id o <> VNull -> JS.truthy (writer_id o) = true.
Proof.
  intros Hs Hin Hset.
  pose proof (proj1 (List.Forall_forall _ _) (ok_references s Hs) o Hin) as [_ Hw].
  assert (Hpos : Forall (fun u => 0 < u_id u) (users s)).
  { eapply List.Forall_impl; [|exact (ok_user_ids s Hs)]. simpl. intros; lia. }
  destruct (references_user_positive _ _ Hpos Hw) as [E|(n & E & Hn)]; [contradiction|].
  rewrite E. simpl. apply negb_true_iff. apply Z.eqb_neq. lia.
Qed.

Lemma get_take_order oid w s o :
  Sql.get (Sql.order_is oid) (orders s) = Some o ->
  Sql.get (Sql.order_is oid) (orders (take_order oid w s))
  = Some (set_status (VText "In Progress") (set_writer_id (VInt w) o)).
Proof.
  intros Ho. unfold take_order. simpl orders. rewrite get_update by reflexivity.
  rewrite Ho. simpl. apply get_some in Ho as [_ Hid]. rewrite Hid. reflexivity.
Qed.

(** C2. Assign by an admin to writer [w] and claim by writer [w] apply the
    same rule to the same effect: conflict (400) when [w] already has an
    order in progress; not found (404) when the order does not exist;
    conflict (400) when the order's writer is already set or its status is
    not 'Pending Assignment'; and on success the order's writer is [w] and
    its status 'In Progress'. *)
Theorem assign_and_claim_same_rule (s : store) (admin writer : principal) (oid : Z) :
  reachable s ->
  p_role admin = "admin" ->
  p_role writer = "writer" ->
  let w := p_id writer in
  let a := assign (Some admin) (Some oid) (Some w) s in
  let c := claim (Some writer) (Some oid) s in
  (fst a = fst c /\ code_of (snd a) = code_of (snd c))
  /\ (has_active w s -> fst a = s /\ code_of (snd a) = 400)
  /\ (~ has_active w s -> Sql.get (Sql.order_is oid) (orders s) = None ->
       fst a = s /\ code_of (snd a) = 404)
  /\ (forall o, ~ has_active w s -> Sql.get (Sql.order_is oid) (orders s) = Some o ->
       writer_id o <> VNull \/ status o <> VText "Pending Assignment" ->
       fst a = s /\ code_of (snd a) = 400)
  /\ (forall o, ~ has_active w s -> Sql.get (Sql.order_is oid) (orders s) = Some o ->
       writer_id o = VNull -> status o = VText "Pending Assignment" ->
       Sql.references_user (users s) (VInt w) = true ->
       code_of (snd a) = 200 /\ fst a = take_order oid w s)
  /\ (code_of (snd a) = 200 ->
       exists o1, Sql.get (Sql.order_is oid) (orders (fst a)) = Some o1
         /\ writer_id o1 = VInt w /\ status o1 = VText "In Progress").
Proof.
  intros Hreach Hadm Hwri w a c. subst a c.
  rewrite (assign_cases _ _ _ _ Hadm), (claim_cases _ _ _ Hwri). fold w.
  pose proof (reachable_store_ok _ Hreach) as Hok.
  pose proof (has_active_get w s) as Hact.
  destruct (Sql.get (active_for w) (orders s)) as [x|] eqn:Ea.
  { assert (Hy : has_active w s) by (apply Hact; discriminate).
    refine (conj _ (conj _ (conj _ (conj _ (conj _ _))))); simpl;
      try tauto; try discriminate; intros; exfalso; tauto. }
  assert (Hn : ~ has_active w s) by (rewrite Hact; intros H; apply H; reflexivity).
  destruct (Sql.get (Sql.order_is oid) (orders s)) as [o|] eqn:Eo.
  2:{ refine (conj _ (conj _ (conj _ (conj _ (conj _ _))))); simpl;
        try tauto; try discriminate. }
  destruct (JS.truthy (writer_id o)) eqn:Et.
  { refine (conj _ (conj _ (conj _ (conj _ (conj _ _))))); simpl;
      try tauto; try discriminate.
    intros o0 _ Ho0 Hnull. injection Ho0 as <-. rewrite Hnull in Et. discriminate. }
  assert (Hnull : writer_id o = VNull).
  { destruct (value_eq_dec (writer_id o) VNull) as [E|E]; [exact E|].
    apply get_some in Eo as [Hin _].
    rewrite (writer_set_truthy s o Hok Hin E) in Et. discriminate. }
  destruct (JS.strict_eq (Some (status o)) (Some (VText "Pending Assignment"))) eqn:Es;
    simpl negb; cbv iota.
  2:{ refine (conj _ (conj _ (conj _ (conj _ (conj _ _))))); simpl;
        try tauto; try discriminate.
      intros o0 _ Ho0 _ Hst. injection Ho0 as <-.
      assert (JS.strict_eq (Some (status o)) (Some (VText "Pending Assignment")) = true)
        by (apply strict_eq_text; exact Hst).
      congruence. }
  apply strict_eq_text in Es.
  destruct (Sql.references_user (users s) (VInt w)) eqn:Er.
  - refine (conj _ (conj _ (conj _ (conj _ (conj _ _))))); simpl;
      try tauto; try discriminate.
    + intros o0 _ Ho0 [H|H]; injection Ho0 as <-; contradiction.
    + intros _. eexists. split; [apply get_take_order; exact Eo|]. split; reflexivity.
  - refine (conj _ (conj _ (conj _ (conj _ (conj _ _))))); simpl;
      try tauto; try discriminate.
    intros o0 _ Ho0 [H|H]; injection Ho0 as <-; contradiction.
Qed.

Lemma assign_and_claim_same_rule_witness :
  reachable (run History.two_orders empty_store)
  /\ fst (assign (Some History.ada) (Some 1) (Some 2) (run History.two_orders empty_store))
     = fst (claim (Some History.wes) (Some 1) (run History.two_orders empty_store)).
Proof.
  split; [apply reachable_run|].
  apply (assign_and_claim_same_rule (run History.two_orders empty_store)
           History.ada History.wes 1);
    [apply reachable_run | reflexivity | reflexivity].
Defined.

(** ** One order in progress per writer (C5) *)

Lemma count_active_update_le w p f os :
  (forall o, active_for w (f o) = true -> active_for w o = true) ->
  (count_active w (Sql.update p f os) <= count_active w os)%nat.
Proof.
  intros H. unfold count_active, Sql.update.
  induction os as [|o os IH]; simpl; [lia|].
  destruct (p o).
  - destruct (active_for w (f o)) eqn:E.
    + rewrite (H _ E). simpl. lia.
    + destruct (active_for w o); simpl; lia.
  - destruct (active_for w o); simpl; lia.
Qed.

Lemma count_active_delete_le w p os :
  (count_active w (Sql.delete p os) <= count_active w os)%nat.
Proof.
  unfold count_active, Sql.delete.
  induction os as [|o os IH]; simpl; [lia|].
  destruct (negb (p o)); simpl; destruct (active_for w o); simpl; lia.
Qed.

Lemma count_active_map_le w g os :
  (forall o, active_for w (g o) = true -> active_for w o = true) ->
  (count_active w (map g os) <= count_active w os)%nat.
Proof.
  intros H. unfold count_active.
  induction os as [|o os IH]; simpl; [lia|].
  destruct (active_for w (g o)) eqn:E.
  - rewrite (H _ E). simpl. lia.
  - destruct (active_for w o); simpl; lia.
Qed.

Lemma count_active_snoc w os o :
  active_for w o = false -> count_active w (os ++ [o]) = count_active w os.
Proof.
  intros H. unfold count_active. rewrite List.filter_app. simpl. rewrite H.
  rewrite length_app. simpl. lia.
Qed.

Lemma one_row_per_key oid os :
  NoDup (map o_id os) -> (length (List.filter (Sql.order_is oid) os) <= 1)%nat.
Proof.
  induction os as [|o os IH]; simpl; intros H; [lia|].
  apply NoDup_cons in H as [Hn Hos].
  destruct (Sql.order_is oid o) eqn:E; [|auto].
  simpl. apply order_is_true in E.
  assert (Z : List.filter (Sql.order_is oid) os = []).
  { destruct (List.filter (Sql.order_is oid) os) as [|x l] eqn:F; [reflexivity|].
    exfalso. apply Hn. apply list_elem_of_In.
    assert (Hx : In x (List.filter (Sql.order_is oid) os)) by (rewrite F; left; reflexivity).
    apply filter_In in Hx as [Hin Hid]. apply order_is_true in Hid.
    apply in_map_iff. exists x. split; [congruence | exact Hin]. }
  rewrite Z. simpl. lia.
Qed.

Lemma count_active_update_fresh w p f os :
  Sql.get (active_for w) os = None ->
  (count_active w (Sql.update p f os) <= length (List.filter p os))%nat.
Proof.
  unfold count_active, Sql.update, Sql.get.
  induction os as [|o os IH]; simpl; [lia|].
  destruct (active_for w o) eqn:E; [discriminate|]. intros H.
  specialize (IH H). destruct (p o).
  - destruct (active_for w (f o)); simpl; lia.
  - rewrite E. exact IH.
Qed.

Lemma single_active_take_order oid w s :
  store_ok s -> single_active s ->
  Sql.get (active_for w) (orders s) = None ->
  single_active (take_order oid w s).
Proof.
  intros Hok Hs Hnone w'. unfold take_order. simpl orders.
  destruct (Z.eq_dec w' w) as [->|Hne].
  - etransitivity; [apply count_active_update_fresh; exact Hnone|].
    apply one_row_per_key. exact (ok_orders_nodup s Hok).
  - etransitivity; [|apply (Hs w')]. apply count_active_update_le.
    intros o Ha. apply active_for_true in Ha as [Hw _]. simpl in Hw. congruence.
Qed.

Lemma forget_user_active uid w o :
  active_for w (forget_user uid o) = true -> active_for w o = true.
Proof.
  rewrite !active_for_true. unfold forget_user.
  destruct (Sql.eq (client_id o) (VInt uid)); simpl;
    destruct (Sql.eq (writer_id o) (VInt uid)); simpl; intros [H1 H2];
    try discriminate; auto.
Qed.

(** *** One order in progress, statement by statement *)

Lemma count_none w os :
  count_active w os = 0%nat <-> Sql.get (active_for w) os = None.
Proof.
  unfold count_active, Sql.get. induction os as [|o os IH]; simpl; [tauto|].
  destruct (active_for w o); simpl; [split; discriminate | exact IH].
Qed.

Lemma fewer_keeps_single s s1 :
  (forall w, (count_active w (orders s1) <= count_active w (orders s))%nat) ->
  single_active s -> single_active s1.
Proof. intros H Hs w. etransitivity; [apply H | apply Hs]. Qed.

Lemma fewer_keeps_idle o s s1 :
  (forall w, (count_active w (orders s1) <= count_active w (orders s))%nat) ->
  others_idle_kept o s s1.
Proof. intros H w _ Hz. specialize (H w). lia. Qed.

Ltac no_new_active :=
  intros ?;
  first
    [ apply Nat.le_refl
    | simpl orders; apply count_active_update_le; intros ? Ha;
      first [ exact Ha | apply active_for_true in Ha as [_ Ha]; discriminate ]
    | simpl orders; apply count_active_delete_le
    | simpl orders; apply count_active_map_le; apply forget_user_active
    | simpl orders; rewrite count_active_snoc by reflexivity; apply Nat.le_refl ].

(** No statement of a request other than an assignment, a claim and the
    two overwrites gives a writer an order in progress. *)
Lemma no_new_active_statements o :
  match o with
  | Assign _ _ _ | Claim _ _ | UpdateStatus _ _ | UpdateOrder _ _ _ => True
  | _ =>
      always (fun s s1 => forall w,
                (count_active w (orders s1) <= count_active w (orders s))%nat)
        (task_of o)
  end.
Proof.
  destruct o; simpl task_of; try exact I.
  - unfold register_task. statements no_new_active.
  - unfold resend_task. statements no_new_active.
  - unfold verify_task. statements no_new_active.
  - unfold approve_user_task, behind_admin, behind_auth. statements no_new_active.
  - apply always_single. intros s.
    unfold delete_user, admin_only, authMiddleware, requireAdmin, bad_request, ok.
    branches; no_new_active.
  - apply always_single. intros s. unfold create_order, bad_request.
    branches; no_new_active.
  - apply always_single. intros s. unfold submit_work, bad_request.
    branches; no_new_active.
  - apply always_single. intros s.
    unfold send_to_client, admin_only, authMiddleware, requireAdmin, bad_request.
    branches; no_new_active.
  - apply always_single. intros s.
    unfold delete_order, admin_only, authMiddleware, requireAdmin, bad_request.
    branches; no_new_active.
  - unfold initiate_task, record_pending. statements no_new_active.
  - unfold markOrderPaid. statements no_new_active.
  - apply always_single. intros s.
    unfold payments_callback, bad_request, markOrderPaid. branches; no_new_active.
Qed.

(** The chain of an assignment or a claim: what the first statement has
    read still holds when the third writes, as long as no other request
    gives that writer an order in between. *)
Lemma take_sound o oid w busy done failed s0 :
  taker o = Some w ->
  sound store_ok single_active idle_kept others_idle_kept o
    (take oid w busy done failed) s0.
Proof.
  intros Ht. unfold take. cbn [sound db_get].
  intros s1 Hok1 Hs1 _. cbn [fst snd].
  split; [exact Hs1|]. split; [intros w' _ Hz; exact Hz|].
  destruct (Sql.get (active_for w) (orders s1)) eqn:E1; [exact I|].
  cbn [sound db_get]. intros s2 Hok2 Hs2 Hr2. cbn [fst snd].
  assert (Z2 : count_active w (orders s2) = 0%nat)
    by (apply (Hr2 w Ht); apply count_none; exact E1).
  split; [exact Hs2|]. split; [intros w' _ Hz; exact Hz|].
  destruct (select _ <$> Sql.get (Sql.order_is oid) (orders s2)) as [order|]; [|exact I].
  destruct (JS.truthy_prop _); [exact I|].
  destruct (negb _); [exact I|].
  cbn [sound]. intros s3 Hok3 Hs3 Hr3.
  assert (Z3 : count_active w (orders s3) = 0%nat) by (apply (Hr3 w Ht); exact Z2).
  destruct (Sql.references_user (users s3) (VInt w)) eqn:Efk; cbn [fst snd sound respond].
  - split; [|split; [|exact I]].
    + apply single_active_take_order; [exact Hok3 | exact Hs3 | apply count_none; exact Z3].
    + intros w' Hne Hz.
      enough (count_active w' (orders (take_order oid w s3))
              <= count_active w' (orders s3))%nat by lia.
      unfold take_order. simpl orders. apply count_active_update_le.
      intros o0 Ha. apply active_for_true in Ha as [Hw _]. simpl in Hw.
      exfalso. apply Hne. rewrite Ht. congruence.
  - split; [exact Hs3|]. split; [intros w' _ Hz; exact Hz | exact I].
Qed.

Lemma lifecycle_sound o s0 :
  overwrites_status o = false ->
  sound store_ok single_active idle_kept others_idle_kept o (task_of o) s0.
Proof.
  intros Ho. pose proof (no_new_active_statements o) as Hle.
  destruct o; try discriminate Ho;
    try (apply sound_of_always; eapply always_impl; [|exact Hle];
         simpl; intros s s1 H _ Hs;
         split; [exact (fewer_keeps_single s s1 H Hs) | apply fewer_keeps_idle; exact H]);
    clear Hle; simpl task_of.
  - unfold assign_task, behind_admin, behind_auth.
    destruct auth as [u|]; [|exact I].
    destruct (String.eqb (p_role u) "admin"); [|exact I].
    destruct orderId as [oid|], writerId as [w|]; try exact I.
    apply take_sound. reflexivity.
  - unfold claim_task, behind_auth.
    destruct auth as [u|]; [|exact I].
    destruct (negb _); [exact I|].
    destruct orderId as [oid|]; [|exact I].
    apply take_sound. reflexivity.
Qed.

Lemma calm_permitted es c :
  calm es c = true ->
  permitted other_writer (fun o => overwrites_status o = false) es c.
Proof.
  revert c. induction es as [|e es IH]; intros c H; simpl; [exact I|].
  simpl in H. apply andb_true_iff in H as [Hd Hes].
  split; [|apply IH; exact Hes]. apply negb_true_iff in Hd.
  destruct e as [o|i]; simpl; [|exact I]. simpl in Hd.
  apply orb_false_iff in Hd as [Ho Ht]. split; [exact Ho|].
  apply List.Forall_forall. intros p Hp. unfold other_writer.
  destruct (taker o) as [w|]; [|split; [left | right; left]; reflexivity].
  assert (Hne : taker (fst p) <> Some w).
  { intros E. assert (F : existsb (fun p => bool_decide (taker (fst p) = Some w)) (flight c) = true).
    { apply existsb_exists. exists p. split; [exact Hp|]. apply bool_decide_eq_true_2. exact E. }
    congruence. }
  split; right; right; congruence.
Qed.

Lemma calm_single_active es :
  calm es start = true -> single_active (db (play es start)).
Proof.
  intros H.
  refine (proj1 (permitted_config_ok store_ok single_active idle_kept others_idle_kept
                   other_writer (fun o => overwrites_status o = false)
                   _ _ _ _ _ _ es (calm_permitted es start H))).
  - intros o s w _ Hz. exact Hz.
  - intros o s1 s2 s3 H1 H2 w Hw Hz. apply (H2 w Hw). apply (H1 w Hw). exact Hz.
  - intros o o' s s1 Hap Hg w Hw Hz. apply (Hg w); [|exact Hz].
    destruct Hap as [E|[E|E]]; congruence.
  - intros o s0 Ho. apply lifecycle_sound. exact Ho.
  - intros es'. apply reachable_store_ok. exists es'. reflexivity.
  - intros w. unfold count_active. simpl. lia.
Qed.

(** Counting the rows in progress of a table that is written out. *)
Ltac count_rows :=
  intros ?; unfold count_active, active_for; simpl;
  rewrite ?andb_false_r, ?andb_true_r;
  repeat match goal with
    | |- context [if ?b then _ else _] => destruct b
    end;
  simpl; lia.

Lemma single_active_submitted : single_active (run History.submitted empty_store).
Proof. rewrite submitted_store. count_rows. Qed.

Lemma second_claim_store :
  run (History.submitted ++ [Claim (Some History.wes) (Some 2)]) empty_store
  = History.desk [History.essay;
                  set_status (VText "In Progress") (set_writer_id (VInt 2) History.report)].
Proof. vm_compute. reflexivity. Qed.

Lemma single_active_second_claim :
  single_active (run (History.submitted ++ [Claim (Some History.wes) (Some 2)]) empty_store).
Proof. rewrite second_claim_store. count_rows. Qed.

(** C5 (amended). Every run in which neither update status nor the admin
    order update occurs, and in which no assignment or claim for a writer
    arrives while another assignment or claim for that writer has not
    answered yet, leaves each writer at most one order in progress,
    however the statements of its requests fall between one another:
    registration and verification, create order, assign, claim, submit
    work, deliver, initiating and confirming a payment, and the
    deletions. *)
Theorem lifecycle_keeps_single_active (es : list event) :
  calm es start = true ->
  single_active (db (play es start)).
Proof. exact (calm_single_active es). Qed.

Lemma lifecycle_keeps_single_active_witness :
  single_active (db (play History.overlapping start)).
Proof.
  apply (lifecycle_keeps_single_active History.overlapping).
  vm_compute. reflexivity.
Defined.

(** The claim fails in two ways.  Two claims by Wes, for the essay and
    for the report, arrive together; each reads his orders in progress
    and the order it is after before the other writes; both are answered
    200 and he has two orders in progress, with no update status and no
    admin order update in the run.  And with one request after the
    other: Wes has handed in the essay and claimed the report, each store
    so far giving him at most one order in progress; one status update on
    the essay, and he has two. *)
Lemma one_writer_two_orders_in_progress :
  (let c := play History.racing start in
   forallb (fun e => match e with
                     | Arrive o => negb (overwrites_status o)
                     | Advance _ => true
                     end) History.racing = true
   /\ flight c
      = [ (Claim (Some History.wes) (Some 1),
           respond (Json 200 "Order claimed successfully"));
          (Claim (Some History.wes) (Some 2),
           respond (Json 200 "Order claimed successfully")) ]
   /\ reachable (db c)
   /\ count_active 2 (orders (db c)) = 2%nat
   /\ ~ single_active (db c))
  /\ (let before :=
        run (History.submitted ++ [Claim (Some History.wes) (Some 2)]) empty_store in
      let after := step (UpdateStatus (Some 1) (Some (VText "In Progress"))) before in
      reachable before /\ single_active before
      /\ reachable after /\ count_active 2 (orders after) = 2%nat
      /\ ~ single_active after).
Proof.
  split.
  - intros c.
    assert (Hc : count_active 2 (orders (db c)) = 2%nat) by (vm_compute; reflexivity).
    split; [vm_compute; reflexivity|]. split; [vm_compute; reflexivity|].
    split; [exists History.racing; reflexivity|]. split; [exact Hc|].
    intros H. specialize (H 2). rewrite Hc in H. lia.
  - intros before after.
    assert (Hb : reachable before) by apply reachable_run.
    assert (Hc : count_active 2 (orders after) = 2%nat) by (vm_compute; reflexivity).
    split; [exact Hb|]. split; [exact single_active_second_claim|].
    split; [apply reachable_step; exact Hb|].
    split; [exact Hc|].
    intros H. specialize (H 2). rewrite Hc in H. lia.
Qed.

(** ** Payment status (C6) *)

Lemma get_map {A : Type} (q : A -> bool) (g : A -> A) (l : list A) :
  (forall r, q (g r) = q r) -> Sql.get q (map g l) = g <$> Sql.get q l.
Proof.
  intros H. unfold Sql.get. induction l as [|r l IH]; simpl; [reflexivity|].
  rewrite H. destruct (q r); [reflexivity | exact IH].
Qed.

Lemma get_snoc {A : Type} (q : A -> bool) (l : list A) (x y : A) :
  Sql.get q l = Some x -> Sql.get q (l ++ [y]) = Some x.
Proof.
  unfold Sql.get. induction l as [|r l IH]; simpl; [discriminate|].
  destruct (q r); auto.
Qed.

Lemma get_delete_same {A : Type} (q : A -> bool) (l : list A) :
  Sql.get q (Sql.delete q l) = None.
Proof.
  unfold Sql.get, Sql.delete. induction l as [|r l IH]; simpl; [reflexivity|].
  destruct (q r) eqn:E; simpl; [exact IH | rewrite E; exact IH].
Qed.

Lemma pay_rank_bound v i : pay_rank v = Some i -> (i <= 2)%nat.
Proof.
  destruct v as [| |t]; simpl; try discriminate.
  repeat (destruct (String.eqb t _); [intros [= <-]; lia|]). discriminate.
Qed.

Lemma pay_rank_paid v : pay_rank v = Some 2%nat -> v = VText "paid".
Proof.
  destruct v as [| |t]; simpl; try discriminate.
  destruct (String.eqb t "unpaid"); [discriminate|].
  destruct (String.eqb t "pending"); [discriminate|].
  destruct (String.eqb_spec t "paid") as [->|]; [reflexivity | discriminate].
Qed.

Lemma set_column_other c v o :
  c <> "payment_status" -> payment_status (set_column c v o) = payment_status o.
Proof.
  intros Hc. unfold set_column.
  repeat match goal with
    | |- context [String.eqb c ?k] =>
        destruct (String.eqb_spec c k); [try reflexivity; try contradiction|]
    end.
  reflexivity.
Qed.

Lemma apply_assignments_app l1 l2 o :
  apply_assignments (l1 ++ l2) o = apply_assignments l2 (apply_assignments l1 o).
Proof. unfold apply_assignments. apply fold_left_app. Qed.

Lemma payment_status_other_keys (keys : list string) (body : gmap string value) o :
  ~ In "payment_status" keys ->
  payment_status (apply_assignments (omap (fun k => pair k <$> body !! k) keys) o)
  = payment_status o.
Proof.
  revert o. induction keys as [|k keys IH]; intros o Hn; [reflexivity|].
  simpl omap. destruct (body !! k) as [v|]; simpl.
  - unfold apply_assignments in *. simpl fold_left. rewrite IH by (intros H; apply Hn; right; exact H).
    apply set_column_other. intros ->. apply Hn. left. reflexivity.
  - apply IH. intros H. apply Hn. right. exact H.
Qed.

(** What the admin update leaves in [payment_status]. *)
Lemma payment_status_assigned (body : gmap string value) o :
  payment_status (apply_assignments (assignments body) o)
  = match body !! "payment_status" with
    | Some v => text_affinity v
    | None => payment_status o
    end.
Proof.
  unfold assignments, allowed.
  change ["title"; "description"; "client_id"; "writer_id"; "status"; "amount";
          "payment_status"; "payment_ref"; "submission_date"; "expected_ready"]
    with (["title"; "description"; "client_id"; "writer_id"; "status"; "amount"]
          ++ ["payment_status"] ++ ["payment_ref"; "submission_date"; "expected_ready"])%list.
  rewrite !omap_app, !apply_assignments_app.
  rewrite payment_status_other_keys
    by (simpl; intros H; repeat destruct H as [H|H]; try discriminate H; exact H).
  assert (One : forall (f : string -> option (string * value)) k,
            omap f [k] = match f k with Some y => [y] | None => [] end)
    by reflexivity.
  rewrite One. destruct (body !! "payment_status") as [v|]; cbn [fmap option_fmap option_map].
  - reflexivity.
  - apply payment_status_other_keys.
    simpl; intros H; repeat destruct H as [H|H]; try discriminate H; exact H.
Qed.

Lemma row_after_update (p : order -> bool) f l id b a :
  Sql.get (Sql.order_is id) (Sql.update p f l) = Some a ->
  (forall r, o_id (f r) = o_id r) ->
  Sql.get (Sql.order_is id) l = Some b ->
  a = if p b then f b else b.
Proof.
  intros Ha Hid Hb.
  rewrite get_update in Ha by (intros r; unfold Sql.order_is; rewrite Hid; reflexivity).
  rewrite Hb in Ha. simpl in Ha. congruence.
Qed.

Ltac settle :=
  cbn [pay_change]; first [reflexivity | left; reflexivity | right; reflexivity].

Ltac pay_leaf :=
  intros k b a Hb Ha; simpl orders in Ha;
  first
    [ rewrite Hb in Ha; injection Ha as <-; settle
    | apply row_after_update with (b := b) in Ha; [|intros ?; reflexivity | exact Hb];
      subst a;
      match goal with |- context [if ?c then _ else _] => destruct c end; settle
    | rewrite (get_snoc _ _ _ _ Hb) in Ha; injection Ha as <-; settle ].

(** What each statement of each request does to the payment status of
    an order that is there before and after it. *)
Lemma pay_change_statements o :
  always (fun s s1 => forall id b a,
            Sql.get (Sql.order_is id) (orders s) = Some b ->
            Sql.get (Sql.order_is id) (orders s1) = Some a ->
            pay_change o (payment_status b) (payment_status a))
    (task_of o).
Proof.
  destruct o; simpl task_of.
  - unfold register_task. statements pay_leaf.
  - unfold resend_task. statements pay_leaf.
  - unfold verify_task. statements pay_leaf.
  - unfold approve_user_task, behind_admin, behind_auth. statements pay_leaf.
  - apply always_single. intros s.
    unfold delete_user, admin_only, authMiddleware, requireAdmin, bad_request, ok.
    branches; try pay_leaf.
    intros k b a Hb Ha. simpl orders in Ha. rewrite get_map in Ha.
    + rewrite Hb in Ha. simpl in Ha. injection Ha as <-. cbn [pay_change].
      unfold forget_user. destruct (Sql.eq (client_id b) _); simpl;
        destruct (Sql.eq _ _); reflexivity.
    + intros r. unfold Sql.order_is. rewrite forget_user_id. reflexivity.
  - apply always_single. intros s. unfold create_order, bad_request.
    branches; pay_leaf.
  - unfold assign_task, behind_admin, behind_auth, take, take_order. statements pay_leaf.
  - unfold claim_task, behind_auth, take, take_order. statements pay_leaf.
  - apply always_single. intros s. unfold update_status, bad_request.
    branches; pay_leaf.
  - apply always_single. intros s. unfold submit_work, bad_request.
    branches; pay_leaf.
  - apply always_single. intros s.
    unfold send_to_client, admin_only, authMiddleware, requireAdmin, bad_request.
    branches; pay_leaf.
  - apply always_single. intros s.
    unfold delete_order, admin_only, authMiddleware, requireAdmin, bad_request.
    branches; try pay_leaf.
    intros k b a Hb Ha. simpl orders in Ha.
    match type of Ha with
    | Sql.get _ (Sql.delete (Sql.order_is ?n) _) = _ =>
        destruct (Z.eq_dec k n) as [->|Hne];
          [ rewrite get_delete_same in Ha; discriminate
          | rewrite get_delete in Ha;
              [ rewrite Hb in Ha; injection Ha as <-; reflexivity
              | intros r Hr; apply order_is_true in Hr;
                destruct (Sql.order_is n r) eqn:E; [|reflexivity];
                apply order_is_true in E; congruence ] ]
    end.
  - apply always_single. intros s k b a Hb Ha. cbn [pay_change].
    revert Ha.
    unfold update_order, admin_only, authMiddleware, requireAdmin, bad_request.
    destruct auth as [u|]; [|intros Ha; left; simpl in Ha; congruence].
    destruct (String.eqb (p_role u) "admin"); [|intros Ha; left; simpl in Ha; congruence].
    destruct id as [oid|]; [|intros Ha; left; simpl in Ha; congruence].
    destruct (assignments body) as [|kv asg] eqn:Ea;
      [intros Ha; left; simpl in Ha; congruence|].
    destruct (_ && _); [intros Ha; left; simpl in Ha; congruence|].
    simpl fst. simpl orders. intros Ha.
    apply row_after_update with (b := b) in Ha; [|apply apply_assignments_id | exact Hb].
    subst a.
    destruct (Sql.order_is oid b); [|left; reflexivity].
    rewrite <- Ea, payment_status_assigned.
    destruct (body !! "payment_status") as [v|] eqn:Ev; [right; exists v; auto | left; reflexivity].
  - unfold initiate_task, record_pending. statements pay_leaf.
  - unfold markOrderPaid, confirmed. statements pay_leaf.
  - apply always_single. intros s.
    unfold payments_callback, bad_request, markOrderPaid, confirmed.
    branches; pay_leaf.
Qed.

Lemma always_of_sound (Q : op -> store -> store -> Prop) o t s0 :
  sound (fun _ => True) (fun _ => True) (fun _ _ _ => True) Q o t s0 ->
  always (Q o) t.
Proof.
  revert s0. induction t as [r|callback IH] using task_induction; simpl; [auto|].
  intros s0 H s. destruct (H s I I I) as (_ & Hq & Hrest).
  split; [exact Hq | exact (IH s _ Hrest)].
Qed.

(** What holds of every statement of every request holds of what is
    left of the requests in flight, in every run. *)
Lemma flight_always (Q : op -> store -> store -> Prop) :
  (forall o, always (Q o) (task_of o)) ->
  forall es i o t, flight (play es start) !! i = Some (o, t) -> always (Q o) t.
Proof.
  intros HQ es i o t Hi.
  destruct (permitted_config_ok (fun _ => True) (fun _ => True) (fun _ _ _ => True) Q
              (fun _ _ => True) (fun _ => True)) with (es := es)
    as (_ & Hfl & _); auto.
  - intros o' s0 _. apply sound_of_always.
    eapply always_impl; [|apply HQ]. simpl. auto.
  - apply permitted_all.
  - destruct (Hfl i _ Hi) as (s0 & _ & Hs). exact (always_of_sound Q o t s0 Hs).
Qed.

Lemma pay_change_refl o v : pay_change o v v.
Proof. destruct o; simpl; auto. Qed.

Lemma same_rank_no_regress v : ~ regresses v v.
Proof. intros (i & j & Hi & Hj & Hlt). rewrite Hi in Hj. injection Hj as <-. lia. Qed.

Lemma to_paid_no_regress v : ~ regresses v (VText "paid").
Proof.
  intros (i & j & Hi & Hj & Hlt). simpl in Hj. injection Hj as <-.
  apply pay_rank_bound in Hi. lia.
Qed.

Lemma to_pending_regress v : regresses v (VText "pending") -> v = VText "paid".
Proof.
  intros (i & j & Hi & Hj & Hlt). simpl in Hj. injection Hj as <-.
  pose proof (pay_rank_bound _ _ Hi) as Hle.
  assert (i = 2%nat) by lia. subst i. apply pay_rank_paid. exact Hi.
Qed.

(** A step backwards is the work of the admin update, or of an
    initiation on a paid order. *)
Lemma pay_change_regress o b a :
  pay_change o b a -> regresses b a ->
  is_update_order o = true
  \/ (is_initiate o = true /\ b = VText "paid" /\ a = VText "pending").
Proof.
  intros H Hr.
  destruct o; simpl in H;
    try (subst a; destruct (same_rank_no_regress _ Hr));
    try (left; reflexivity).
  - destruct H as [->| ->]; [destruct (same_rank_no_regress _ Hr)|].
    right. split; [reflexivity|]. split; [exact (to_pending_regress _ Hr) | reflexivity].
  - destruct H as [->| ->];
      [destruct (same_rank_no_regress _ Hr) | destruct (to_paid_no_regress _ Hr)].
  - destruct H as [->| ->];
      [destruct (same_rank_no_regress _ Hr) | destruct (to_paid_no_regress _ Hr)].
Qed.

(** The claim fails in two ways on the paid essay: the admin sends
    [{ payment_status: 'unpaid' }] and it is unpaid again; a payment is
    initiated on it once more and it is pending again. *)
Lemma paid_order_is_set_back :
  let s := run History.paid empty_store in
  let updated :=
    step (UpdateOrder (Some History.ada) (Some 1)
            {[ "payment_status" := VText "unpaid" ]}) s in
  let initiated :=
    step (PaymentsInitiate History.simulated 9500 42 true (Some 1) "0700000000" 500) s in
  reachable s
  /\ payment_status <$> Sql.get (Sql.order_is 1) (orders s) = Some (VText "paid")
  /\ payment_status <$> Sql.get (Sql.order_is 1) (orders updated) = Some (VText "unpaid")
  /\ regresses (VText "paid") (VText "unpaid")
  /\ payment_status <$> Sql.get (Sql.order_is 1) (orders initiated) = Some (VText "pending")
  /\ regresses (VText "paid") (VText "pending").
Proof.
  intros s updated initiated. split; [apply reachable_run|].
  split; [vm_compute; reflexivity|]. split; [vm_compute; reflexivity|].
  split; [exists 2%nat, 0%nat; repeat split; lia|].
  split; [vm_compute; reflexivity|].
  exists 2%nat, 1%nat. repeat split. lia.
Qed.

(** C6 (amended). In every run, whatever statement runs next: an order
    that is there before and after it has the payment status it had,
    unless the statement is the confirmation of a payment (the callback
    or the timer of a simulated payment), which writes 'paid', the
    update of an initiation, which writes 'pending' whatever was there,
    or the admin order update, which writes what the request carries.
    So the status moves backwards only in an admin order update, or from
    'paid' to 'pending' when a payment is initiated on a paid order. *)
Theorem payment_status_moves_forward
    (es : list event) (e : event) (id : Z) (before after : order) :
  Sql.get (Sql.order_is id) (orders (db (play es start))) = Some before ->
  Sql.get (Sql.order_is id) (orders (db (fire e (play es start)))) = Some after ->
  match origin (play es start) e with
  | None => payment_status after = payment_status before
  | Some o =>
      pay_change o (payment_status before) (payment_status after)
      /\ (regresses (payment_status before) (payment_status after) ->
          is_update_order o = true
          \/ (is_initiate o = true /\ payment_status before = VText "paid"
              /\ payment_status after = VText "pending"))
  end.
Proof.
  intros Hb Ha.
  assert (Same : Sql.get (Sql.order_is id) (orders (db (play es start))) = Some after ->
                 payment_status after = payment_status before)
    by (intros H; rewrite Hb in H; injection H as <-; reflexivity).
  destruct e as [o|i]; simpl origin; [exact (Same Ha)|].
  simpl fire in Ha.
  destruct (flight (play es start) !! i) as [[o [r|callback]]|] eqn:Ei; simpl.
  - rewrite (Same Ha). split; [apply pay_change_refl|].
    intros Hr. destruct (same_rank_no_regress _ Hr).
  - pose proof (flight_always _ pay_change_statements es i o _ Ei) as Hq.
    destruct (Hq (db (play es start))) as [Hq1 _].
    specialize (Hq1 id before after Hb Ha).
    split; [exact Hq1 | exact (pay_change_regress o _ _ Hq1)].
  - exact (Same Ha).
Qed.

Lemma payment_status_moves_forward_witness :
  let o := PaymentsInitiate History.simulated 9500 42 true (Some 1) "0700000000" 500 in
  pay_change o (VText "paid") (VText "pending")
  /\ (regresses (VText "paid") (VText "pending") ->
      is_update_order o = true
      \/ (is_initiate o = true /\ VText "paid" = VText "paid"
          /\ VText "pending" = VText "pending")).
Proof.
  intros o.
  pose proof (payment_status_moves_forward History.paid_again (Advance 0) 1
                (confirmed "REF-1" History.essay)
                (set_amount (VInt 500)
                   (set_payment_ref (VText (make_ref "SIM" 9500 42))
                      (set_payment_status (VText "pending")
                         (confirmed "REF-1" History.essay))))) as H.
  assert (Eo : origin (play History.paid_again start) (Advance 0) = Some o)
    by (vm_compute; reflexivity).
  rewrite Eo in H. apply H; vm_compute; reflexivity.
Defined.

(** ** Verification codes (C9) *)

Lemma newer_fold l b :
  exists r, fold_left newer l (Some b) = Some r
    /\ (r = b \/ In r l)
    /\ v_created_at b <= v_created_at r
    /\ (forall v, In v l -> v_created_at v <= v_created_at r).
Proof.
  revert b. induction l as [|v l IH]; intros b; simpl.
  - exists b. repeat split; [left; reflexivity | lia | intros v []].
  - destruct (v_created_at b <? v_created_at v) eqn:E.
    + apply Z.ltb_lt in E. destruct (IH v) as (r & Hr & Hin & Hle & Hmax).
      exists r. split; [exact Hr|]. split; [right; destruct Hin; [left; congruence | right; assumption]|].
      split; [lia|]. intros x [<-|Hx]; [exact Hle | apply Hmax; exact Hx].
    + apply Z.ltb_ge in E. destruct (IH b) as (r & Hr & Hin & Hle & Hmax).
      exists r. split; [exact Hr|]. split; [destruct Hin; [left | right; right]; assumption|].
      split; [exact Hle|]. intros x [<-|Hx]; [lia | apply Hmax; exact Hx].
Qed.

Lemma newest_some l r :
  newest l = Some r ->
  In r l /\ (forall v, In v l -> v_created_at v <= v_created_at r).
Proof.
  unfold newest. destruct l as [|v l]; simpl; [discriminate|].
  destruct (newer_fold l v) as (r' & Hr & Hin & Hle & Hmax).
  rewrite Hr. intros [= <-]. split.
  - destruct Hin; [left; congruence | right; assumption].
  - intros x [<-|Hx]; [exact Hle | apply Hmax; exact Hx].
Qed.

Lemma candidate_true us e v :
  candidate us e v = true <->
  v_email v = e /\ v_used v = false /\ existsb (Sql.user_is (v_user_id v)) us = true.
Proof.
  unfold candidate. rewrite !andb_true_iff, String.eqb_eq, negb_true_iff. tauto.
Qed.

(** The row the query returns is an unused row of that address, and no
    other such row is newer. *)
Lemma active_verification_some e s r :
  active_verification e s = Some r ->
  In r (email_verifications s) /\ candidate (users s) e r = true
  /\ (forall v, In v (email_verifications s) -> candidate (users s) e v = true ->
        v_created_at v <= v_created_at r).
Proof.
  unfold active_verification. intros H. apply newest_some in H as [Hin Hmax].
  apply filter_In in Hin as [Hin Hc]. split; [exact Hin|]. split; [exact Hc|].
  intros v Hv Hcv. apply Hmax. apply filter_In. split; assumption.
Qed.

(** A call either fails with 400 and writes nothing, or redeems the row
    the query returned. *)
Lemma verify_email_cases now e c s :
  (code_of (snd (verify_email now e c s)) = 400 /\ fst (verify_email now e c s) = s)
  \/ (exists r, active_verification (normalize_email e) s = Some r
        /\ now <= v_expires_at r /\ v_code r = JS.trim c
        /\ verify_email now e c s = (verified r s, Json 200 "Email verified. You may now log in.")).
Proof.
  unfold verify_email, bad_request.
  destruct (String.eqb e "" || String.eqb c ""); [left; split; reflexivity|].
  destruct (active_verification (normalize_email e) s) as [r|] eqn:Er;
    [|left; split; reflexivity].
  destruct (v_expires_at r <? now) eqn:Ex; [left; split; reflexivity|].
  destruct (String.eqb (v_code r) (JS.trim c)) eqn:Ec; simpl negb; cbv iota;
    [|left; split; reflexivity].
  right. exists r. split; [reflexivity|]. apply Z.ltb_ge in Ex. apply String.eqb_eq in Ec.
  split; [exact Ex|]. split; [exact Ec|]. reflexivity.
Qed.

Lemma approve_stays us p u uid :
  (forall x, In x us -> u_id x = uid -> u_approved x = true) ->
  In u (Sql.update p approve us) -> u_id u = uid -> u_approved u = true.
Proof.
  intros H Hin Hid. apply in_update in Hin as (x & Hx & ->).
  destruct (p x); [reflexivity | apply H; assumption].
Qed.

Lemma approved_after_verified r s u :
  In u (users (verified r s)) -> u_id u = v_user_id r -> u_approved u = true.
Proof.
  simpl. intros Hin Hid. apply in_update in Hin as (x & Hx & ->).
  destruct (Sql.user_is (v_user_id r) x) eqn:E; [reflexivity|].
  apply Z.eqb_neq in E. contradiction.
Qed.

Lemma unique_key (vs : list verification) v r :
  NoDup (map v_id vs) -> In v vs -> In r vs -> v_id v = v_id r -> v = r.
Proof.
  induction vs as [|x vs IH]; simpl; intros Hn Hv Hr Hid; [contradiction|].
  apply NoDup_cons in Hn as [Hx Hn].
  assert (K : forall y, In y vs -> v_id y <> v_id x).
  { intros y Hy E. apply Hx. apply list_elem_of_In. apply in_map_iff. eauto. }
  destruct Hv as [<-|Hv], Hr as [<-|Hr]; auto.
  - exfalso. apply (K r Hr). congruence.
  - exfalso. apply (K v Hv). congruence.
Qed.

Lemma in_update_self {A : Type} (p : A -> bool) (f : A -> A) (l : list A) (x : A) :
  In x l -> (p x = true -> f x = x) -> In x (Sql.update p f l).
Proof.
  intros Hin Hf. unfold Sql.update. apply in_map_iff. exists x.
  split; [|exact Hin]. destruct (p x); [apply Hf; reflexivity | reflexivity].
Qed.

Lemma in_update_hit {A : Type} (p : A -> bool) (f : A -> A) (l : list A) (x : A) :
  In x l -> p x = true -> In (f x) (Sql.update p f l).
Proof.
  intros Hin Hp. unfold Sql.update. apply in_map_iff. exists x.
  rewrite Hp. split; [reflexivity | exact Hin].
Qed.

(** The claim fails when two unused codes of one address hold the same
    digits: Ann registers, asks for a second code and the draw repeats; her
    first verification redeems the newer row, and a second attempt with
    the same code succeeds on the older one. *)
Lemma same_digits_redeemed_twice :
  let s := run History.same_digits empty_store in
  let first := verify_email 70000 "ann@mail.example" "111111" s in
  let second := verify_email 80000 "ann@mail.example" "111111" (fst first) in
  reachable s
  /\ snd first = Json 200 "Email verified. You may now log in."
  /\ snd second = Json 200 "Email verified. You may now log in.".
Proof.
  intros s first second. split; [apply reachable_run|].
  split; vm_compute; reflexivity.
Qed.

(** C9 (amended). In a reachable store, a verify-email call that succeeds
    redeems one row: an unused row of that address, not expired, holding
    the code sent, and the newest of the unused rows of the address; it
    marks that row used and approves its user.  A second attempt with the
    same code leaves the user approved and the row used, and fails with
    400 unless another unused, unexpired row of the same address holds
    the same digits, which it then redeems.  A row that is already used or
    past its expiry is left as it is by every call. *)
Theorem verification_code_single_use (s : store) :
  reachable s ->
  (forall now e c,
     code_of (snd (verify_email now e c s)) = 200 ->
     exists r,
       (In r (email_verifications s)
        /\ v_email r = normalize_email e /\ v_used r = false
        /\ now <= v_expires_at r /\ v_code r = JS.trim c
        /\ existsb (Sql.user_is (v_user_id r)) (users s) = true
        /\ (forall v, In v (email_verifications s) ->
              candidate (users s) (normalize_email e) v = true ->
              v_created_at v <= v_created_at r))
       /\ fst (verify_email now e c s) = verified r s
       /\ In (mark_used r) (email_verifications (verified r s))
       /\ (forall u, In u (users (verified r s)) -> u_id u = v_user_id r ->
             u_approved u = true)
       /\ (forall now2,
             let second := verify_email now2 e c (verified r s) in
             (forall u, In u (users (fst second)) -> u_id u = v_user_id r ->
                u_approved u = true)
             /\ In (mark_used r) (email_verifications (fst second))
             /\ (code_of (snd second) = 400
                 \/ exists r2, In r2 (email_verifications s) /\ v_id r2 <> v_id r
                      /\ v_email r2 = normalize_email e /\ v_used r2 = false
                      /\ v_code r2 = JS.trim c /\ now2 <= v_expires_at r2
                      /\ fst second = verified r2 (verified r s))))
  /\ (forall now e c v,
        In v (email_verifications s) ->
        v_used v = true \/ v_expires_at v < now ->
        In v (email_verifications (fst (verify_email now e c s)))).
Proof.
  intros Hreach. pose proof (reachable_store_ok _ Hreach) as Hok. split.
  - intros now e c Hcode.
    destruct (verify_email_cases now e c s) as [[H400 _]|(r & Hr & Hexp & Hc & E)];
      [rewrite H400 in Hcode; discriminate|].
    apply active_verification_some in Hr as (Hin & Hcand & Hmax).
    pose proof (proj1 (candidate_true _ _ _) Hcand) as (Hem & Hun & Huser).
    assert (Hmark : In (mark_used r) (email_verifications (verified r s))).
    { simpl. apply in_update_hit; [exact Hin|]. apply Z.eqb_refl. }
    exists r. split; [repeat split; assumption|].
    split; [rewrite E; reflexivity|]. split; [exact Hmark|].
    split; [apply approved_after_verified|].
    intros now2 second. subst second.
    destruct (verify_email_cases now2 e c (verified r s))
      as [[H400 Hs]|(r2 & Hr2 & Hexp2 & Hc2 & E2)].
    + rewrite Hs. split; [apply approved_after_verified|].
      split; [exact Hmark|]. left. exact H400.
    + rewrite E2. simpl fst. simpl snd.
      apply active_verification_some in Hr2 as (Hin2 & Hcand2 & _).
      pose proof (proj1 (candidate_true _ _ _) Hcand2) as (Hem2 & Hun2 & _).
      split; [|split].
      * intros u Hu Hid. simpl in Hu.
        apply (approve_stays _ _ _ (v_user_id r) (approved_after_verified r s) Hu Hid).
      * simpl. apply in_update_self; [exact Hmark | reflexivity].
      * right. simpl in Hin2. apply in_update in Hin2 as (x & Hx & Ex).
        destruct (verification_is (v_id r) x) eqn:Ev.
        { subst r2. simpl in Hun2. discriminate. }
        subst r2. exists x. apply Z.eqb_neq in Ev. repeat split; assumption.
  - intros now e c v Hin Hdead.
    destruct (verify_email_cases now e c s) as [[_ Hs]|(r & Hr & Hexp & Hc & E)];
      [rewrite Hs; exact Hin|].
    rewrite E. simpl. apply in_update_self; [exact Hin|].
    intros Hid. apply Z.eqb_eq in Hid.
    apply active_verification_some in Hr as (Hinr & Hcand & _).
    pose proof (proj1 (candidate_true _ _ _) Hcand) as (_ & Hun & _).
    pose proof (unique_key _ _ _ (ok_verifications_nodup s Hok) Hin Hinr Hid) as ->.
    destruct Hdead as [Hu|Hx]; [congruence | lia].
Qed.

Lemma verification_code_single_use_witness :
  In (mark_used (new_verification 2 2 "wes@mail.example" "222222" 2000))
     (email_verifications
        (fst (verify_email 7000 "wes@mail.example" "222222"
                (run History.submitted empty_store)))).
Proof.
  apply (verification_code_single_use (run History.submitted empty_store)).
  - apply reachable_run.
  - rewrite submitted_store. right. left. reflexivity.
  - left. reflexivity.
Defined.

(** * Further properties *)

(** ** Integrity and access *)

(** X1. Every store the server can reach is sound: the keys of each table
    are positive, not repeated and below the next key to hand out, and the
    client and the writer of every order are [NULL] or the id of a stored
    user. *)
Theorem reachable_store_integrity (s : store) : reachable s -> store_ok s.
Proof. exact (reachable_store_ok s). Qed.

Lemma reachable_store_integrity_witness : store_ok (run History.paid empty_store).
Proof. apply reachable_store_integrity. apply reachable_run. Defined.

(** X2. A request to a route behind the admin gate that carries no
    credential is answered 401, one whose credential names another role
    is answered 403, and neither writes anything. *)
Theorem admin_routes_refuse_others (o : op) (auth : option principal) (s : store) :
  admin_route o = Some auth ->
  (forall a, auth = Some a -> p_role a <> "admin") ->
  step o s = s
  /\ answer_code o s = Some (match auth with None => 401 | Some _ => 403 end).
Proof.
  intros Hr Hrole.
  assert (G : forall k, admin_only auth s k
              = (s, Json (match auth with None => 401 | Some _ => 403 end)
                      (match auth with
                       | None => "Unauthorized"
                       | Some _ => "Admin privileges required"
                       end))).
  { intros k. unfold admin_only, authMiddleware, requireAdmin.
    destruct auth as [a|]; [|reflexivity].
    destruct (String.eqb_spec (p_role a) "admin") as [E|_]; [|reflexivity].
    exfalso. exact (Hrole a eq_refl E). }
  unfold answer_code, step, handle.
  destruct o; try discriminate Hr; simpl in Hr; injection Hr as ->;
    [ unfold approve_user | unfold delete_user | unfold assign
    | unfold send_to_client | unfold delete_order | unfold update_order ];
    rewrite G; destruct auth; split; reflexivity.
Qed.

Lemma admin_routes_refuse_others_witness :
  step (DeleteOrder (Some History.wes) (Some 1)) (run History.paid empty_store)
  = run History.paid empty_store.
Proof.
  apply (admin_routes_refuse_others (DeleteOrder (Some History.wes) (Some 1))
           (Some History.wes) (run History.paid empty_store)).
  - reflexivity.
  - intros a [= <-]. discriminate.
Defined.

(** ** Taking orders *)

Lemma claim_success w oid s :
  p_role w = "writer" ->
  code_of (snd (claim (Some w) (Some oid) s)) = 200 ->
  Sql.get (active_for (p_id w)) (orders s) = None
  /\ (exists o, Sql.get (Sql.order_is oid) (orders s) = Some o
        /\ JS.truthy (writer_id o) = false
        /\ status o = VText "Pending Assignment")
  /\ Sql.references_user (users s) (VInt (p_id w)) = true
  /\ fst (claim (Some w) (Some oid) s) = take_order oid (p_id w) s.
Proof.
  intros Hw. rewrite (claim_cases _ _ _ Hw).
  destruct (Sql.get (active_for (p_id w)) (orders s)); [discriminate|].
  destruct (Sql.get (Sql.order_is oid) (orders s)) as [o|]; [|discriminate].
  destruct (JS.truthy (writer_id o)) eqn:Et; [discriminate|].
  destruct (JS.strict_eq (Some (status o)) (Some (VText "Pending Assignment"))) eqn:Es;
    simpl negb; cbv iota; [|discriminate].
  destruct (Sql.references_user (users s) (VInt (p_id w))) eqn:Er; [|discriminate].
  intros _. split; [reflexivity|]. split; [|split; reflexivity].
  exists o. split; [reflexivity|]. split; [exact Et|].
  apply strict_eq_text. exact Es.
Qed.

Lemma claim_refused_when_busy w oid s x :
  p_role w = "writer" ->
  Sql.get (active_for (p_id w)) (orders s) = Some x ->
  claim (Some w) (Some oid) s = (s, Json 400 "You already have an active order").
Proof. intros Hw Hx. rewrite (claim_cases _ _ _ Hw), Hx. reflexivity. Qed.

Lemma claim_refused_when_taken w oid s o :
  p_role w = "writer" ->
  Sql.get (Sql.order_is oid) (orders s) = Some o ->
  JS.truthy (writer_id o) = true ->
  fst (claim (Some w) (Some oid) s) = s
  /\ code_of (snd (claim (Some w) (Some oid) s)) = 400.
Proof.
  intros Hw Ho Ht. rewrite (claim_cases _ _ _ Hw).
  destruct (Sql.get (active_for (p_id w)) (orders s)); [split; reflexivity|].
  rewrite Ho, Ht. split; reflexivity.
Qed.

Lemma user_key_positive s n :
  store_ok s -> Sql.references_user (users s) (VInt n) = true -> 0 < n.
Proof.
  intros Hok Hr.
  assert (Hpos : Forall (fun u => 0 < u_id u) (users s)).
  { eapply List.Forall_impl; [|exact (ok_user_ids s Hok)]. simpl. intros; lia. }
  destruct (references_user_positive _ _ Hpos Hr) as [E|(m & E & Hm)];
    [discriminate | congruence].
Qed.

(** X3. Once a writer has claimed an order, the order is taken and the
    writer is busy: on the store the claim leaves, a claim of the same
    order by any writer, a claim of any order by the same writer, and an
    assignment of the order by an admin to anybody are each answered 400
    and write nothing. *)
Theorem claimed_order_is_taken (s : store) (w other admin : principal) (oid : Z) :
  reachable s ->
  p_role w = "writer" ->
  p_role other = "writer" ->
  p_role admin = "admin" ->
  code_of (snd (claim (Some w) (Some oid) s)) = 200 ->
  let s1 := fst (claim (Some w) (Some oid) s) in
  (fst (claim (Some other) (Some oid) s1) = s1
   /\ code_of (snd (claim (Some other) (Some oid) s1)) = 400)
  /\ (forall oid2,
        claim (Some w) (Some oid2) s1 = (s1, Json 400 "You already have an active order"))
  /\ (forall target,
        fst (assign (Some admin) (Some oid) (Some target) s1) = s1
        /\ code_of (snd (assign (Some admin) (Some oid) (Some target) s1)) = 400).
Proof.
  intros Hreach Hw Hother Hadmin Hcode s1.
  destruct (claim_success _ _ _ Hw Hcode) as (Hfree & (o & Ho & Hnot & Hst) & Href & Es1).
  subst s1. rewrite Es1.
  pose proof (reachable_store_ok _ Hreach) as Hok.
  pose proof (user_key_positive _ _ Hok Href) as Hpos.
  pose proof (get_take_order oid (p_id w) s o Ho) as Ho1.
  assert (Htruthy : JS.truthy (writer_id
            (set_status (VText "In Progress") (set_writer_id (VInt (p_id w)) o))) = true).
  { simpl. apply negb_true_iff. apply Z.eqb_neq. lia. }
  assert (Hbusy : exists x, Sql.get (active_for (p_id w)) (orders (take_order oid (p_id w) s))
                            = Some x).
  { destruct (Sql.get (active_for (p_id w)) (orders (take_order oid (p_id w) s)))
      as [x|] eqn:E; [eauto|]. exfalso.
    apply get_some in Ho1 as [Hin _].
    pose proof (get_none _ _ _ E Hin) as Hf.
    assert (Ht : active_for (p_id w)
                   (set_status (VText "In Progress") (set_writer_id (VInt (p_id w)) o)) = true)
      by (apply active_for_true; split; reflexivity).
    congruence. }
  destruct Hbusy as (x & Hx).
  split; [exact (claim_refused_when_taken _ _ _ _ Hother Ho1 Htruthy)|].
  split; [intros oid2; exact (claim_refused_when_busy _ _ _ _ Hw Hx)|].
  intros target. rewrite (assign_cases _ _ _ _ Hadmin).
  destruct (Sql.get (active_for target) (orders (take_order oid (p_id w) s)));
    [split; reflexivity|].
  rewrite Ho1, Htruthy. split; reflexivity.
Qed.

Lemma claimed_order_is_taken_witness :
  let s1 := fst (claim (Some History.wes) (Some 1) (run History.two_orders empty_store)) in
  claim (Some History.wes) (Some 2) s1
  = (s1, Json 400 "You already have an active order").
Proof.
  apply (claimed_order_is_taken (run History.two_orders empty_store)
           History.wes History.wes History.ada 1).
  - apply reachable_run.
  - reflexivity.
  - reflexivity.
  - reflexivity.
  - vm_compute. reflexivity.
Defined.

Lemma Forall_snoc {A : Type} (P : A -> Prop) (l : list A) (x : A) :
  Forall P l -> P x -> Forall P (l ++ [x]).
Proof.
  intros Hl Hx. apply List.Forall_forall. intros y Hy.
  apply in_app_or in Hy as [Hy|[<-|[]]]; [|exact Hx].
  exact (proj1 (List.Forall_forall P l) Hl y Hy).
Qed.

Ltac keep_started H :=
  first
    [ exact H
    | apply Forall_update;
        [ exact H
        | intros ? _ _ Hr; simpl; first [ exact Hr | intros _; discriminate ] ] ].

Lemma started_step (o : op) (s : store) :
  assigned_means_started s -> overwrites_status o = false ->
  assigned_means_started (step o s).
Proof.
  unfold assigned_means_started. intros H Ho.
  unfold step, handle. destruct o; try discriminate Ho; simpl fst.
  - unfold register, bad_request. branches; exact H.
  - unfold resend_verification, bad_request. branches; exact H.
  - unfold verify_email, bad_request. branches; exact H.
  - unfold approve_user, admin_only, authMiddleware, requireAdmin, bad_request, ok.
    branches; exact H.
  - unfold delete_user, admin_only, authMiddleware, requireAdmin, bad_request, ok.
    branches; try exact H. simpl orders.
    apply List.Forall_forall. intros x Hx. apply in_map_iff in Hx as (r & <- & Hin).
    pose proof (proj1 (List.Forall_forall _ _) H r Hin) as Hr.
    unfold forget_user.
    destruct (Sql.eq (client_id r) _); simpl; destruct (Sql.eq _ _); simpl;
      first [exact Hr | congruence].
  - unfold create_order, bad_request. branches; try exact H; simpl orders;
      (apply Forall_snoc; [exact H | simpl; congruence]).
  - unfold assign, admin_only, authMiddleware, requireAdmin, bad_request, take_order.
    branches; keep_started H.
  - unfold claim, authMiddleware, bad_request, take_order. branches; keep_started H.
  - unfold submit_work, bad_request. branches; keep_started H.
  - unfold send_to_client, admin_only, authMiddleware, requireAdmin, bad_request.
    branches; keep_started H.
  - unfold delete_order, admin_only, authMiddleware, requireAdmin, bad_request.
    branches; try exact H. apply Forall_delete. exact H.
  - unfold payments_initiate, bad_request, record_pending. branches; keep_started H.
  - unfold markOrderPaid, confirmed. keep_started H.
  - unfold payments_callback, bad_request, markOrderPaid, confirmed.
    branches; keep_started H.
Qed.

(** X4. Started from the empty store, and as long as neither update
    status nor the admin order update is used, no order has a writer while
    its status is still 'Pending Assignment': assign and claim set both at
    once, and what follows only moves the status on. *)
Theorem writer_only_on_started_orders (ops : list op) :
  forallb (fun o => negb (overwrites_status o)) ops = true ->
  assigned_means_started (run ops empty_store).
Proof.
  assert (G : forall s, assigned_means_started s ->
                forallb (fun o => negb (overwrites_status o)) ops = true ->
                assigned_means_started (run ops s)).
  { unfold run. induction ops as [|o ops IH]; intros s Hs H; simpl; [exact Hs|].
    simpl in H. apply andb_true_iff in H as [Ho Hops]. apply negb_true_iff in Ho.
    apply IH; [|exact Hops]. apply started_step; assumption. }
  apply G. constructor.
Qed.

Lemma writer_only_on_started_orders_witness :
  assigned_means_started (run History.paid empty_store).
Proof. apply writer_only_on_started_orders. reflexivity. Defined.

(** ** Accounts *)

Lemma map_update {A B : Type} (f : A -> B) (p : A -> bool) (g : A -> A) (l : list A) :
  (forall r, f (g r) = f r) -> map f (Sql.update p g l) = map f l.
Proof.
  intros H. unfold Sql.update. rewrite map_map. apply map_ext.
  intros r. destruct (p r); auto.
Qed.

Lemma owned_update us p v :
  owned_by us v -> owned_by (Sql.update p approve us) v.
Proof.
  intros (u & Hin & Hid & Hem).
  exists (if p u then approve u else u). split; [|destruct (p u); split; assumption].
  unfold Sql.update. apply in_map_iff. exists u. split; [reflexivity | exact Hin].
Qed.

Lemma accounts_ok_same s s1 :
  users s1 = users s -> email_verifications s1 = email_verifications s ->
  accounts_ok s -> accounts_ok s1.
Proof. intros Hu Hv [H1 H2 H3]. constructor; rewrite ?Hu, ?Hv; assumption. Qed.

Lemma accounts_ok_marked s p q :
  accounts_ok s ->
  accounts_ok {| users := Sql.update p approve (users s); orders := orders s;
                 email_verifications := Sql.update q mark_used (email_verifications s);
                 next_user_id := next_user_id s; next_order_id := next_order_id s;
                 next_verification_id := next_verification_id s |}.
Proof.
  intros [H1 H2 H3]. constructor; simpl.
  - rewrite map_update by reflexivity. exact H1.
  - apply Forall_update; [exact H2|]. intros r _ _ Hr. exact Hr.
  - apply List.Forall_forall. intros v Hv. apply in_update in Hv as (v0 & Hin & ->).
    pose proof (proj1 (List.Forall_forall _ _) H3 v0 Hin) as Ho.
    apply (owned_update _ p) in Ho.
    destruct (q v0); exact Ho.
Qed.

Lemma accounts_ok_insert_verification s u e code now :
  accounts_ok s -> In u (users s) -> u_email u = e ->
  accounts_ok (insert_verification (u_id u) e code now s).
Proof.
  intros [H1 H2 H3] Hin He. constructor; simpl; try assumption.
  apply Forall_snoc; [exact H3|]. exists u. simpl. auto.
Qed.

Lemma get_by_email_none us e :
  Sql.get (user_by_email e) us = None -> ~ In e (map u_email us).
Proof.
  intros Hnone Hin. apply in_map_iff in Hin as (u & He & Hu).
  pose proof (get_none _ _ _ Hnone Hu) as Hf. unfold user_by_email in Hf.
  rewrite He, String.eqb_refl in Hf. discriminate.
Qed.

Lemma accounts_ok_register s u code now :
  accounts_ok s ->
  Sql.get (user_by_email (u_email u)) (users s) = None ->
  u_role u ∈ ["admin"; "writer"; "client"] ->
  accounts_ok (insert_verification (u_id u) (u_email u) code now
                 (with_users (users s ++ [u]) (u_id u + 1) s)).
Proof.
  intros [H1 H2 H3] Hnone Hrole. constructor; simpl.
  - rewrite map_app. simpl. apply NoDup_app. split; [exact H1|].
    split; [|apply NoDup_singleton].
    intros e He He'. apply list_elem_of_singleton in He'. subst e.
    apply list_elem_of_In in He. exact (get_by_email_none _ _ Hnone He).
  - apply Forall_snoc; assumption.
  - apply Forall_snoc.
    + eapply List.Forall_impl; [|exact H3]. intros v (x & Hx & Hid & Hem).
      exists x. split; [apply in_or_app; left; exact Hx | split; assumption].
    + exists u. simpl. split; [apply in_or_app; right; left; reflexivity | split; reflexivity].
Qed.

Lemma accounts_ok_delete_user s uid :
  accounts_ok s ->
  accounts_ok {| users := Sql.delete (Sql.user_is uid) (users s);
                 orders := map (forget_user uid) (orders s);
                 email_verifications :=
                   Sql.delete (fun v => (v_user_id v =? uid)%Z) (email_verifications s);
                 next_user_id := next_user_id s; next_order_id := next_order_id s;
                 next_verification_id := next_verification_id s |}.
Proof.
  intros [H1 H2 H3]. constructor; simpl.
  - clear H2 H3. unfold Sql.delete. induction (users s) as [|u us IH]; simpl; [constructor|].
    simpl in H1. apply NoDup_cons in H1 as [Hn Hus].
    destruct (negb (Sql.user_is uid u)); simpl; [|auto].
    apply NoDup_cons. split; [|auto].
    intros Hin. apply Hn. apply list_elem_of_In in Hin. apply list_elem_of_In.
    apply in_map_iff in Hin as (x & Hx & Hf). apply in_map_iff.
    exists x. split; [exact Hx|]. apply filter_In in Hf. tauto.
  - apply Forall_delete. exact H2.
  - apply List.Forall_forall. intros v Hv. unfold Sql.delete in Hv.
    apply filter_In in Hv as [Hin Hkeep].
    destruct (proj1 (List.Forall_forall _ _) H3 v Hin) as (u & Hu & Hid & Hem).
    exists u. split; [|split; assumption].
    unfold Sql.delete. apply filter_In. split; [exact Hu|].
    unfold Sql.user_is. rewrite Hid. exact Hkeep.
Qed.

Lemma accounts_step (o : op) (s : store) : accounts_ok s -> accounts_ok (step o s).
Proof.
  intros H. unfold step, handle. destruct o; simpl fst.
  - unfold register, bad_request. branches; try exact H.
    + apply (accounts_ok_register s
               {| u_id := next_user_id s; u_name := name_;
                  u_email := normalize_email email_; u_password := hashed;
                  u_role := role_; u_country := country_; u_approved := false |});
        [exact H | assumption | simpl; eapply bool_decide_eq_true_1; eassumption].
    + apply (accounts_ok_register s
               {| u_id := next_user_id s; u_name := name_;
                  u_email := normalize_email email_; u_password := hashed;
                  u_role := "client"; u_country := country_; u_approved := false |});
        [exact H | assumption | simpl; set_solver].
  - unfold resend_verification, bad_request. branches; try exact H.
    match goal with
    | E : Sql.get (user_by_email ?e) (users s) = Some ?u |- _ =>
        apply get_some in E as [Hin He]; unfold user_by_email in He;
        apply String.eqb_eq in He;
        exact (accounts_ok_insert_verification s u e _ _ H Hin He)
    end.
  - unfold verify_email, bad_request, verified. branches; try exact H.
    apply accounts_ok_marked. exact H.
  - unfold approve_user, admin_only, authMiddleware, requireAdmin, bad_request, ok.
    branches; try exact H. apply accounts_ok_marked. exact H.
  - unfold delete_user, admin_only, authMiddleware, requireAdmin, bad_request, ok.
    branches; try exact H. apply accounts_ok_delete_user. exact H.
  - unfold create_order, bad_request. branches; try exact H;
      (eapply accounts_ok_same; [| |exact H]; reflexivity).
  - unfold assign, admin_only, authMiddleware, requireAdmin, bad_request, take_order.
    branches; try exact H; (eapply accounts_ok_same; [| |exact H]; reflexivity).
  - unfold claim, authMiddleware, bad_request, take_order.
    branches; try exact H; (eapply accounts_ok_same; [| |exact H]; reflexivity).
  - unfold update_status, bad_request.
    branches; try exact H; (eapply accounts_ok_same; [| |exact H]; reflexivity).
  - unfold submit_work, bad_request.
    branches; try exact H; (eapply accounts_ok_same; [| |exact H]; reflexivity).
  - unfold send_to_client, admin_only, authMiddleware, requireAdmin, bad_request.
    branches; try exact H; (eapply accounts_ok_same; [| |exact H]; reflexivity).
  - unfold delete_order, admin_only, authMiddleware, requireAdmin, bad_request.
    branches; try exact H; (eapply accounts_ok_same; [| |exact H]; reflexivity).
  - unfold update_order, admin_only, authMiddleware, requireAdmin, bad_request.
    branches; try exact H; (eapply accounts_ok_same; [| |exact H]; reflexivity).
  - unfold payments_initiate, bad_request, record_pending.
    branches; try exact H; (eapply accounts_ok_same; [| |exact H]; reflexivity).
  - eapply accounts_ok_same; [| |exact H]; reflexivity.
  - unfold payments_callback, bad_request, markOrderPaid.
    branches; try exact H; (eapply accounts_ok_same; [| |exact H]; reflexivity).
Qed.

Lemma accounts_ok_empty : accounts_ok empty_store.
Proof. constructor; simpl; constructor. Qed.

(** *** The accounts, statement by statement *)

Lemma NoDup_map_inj {A B : Type} (f : A -> B) (l : list A) (x y : A) :
  NoDup (map f l) -> In x l -> In y l -> f x = f y -> x = y.
Proof.
  induction l as [|z l IH]; simpl; intros Hn Hx Hy E; [contradiction|].
  apply NoDup_cons in Hn as [Hz Hn].
  assert (K : forall w, In w l -> f w <> f z).
  { intros w Hw Ew. apply Hz. apply list_elem_of_In. apply in_map_iff. eauto. }
  destruct Hx as [<-|Hx], Hy as [<-|Hy]; auto.
  - exfalso. apply (K y Hy). congruence.
  - exfalso. apply (K x Hx). congruence.
Qed.

Lemma always_and (Q Q' : store -> store -> Prop) t :
  always Q t -> always Q' t -> always (fun s s1 => Q s s1 /\ Q' s s1) t.
Proof.
  induction t as [r|callback IH] using task_induction; simpl; [auto|].
  intros H H' s. destruct (H s) as [Hq Hr], (H' s) as [Hq' Hr'].
  split; [split; assumption | apply IH; assumption].
Qed.

Lemma accounts_kept_refl s : accounts_kept s s.
Proof. split; [lia|]. intros u Hu _. exists u. auto. Qed.

Lemma accounts_kept_trans s1 s2 s3 :
  accounts_kept s1 s2 -> accounts_kept s2 s3 -> accounts_kept s1 s3.
Proof.
  intros [Hn H] [Hn' H']. split; [lia|]. intros u Hu Hid.
  destruct (H' u Hu) as (u2 & Hu2 & Hid2 & Hem2); [lia|].
  destruct (H u2 Hu2) as (u1 & Hu1 & Hid1 & Hem1); [lia|].
  exists u1. split; [exact Hu1|]. split; congruence.
Qed.

Lemma kept_same s s1 :
  users s1 = users s -> next_user_id s1 = next_user_id s -> accounts_kept s s1.
Proof.
  intros Hu Hn. split; [lia|]. rewrite Hu. intros u Hin _. exists u. auto.
Qed.

Lemma kept_approve s s1 p :
  users s1 = Sql.update p approve (users s) -> next_user_id s1 = next_user_id s ->
  accounts_kept s s1.
Proof.
  intros Hu Hn. split; [lia|]. rewrite Hu. intros u Hin _.
  apply in_update in Hin as (u0 & Hin & ->). exists u0.
  split; [exact Hin|]. destruct (p u0); split; reflexivity.
Qed.

Lemma kept_delete s s1 p :
  users s1 = Sql.delete p (users s) -> next_user_id s1 = next_user_id s ->
  accounts_kept s s1.
Proof.
  intros Hu Hn. split; [lia|]. rewrite Hu. intros u Hin _.
  unfold Sql.delete in Hin. apply filter_In in Hin as [Hin _]. exists u. auto.
Qed.

Lemma kept_insert s s1 u :
  users s1 = (users s ++ [u])%list -> u_id u = next_user_id s ->
  next_user_id s1 = next_user_id s + 1 -> accounts_kept s s1.
Proof.
  intros Hu Hid Hn. split; [lia|]. rewrite Hu. intros x Hin Hlt.
  apply in_app_or in Hin as [Hin|[<-|[]]]; [|lia]. exists x. auto.
Qed.

Ltac keeps_accounts :=
  intros;
  first
    [ apply accounts_kept_refl
    | apply kept_same; reflexivity
    | eapply kept_approve; reflexivity
    | eapply kept_delete; reflexivity
    | eapply kept_insert; reflexivity ].

Lemma kept_step o s : accounts_kept s (step o s).
Proof.
  unfold step, handle. destruct o; simpl fst.
  - unfold register, bad_request. branches; keeps_accounts.
  - unfold resend_verification, bad_request. branches; keeps_accounts.
  - unfold verify_email, bad_request, verified. branches; keeps_accounts.
  - unfold approve_user, admin_only, authMiddleware, requireAdmin, bad_request, ok.
    branches; keeps_accounts.
  - unfold delete_user, admin_only, authMiddleware, requireAdmin, bad_request, ok.
    branches; keeps_accounts.
  - unfold create_order, bad_request. branches; keeps_accounts.
  - unfold assign, admin_only, authMiddleware, requireAdmin, bad_request, take_order.
    branches; keeps_accounts.
  - unfold claim, authMiddleware, bad_request, take_order. branches; keeps_accounts.
  - unfold update_status, bad_request. branches; keeps_accounts.
  - unfold submit_work, bad_request. branches; keeps_accounts.
  - unfold send_to_client, admin_only, authMiddleware, requireAdmin, bad_request.
    branches; keeps_accounts.
  - unfold delete_order, admin_only, authMiddleware, requireAdmin, bad_request.
    branches; keeps_accounts.
  - unfold update_order, admin_only, authMiddleware, requireAdmin, bad_request.
    branches; keeps_accounts.
  - unfold payments_initiate, bad_request, record_pending. branches; keeps_accounts.
  - keeps_accounts.
  - unfold payments_callback, bad_request, markOrderPaid. branches; keeps_accounts.
Qed.

Lemma kept_statements o : always accounts_kept (task_of o).
Proof.
  pose proof (kept_step o) as Hstep.
  destruct o; simpl task_of; try (apply always_single; exact Hstep); clear Hstep.
  - unfold register_task. statements keeps_accounts.
  - unfold resend_task. statements keeps_accounts.
  - unfold verify_task. statements keeps_accounts.
  - unfold approve_user_task, behind_admin, behind_auth. statements keeps_accounts.
  - unfold assign_task, behind_admin, behind_auth, take. statements keeps_accounts.
  - unfold claim_task, behind_auth, take. statements keeps_accounts.
  - unfold initiate_task. statements keeps_accounts.
  - statements keeps_accounts.
Qed.
Lemma accounts_ok_approved s p :
  accounts_ok s ->
  accounts_ok (with_users (Sql.update p approve (users s)) (next_user_id s) s).
Proof.
  intros [H1 H2 H3]. constructor; simpl.
  - rewrite map_update by reflexivity. exact H1.
  - apply Forall_update; [exact H2|]. intros r _ _ Hr. exact Hr.
  - eapply List.Forall_impl; [|exact H3]. intros v Hv. apply owned_update. exact Hv.
Qed.

Lemma accounts_ok_used s q :
  accounts_ok s ->
  accounts_ok (with_verifications (Sql.update q mark_used (email_verifications s)) s).
Proof.
  intros [H1 H2 H3]. constructor; simpl; try assumption.
  apply List.Forall_forall. intros v Hv. apply in_update in Hv as (v0 & Hin & ->).
  pose proof (proj1 (List.Forall_forall _ _) H3 v0 Hin) as Ho.
  destruct (q v0); exact Ho.
Qed.

Ltac keeps_accounts_ok :=
  intros Hacc;
  first
    [ exact Hacc
    | apply accounts_ok_approved; exact Hacc
    | apply accounts_ok_used; exact Hacc
    | eapply accounts_ok_same; [| |exact Hacc]; reflexivity ].

(** Apart from the two requests that insert a verification row, no
    statement needs to know what another has read. *)
Lemma accounts_ok_statements o :
  match o with
  | Register _ _ _ _ _ _ _ _ _ | ResendVerification _ _ _ => True
  | _ => always (fun s s1 => accounts_ok s -> accounts_ok s1) (task_of o)
  end.
Proof.
  pose proof (accounts_step o) as Hstep.
  destruct o; simpl task_of; try exact I;
    try (apply always_single; exact Hstep); clear Hstep.
  - unfold verify_task. statements keeps_accounts_ok.
  - unfold approve_user_task, behind_admin, behind_auth. statements keeps_accounts_ok.
  - unfold assign_task, behind_admin, behind_auth, take. statements keeps_accounts_ok.
  - unfold claim_task, behind_auth, take. statements keeps_accounts_ok.
  - unfold initiate_task. statements keeps_accounts_ok.
  - statements keeps_accounts_ok.
Qed.

Lemma accounts_ok_add_user s u :
  accounts_ok s ->
  Sql.get (user_by_email (u_email u)) (users s) = None ->
  u_role u ∈ ["admin"; "writer"; "client"] ->
  accounts_ok (with_users (users s ++ [u]) (u_id u + 1) s).
Proof.
  intros [H1 H2 H3] Hnone Hrole. constructor; simpl.
  - rewrite map_app. simpl. apply NoDup_app. split; [exact H1|].
    split; [|apply NoDup_singleton].
    intros e He He'. apply list_elem_of_singleton in He'. subst e.
    apply list_elem_of_In in He. exact (get_by_email_none _ _ Hnone He).
  - apply Forall_snoc; assumption.
  - eapply List.Forall_impl; [|exact H3]. intros v (x & Hx & Hid & Hem).
    exists x. split; [apply in_or_app; left; exact Hx | split; assumption].
Qed.

Lemma references_user_int us n :
  Sql.references_user us (VInt n) = true -> exists x, In x us /\ u_id x = n.
Proof.
  simpl. intros H. apply existsb_exists in H as (x & Hx & Hid).
  exists x. split; [exact Hx|]. apply Z.eqb_eq. exact Hid.
Qed.

(** A row found or written under a key is, as long as it is there, the
    row of that address. *)
Lemma owner_kept s0 s u0 x :
  store_ok s0 -> In u0 (users s0) -> accounts_kept s0 s ->
  In x (users s) -> u_id x = u_id u0 -> u_email x = u_email u0.
Proof.
  intros Hok Hu0 [_ Hkept] Hx Hid.
  pose proof (proj1 (List.Forall_forall _ _) (ok_user_ids s0 Hok) u0 Hu0) as Hb.
  simpl in Hb.
  destruct (Hkept x Hx) as (u1 & Hu1 & Hid1 & Hem1); [lia|].
  rewrite <- Hem1. f_equal.
  apply (NoDup_map_inj u_id (users s0)); [exact (ok_users_nodup s0 Hok) | assumption.. | congruence].
Qed.

Lemma accounts_ok_verification_insert s0 u0 code now done failed (o : op) :
  store_ok s0 -> In u0 (users s0) ->
  sound store_ok accounts_ok (fun _ => accounts_kept)
    (fun _ s s1 => forall o' : op, accounts_kept s s1) o
    (verification_insert (u_id u0) (u_email u0) code now done failed) s0.
Proof.
  intros Hok Hu0. unfold verification_insert. cbn [sound].
  intros s1 Hok1 Hacc1 Hkept.
  destruct (Sql.references_user (users s1) (VInt (u_id u0))) eqn:Efk;
    cbn [sound respond fst snd].
  - split; [|split; [intros _; apply kept_same; reflexivity | exact I]].
    apply references_user_int in Efk as (x & Hx & Hid).
    rewrite <- Hid.
    apply accounts_ok_insert_verification; [exact Hacc1 | exact Hx |].
    exact (owner_kept s0 s1 u0 x Hok Hu0 Hkept Hx Hid).
  - split; [exact Hacc1|]. split; [intros _; apply accounts_kept_refl | exact I].
Qed.

Lemma accounts_sound o s0 :
  sound store_ok accounts_ok (fun _ => accounts_kept)
    (fun _ s s1 => forall o' : op, accounts_kept s s1) o (task_of o) s0.
Proof.
  pose proof (accounts_ok_statements o) as Hacc.
  pose proof (kept_statements o) as Hkept.
  destruct o;
    try (apply sound_of_always;
         eapply always_impl; [|exact (always_and _ _ _ Hacc Hkept)];
         simpl; intros s s1 [H1 H2] _ Hs; split; [apply H1; exact Hs | intros _; exact H2]);
    clear Hacc Hkept; simpl task_of.
  - unfold register_task.
    destruct (_ || _); [exact I|].
    destruct (negb (email_format_ok _)); [exact I|].
    destruct (negb mx); [exact I|].
    set (userRole := if bool_decide _ then role_ else "client").
    assert (Hrole : userRole ∈ ["admin"; "writer"; "client"]).
    { subst userRole. destruct (bool_decide _) eqn:E;
        [eapply bool_decide_eq_true_1; exact E | set_solver]. }
    clearbody userRole. simpl.
    intros s1 Hok1 Hacc1 _.
    split; [exact Hacc1|]. split; [intros _; apply accounts_kept_refl|].
    destruct (Sql.get _ (users s1)); [exact I|]. simpl.
    intros s2 Hok2 Hacc2 _.
    destruct (Sql.get _ (users s2)) eqn:Eu; simpl.
    + split; [exact Hacc2|]. split; [intros _; apply accounts_kept_refl | exact I].
    + set (u := {| u_id := next_user_id s2; u_name := name_;
                   u_email := normalize_email email_; u_password := hashed;
                   u_role := userRole; u_country := country_; u_approved := false |}).
      split; [exact (accounts_ok_add_user s2 u Hacc2 Eu Hrole)|].
      split; [intros _; eapply kept_insert; reflexivity|].
      apply (accounts_ok_verification_insert _ u).
      * exact (store_ok_add_user u s2 Hok2 eq_refl).
      * simpl. apply in_or_app. right. left. reflexivity.
  - unfold resend_task.
    destruct (String.eqb email_ ""); [exact I|]. simpl.
    intros s1 Hok1 Hacc1 _.
    split; [exact Hacc1|]. split; [intros _; apply accounts_kept_refl|].
    destruct (Sql.get _ (users s1)) as [u|] eqn:Eu; [|exact I].
    destruct (u_approved u); [exact I|].
    apply get_some in Eu as [Hin He]. unfold user_by_email in He.
    apply String.eqb_eq in He. rewrite <- He.
    apply (accounts_ok_verification_insert s1 u); assumption.
Qed.

Lemma reachable_accounts_ok s : reachable s -> accounts_ok s.
Proof.
  apply (reachable_keeps store_ok accounts_ok (fun _ => accounts_kept)).
  - intros _. apply accounts_kept_refl.
  - intros _. apply accounts_kept_trans.
  - apply accounts_sound.
  - apply reachable_store_ok.
  - apply accounts_ok_empty.
Qed.

(** X5. In every store the server can reach no two accounts have the
    same address, every account's role is one of admin, writer and client,
    and every verification row belongs to a stored account and carries
    that account's address. *)
Theorem reachable_accounts_integrity (s : store) : reachable s -> accounts_ok s.
Proof. exact (reachable_accounts_ok s). Qed.

Lemma reachable_accounts_integrity_witness :
  accounts_ok (run History.same_digits empty_store).
Proof. apply reachable_accounts_integrity. apply reachable_run. Defined.

Lemma register_success now mx h c n e pw r co s :
  code_of (snd (register now mx h c n e pw r co s)) = 200 ->
  e <> "" /\ pw <> ""
  /\ Sql.get (user_by_email (normalize_email e)) (users s) = None
  /\ fst (register now mx h c n e pw r co s) = registered_store now h c n e r co s.
Proof.
  unfold register, bad_request.
  destruct (String.eqb_spec n ""); [discriminate|].
  destruct (String.eqb_spec e ""); [discriminate|].
  destruct (String.eqb_spec pw ""); [discriminate|].
  destruct (String.eqb co ""); [discriminate|]. simpl orb. cbv iota.
  destruct (negb (email_format_ok (normalize_email e))); [discriminate|].
  destruct (negb mx); [discriminate|].
  destruct (Sql.get (user_by_email (normalize_email e)) (users s)); [discriminate|].
  intros _. repeat split; assumption || reflexivity.
Qed.

Lemma get_snoc_new {A : Type} (q : A -> bool) (l : list A) (x : A) :
  Sql.get q l = None -> q x = true -> Sql.get q (l ++ [x]) = Some x.
Proof.
  unfold Sql.get. induction l as [|r l IH]; simpl; intros Hn Hx.
  - rewrite Hx. reflexivity.
  - destruct (q r); [discriminate | auto].
Qed.

Lemma filter_none {A : Type} (f : A -> bool) (l : list A) :
  (forall x, In x l -> f x = false) -> List.filter f l = [].
Proof.
  induction l as [|x l IH]; simpl; intros H; [reflexivity|].
  rewrite (H x) by (left; reflexivity). apply IH. intros y Hy. apply H. right. exact Hy.
Qed.

Lemma newest_snoc l x :
  (forall v, In v l -> v_created_at v < v_created_at x) -> newest (l ++ [x]) = Some x.
Proof.
  intros H. unfold newest. rewrite fold_left_app. simpl.
  destruct (fold_left newer l None) as [r|] eqn:E; [|reflexivity].
  apply newest_some in E as [Hin _]. simpl.
  pose proof (H r Hin) as Hlt. apply Z.ltb_lt in Hlt. rewrite Hlt. reflexivity.
Qed.

(** After a registration the only live code of the address is the one
    just drawn. *)
Lemma registered_code_is_active now h c n e r co s :
  accounts_ok s ->
  Sql.get (user_by_email (normalize_email e)) (users s) = None ->
  active_verification (normalize_email e) (registered_store now h c n e r co s)
  = Some (new_verification (next_verification_id s) (next_user_id s)
            (normalize_email e) c now).
Proof.
  intros Hacc Hnone. unfold active_verification, registered_store. simpl.
  rewrite List.filter_app. rewrite filter_none.
  - simpl. unfold candidate at 1. simpl. rewrite String.eqb_refl. simpl.
    rewrite existsb_app. simpl. unfold Sql.user_is at 2. simpl.
    rewrite Z.eqb_refl, orb_true_r. reflexivity.
  - intros v Hv. destruct (candidate _ _ v) eqn:Ec; [|reflexivity]. exfalso.
    apply candidate_true in Ec as (Hem & _ & _).
    destruct (proj1 (List.Forall_forall _ _) (ok_codes_owned s Hacc) v Hv)
      as (u & Hu & _ & Hue).
    apply (get_by_email_none _ _ Hnone). apply in_map_iff. exists u.
    split; [congruence | exact Hu].
Qed.

(** X6. Once an address is registered, a second registration of the same
    address, in any letter case and with blanks around it, writes nothing,
    whatever else it carries: it is answered 400 when its name, email,
    password or country is empty, 400 when the MX lookup of the domain
    fails, and 409 otherwise. *)
Theorem registered_address_is_refused
    (now now2 : Z) (h h2 c c2 n n2 e e2 pw pw2 r r2 co co2 : string) (mx mx2 : bool)
    (s : store) :
  code_of (snd (register now mx h c n e pw r co s)) = 200 ->
  normalize_email e2 = normalize_email e ->
  register now2 mx2 h2 c2 n2 e2 pw2 r2 co2 (fst (register now mx h c n e pw r co s))
  = (fst (register now mx h c n e pw r co s),
     if String.eqb n2 "" || String.eqb e2 "" || String.eqb pw2 "" || String.eqb co2 ""
     then Json 400 "Missing required fields"
     else if mx2 then Json 409 "Email already registered"
     else Json 400 "Email domain is invalid or has no MX records").
Proof.
  intros Hcode He.
  assert (Hfmt : email_format_ok (normalize_email e) = true).
  { revert Hcode. unfold register, bad_request.
    destruct (_ || _ || _ || _); [discriminate|].
    destruct (email_format_ok (normalize_email e)); [reflexivity | discriminate]. }
  destruct (register_success _ _ _ _ _ _ _ _ _ _ Hcode) as (_ & _ & Hnone & ->).
  unfold register at 1, bad_request.
  destruct (_ || _ || _ || _); [reflexivity|].
  rewrite He, Hfmt. simpl negb. cbv iota.
  destruct mx2; simpl negb; cbv iota; [|reflexivity].
  unfold registered_store at 1. simpl users.
  rewrite (get_snoc_new _ _ (registered (next_user_id s) n e h r co) Hnone).
  - reflexivity.
  - unfold user_by_email. simpl. apply String.eqb_refl.
Qed.

Lemma registered_address_is_refused_witness :
  code_of (snd (register 2000 true "h" "222222" "A" " ANN@mail.example " "p" "writer" "UG"
                  (fst (register 1000 true "hash-a" "111111" "Ann" "ann@mail.example"
                          "pw-a" "client" "KE" empty_store))))
  = 409.
Proof.
  rewrite (registered_address_is_refused 1000 2000 "hash-a" "h" "111111" "222222"
             "Ann" "A" "ann@mail.example" " ANN@mail.example " "pw-a" "p"
             "client" "writer" "KE" "UG" true true empty_store);
    reflexivity.
Defined.

Lemma verify_email_with now e c s row :
  e <> "" -> c <> "" ->
  active_verification (normalize_email e) s = Some row ->
  verify_email now e c s
  = if (v_expires_at row <? now)%Z then (s, Json 400 "Code expired")
    else if String.eqb (v_code row) (JS.trim c)
    then (verified row s, Json 200 "Email verified. You may now log in.")
    else (s, Json 400 "Invalid code").
Proof.
  intros He Hc Hrow. unfold verify_email, bad_request.
  destruct (String.eqb_spec e ""); [contradiction|].
  destruct (String.eqb_spec c ""); [contradiction|]. simpl orb. cbv iota.
  rewrite Hrow. destruct (v_expires_at row <? now)%Z; [reflexivity|].
  destruct (String.eqb (v_code row) (JS.trim c)); reflexivity.
Qed.

(** X7. The code drawn at a registration verifies the address for
    fifteen minutes and not a millisecond longer: sent back at a time up
    to [now + 900000] it is accepted, marks its row used and approves the
    account; sent later it is answered 400 'Code expired' and nothing is
    written. *)
Theorem registration_code_expires_after_15_minutes
    (now t : Z) (mx : bool) (h c n e pw r co : string) (s : store) :
  reachable s ->
  code_of (snd (register now mx h c n e pw r co s)) = 200 ->
  c <> "" -> JS.trim c = c ->
  let s1 := fst (register now mx h c n e pw r co s) in
  let row := new_verification (next_verification_id s) (next_user_id s)
               (normalize_email e) c now in
  (t <= now + 900000 ->
     verify_email t e c s1
     = (verified row s1, Json 200 "Email verified. You may now log in."))
  /\ (now + 900000 < t ->
       verify_email t e c s1 = (s1, Json 400 "Code expired")).
Proof.
  intros Hreach Hcode Hc Htrim s1 row.
  destruct (register_success _ _ _ _ _ _ _ _ _ _ Hcode) as (He & _ & Hnone & Es1).
  pose proof (registered_code_is_active now h c n e r co s
                (reachable_accounts_ok _ Hreach) Hnone) as Hact.
  subst s1. rewrite Es1. fold row in Hact.
  rewrite (verify_email_with _ _ _ _ _ He Hc Hact). simpl v_expires_at. simpl v_code.
  rewrite Htrim, String.eqb_refl.
  replace (now + 15 * 60 * 1000) with (now + 900000) by lia.
  split; intros Ht.
  - apply Z.ltb_ge in Ht. rewrite Ht. reflexivity.
  - apply Z.ltb_lt in Ht. rewrite Ht. reflexivity.
Qed.

Lemma registration_code_expires_after_15_minutes_witness :
  snd (verify_email 901001 "ann@mail.example" "111111"
         (fst (register 1000 true "hash-a" "111111" "Ann" "ann@mail.example"
                 "pw-a" "client" "KE" empty_store)))
  = Json 400 "Code expired".
Proof.
  destruct (registration_code_expires_after_15_minutes 1000 901001 true
              "hash-a" "111111" "Ann" "ann@mail.example" "pw-a" "client" "KE"
              empty_store) as [_ H].
  - apply reachable_empty.
  - reflexivity.
  - discriminate.
  - reflexivity.
  - rewrite H; [reflexivity | lia].
Defined.

(** X8. A code that is sent again supersedes the ones before it: after a
    resend, made in a later second than every earlier row of the address,
    only the new code is accepted, until fifteen minutes after the resend;
    any other code, an earlier one included, is answered 400 and nothing
    is written. *)
Theorem resent_code_supersedes (now t : Z) (code e c : string) (s : store) :
  reachable s ->
  code_of (snd (resend_verification now code e s)) = 200 ->
  (forall v, In v (email_verifications s) -> v_email v = normalize_email e ->
             v_created_at v < now / 1000) ->
  c <> "" ->
  let s1 := fst (resend_verification now code e s) in
  (JS.trim c <> code ->
     fst (verify_email t e c s1) = s1 /\ code_of (snd (verify_email t e c s1)) = 400)
  /\ (JS.trim c = code -> t <= now + 900000 ->
       code_of (snd (verify_email t e c s1)) = 200).
Proof.
  intros Hreach Hcode Hold Hc s1. subst s1. revert Hcode.
  unfold resend_verification, bad_request.
  destruct (String.eqb_spec e "") as [|He]; [discriminate|].
  destruct (Sql.get (user_by_email (normalize_email e)) (users s)) as [u|] eqn:Eu;
    [|discriminate].
  destruct (u_approved u); [discriminate|]. intros _. simpl fst.
  apply get_some in Eu as [Hin Hem]. unfold user_by_email in Hem.
  apply String.eqb_eq in Hem.
  set (row := new_verification (next_verification_id s) (u_id u) (normalize_email e) code now).
  assert (Hact : active_verification (normalize_email e)
                   (insert_verification (u_id u) (normalize_email e) code now s)
                 = Some row).
  { unfold active_verification, insert_verification. simpl.
    rewrite List.filter_app. simpl. fold row.
    assert (Hrow : candidate (users s) (normalize_email e) row = true).
    { apply candidate_true. simpl. repeat split.
      apply existsb_exists. exists u. split; [exact Hin | apply Z.eqb_refl]. }
    rewrite Hrow. apply newest_snoc. intros v Hv.
    apply filter_In in Hv as [Hv Hcv]. apply candidate_true in Hcv as (Hve & _ & _).
    simpl. apply Hold; assumption. }
  rewrite (verify_email_with _ _ _ _ _ He Hc Hact). simpl v_expires_at. simpl v_code.
  split.
  - intros Hne. destruct (_ <? t)%Z; [split; reflexivity|].
    destruct (String.eqb_spec code (JS.trim c)) as [E|_]; [congruence|].
    split; reflexivity.
  - intros <- Ht. replace (now + 15 * 60 * 1000 <? t)%Z with false
      by (symmetry; apply Z.ltb_ge; lia).
    rewrite String.eqb_refl. reflexivity.
Qed.

Lemma resent_code_supersedes_witness :
  code_of (snd (verify_email 70000 "ann@mail.example" "111111"
                  (fst (resend_verification 61000 "654321" "ann@mail.example"
                          (fst (register 1000 true "hash-a" "111111" "Ann"
                                  "ann@mail.example" "pw-a" "client" "KE" empty_store))))))
  = 400.
Proof.
  apply (resent_code_supersedes 61000 70000 "654321" "ann@mail.example" "111111"
           (fst (register 1000 true "hash-a" "111111" "Ann" "ann@mail.example"
                   "pw-a" "client" "KE" empty_store))).
  - apply (reachable_step (Register 1000 true "hash-a" "111111" "Ann" "ann@mail.example"
                             "pw-a" "client" "KE") empty_store reachable_empty).
  - reflexivity.
  - intros v [<-|[]] _. vm_compute. reflexivity.
  - discriminate.
  - discriminate.
Defined.

Lemma user_is_unique s u x :
  accounts_ok s -> In u (users s) -> In x (users s) -> u_email x = u_email u -> x = u.
Proof.
  intros Hacc Hu Hx E.
  exact (NoDup_map_inj u_email (users s) x u (ok_emails_nodup s Hacc) Hx Hu E).
Qed.

Lemma get_by_email_of s u :
  accounts_ok s -> In u (users s) ->
  Sql.get (user_by_email (u_email u)) (users s) = Some u.
Proof.
  intros Hacc Hu.
  destruct (Sql.get (user_by_email (u_email u)) (users s)) as [x|] eqn:E.
  - apply get_some in E as [Hx Hq]. unfold user_by_email in Hq.
    apply String.eqb_eq in Hq. f_equal. eapply user_is_unique; eauto.
  - pose proof (get_none _ _ u E Hu) as Hq. unfold user_by_email in Hq.
    rewrite String.eqb_refl in Hq. discriminate.
Qed.

(** X9. Approval by an administrator retires every code of the account:
    once [/api/approve-user/:id] has approved a user who was not yet
    approved, no code sent to that address is accepted any more
    ('No active verification found'), and no new one can be asked for
    ('Email already verified'); neither request writes anything. *)
Theorem admin_approval_retires_codes
    (s : store) (admin : principal) (uid : Z) (u : user)
    (t now : Z) (e c code : string) :
  reachable s ->
  p_role admin = "admin" ->
  Sql.get (Sql.user_is uid) (users s) = Some u ->
  u_approved u = false ->
  normalize_email e = u_email u -> e <> "" -> c <> "" ->
  let s1 := fst (approve_user (Some admin) (Some uid) s) in
  code_of (snd (approve_user (Some admin) (Some uid) s)) = 200
  /\ verify_email t e c s1 = (s1, Json 400 "No active verification found")
  /\ resend_verification now code e s1 = (s1, Json 400 "Email already verified").
Proof.
  intros Hreach Hadmin Hget Hna Hem He Hc.
  pose proof (reachable_accounts_ok _ Hreach) as Hacc.
  unfold approve_user, admin_only, authMiddleware, requireAdmin.
  rewrite Hadmin. simpl String.eqb. cbv iota. rewrite Hget, Hna. simpl fst. simpl snd.
  destruct (get_some _ _ _ Hget) as [Hin Hid]. unfold Sql.user_is in Hid.
  apply Z.eqb_eq in Hid.
  refine (conj eq_refl (conj _ _)).
  - unfold verify_email, bad_request.
    destruct (String.eqb_spec e ""); [contradiction|].
    destruct (String.eqb_spec c ""); [contradiction|]. simpl orb. cbv iota.
    unfold active_verification. simpl email_verifications. simpl users.
    rewrite filter_none; [reflexivity|].
    intros v Hv. apply in_update in Hv as (v0 & Hv0 & ->).
    pose proof (ok_codes_owned s Hacc) as Hown.
    rewrite List.Forall_forall in Hown. destruct (Hown v0 Hv0) as (x & Hx & Hxid & Hxem).
    destruct (v_user_id v0 =? uid)%Z eqn:E.
    + unfold candidate. simpl. rewrite andb_false_r. reflexivity.
    + unfold candidate. destruct (String.eqb_spec (v_email v0) (normalize_email e)) as [E1|];
        [|reflexivity].
      exfalso. assert (x = u).
      { eapply user_is_unique; eauto. congruence. }
      subst x. apply Z.eqb_neq in E. congruence.
  - unfold resend_verification, bad_request.
    destruct (String.eqb_spec e ""); [contradiction|]. simpl users.
    rewrite get_update by reflexivity. rewrite Hem, (get_by_email_of s u Hacc Hin).
    simpl. unfold Sql.user_is. rewrite Hid, Z.eqb_refl. reflexivity.
Qed.

Lemma admin_approval_retires_codes_witness :
  verify_email 2000 "ann@mail.example" "111111"
    (fst (approve_user (Some History.ada) (Some 1)
            (fst (register 1000 true "hash-a" "111111" "Ann" "ann@mail.example"
                    "pw-a" "client" "KE" empty_store))))
  = (fst (approve_user (Some History.ada) (Some 1)
            (fst (register 1000 true "hash-a" "111111" "Ann" "ann@mail.example"
                    "pw-a" "client" "KE" empty_store))),
     Json 400 "No active verification found").
Proof.
  apply (admin_approval_retires_codes
           (fst (register 1000 true "hash-a" "111111" "Ann" "ann@mail.example"
                   "pw-a" "client" "KE" empty_store))
           History.ada 1
           (registered 1 "Ann" "ann@mail.example" "hash-a" "client" "KE")
           2000 2000 "ann@mail.example" "111111" "222222").
  - apply (reachable_step (Register 1000 true "hash-a" "111111" "Ann" "ann@mail.example"
                             "pw-a" "client" "KE") empty_store reachable_empty).
  - reflexivity.
  - reflexivity.
  - reflexivity.
  - reflexivity.
  - discriminate.
  - discriminate.
Defined.

Lemma login_of s u cmp e pw :
  accounts_ok s -> In u (users s) -> normalize_email e = u_email u ->
  e <> "" -> pw <> "" ->
  login cmp e pw s
  = if negb (u_approved u) then LoginRefused (Json 403 "Email not verified")
    else if negb (cmp pw (u_password u)) then LoginRefused (Json 401 "Invalid account")
    else LoggedIn (profile_of u)
           {| p_id := u_id u; p_role := u_role u; p_email := u_email u |}.
Proof.
  intros Hacc Hin Hem He Hpw. unfold login.
  destruct (String.eqb_spec e ""); [contradiction|].
  destruct (String.eqb_spec pw ""); [contradiction|]. simpl orb. cbv iota.
  rewrite Hem, (get_by_email_of s u Hacc Hin). reflexivity.
Qed.

(** X10. An account cannot log in before its address is verified, whatever
    the password; once the code of the registration has been sent back in
    time, the login succeeds exactly when [bcrypt.compareSync] accepts the
    password against the stored hash, and the token then signed carries
    the account's id, role and normalised address. *)
Theorem login_waits_for_verification
    (compareSync : string -> string -> bool)
    (now t : Z) (mx : bool) (h c n e pw r co attempt : string) (s : store) :
  reachable s ->
  code_of (snd (register now mx h c n e pw r co s)) = 200 ->
  c <> "" -> JS.trim c = c -> t <= now + 900000 -> attempt <> "" ->
  let s1 := fst (register now mx h c n e pw r co s) in
  let s2 := fst (verify_email t e c s1) in
  let u := approve (registered (next_user_id s) n e h r co) in
  login compareSync e attempt s1 = LoginRefused (Json 403 "Email not verified")
  /\ login compareSync e attempt s2
     = if compareSync attempt h
       then LoggedIn (profile_of u)
              {| p_id := next_user_id s; p_role := u_role u;
                 p_email := normalize_email e |}
       else LoginRefused (Json 401 "Invalid account").
Proof.
  intros Hreach Hcode Hc Htrim Ht Hat s1 s2 u.
  destruct (register_success _ _ _ _ _ _ _ _ _ _ Hcode) as (He & _ & Hnone & Es1).
  pose proof (reachable_accounts_ok _ Hreach) as Hacc.
  assert (Hr1 : reachable s1)
    by exact (reachable_step (Register now mx h c n e pw r co) s Hreach).
  assert (Hacc1 : accounts_ok s1) by exact (reachable_accounts_ok _ Hr1).
  assert (Hr2 : reachable s2)
    by exact (reachable_step (VerifyEmail t e c) s1 Hr1).
  assert (Hacc2 : accounts_ok s2) by exact (reachable_accounts_ok _ Hr2).
  pose proof (registered_code_is_active now h c n e r co s Hacc Hnone) as Hact.
  assert (Es2 : s2 = verified (new_verification (next_verification_id s) (next_user_id s)
                                 (normalize_email e) c now) s1).
  { subst s2. revert Hact. subst s1. rewrite Es1. intros Hact.
    rewrite (verify_email_with _ _ _ _ _ He Hc Hact). simpl v_expires_at. simpl v_code.
    rewrite Htrim, String.eqb_refl.
    replace (now + 15 * 60 * 1000 <? t)%Z with false by (symmetry; apply Z.ltb_ge; lia).
    reflexivity. }
  split.
  - rewrite (login_of s1 (registered (next_user_id s) n e h r co) compareSync e attempt Hacc1);
      [reflexivity| |reflexivity|exact He|exact Hat].
    subst s1. rewrite Es1. simpl. apply in_or_app. right. left. reflexivity.
  - rewrite (login_of s2 u compareSync e attempt Hacc2);
      [|..|reflexivity|exact He|exact Hat].
    + simpl. destruct (compareSync attempt h); reflexivity.
    + rewrite Es2. simpl users. subst s1. rewrite Es1. simpl users.
      apply in_update_hit.
      * apply in_or_app. right. left. reflexivity.
      * simpl. apply Z.eqb_refl.
Qed.

Lemma login_waits_for_verification_witness :
  login (fun pw h => String.eqb h (String.append "hash-of-" pw)) "Ann@Mail.Example" "pw-a"
    (fst (register 1000 true "hash-of-pw-a" "111111" "Ann" "Ann@Mail.Example"
            "pw-a" "writer" "KE" empty_store))
  = LoginRefused (Json 403 "Email not verified").
Proof.
  apply (login_waits_for_verification
           (fun pw h => String.eqb h (String.append "hash-of-" pw))
           1000 2000 true "hash-of-pw-a" "111111" "Ann" "Ann@Mail.Example"
           "pw-a" "writer" "KE" "pw-a" empty_store).
  - apply reachable_empty.
  - reflexivity.
  - discriminate.
  - reflexivity.
  - lia.
  - discriminate.
Defined.

(** ** Orders *)

Lemma fixed_columns_refl r : fixed_columns r r.
Proof. repeat split. Qed.

Lemma fixed_columns_trans a b c :
  fixed_columns a b -> fixed_columns b c -> fixed_columns a c.
Proof. unfold fixed_columns. intros (?&?&?) (?&?&?). repeat split; congruence. Qed.

Lemma update_nothing {A : Type} (f : A -> A) (l : list A) :
  Sql.update (fun _ => false) f l = l.
Proof. unfold Sql.update. apply map_id. Qed.

Lemma change_same s s1 :
  orders s1 = orders s -> next_order_id s1 = next_order_id s -> orders_change s s1.
Proof.
  intros Ho Hn. apply (change_update s s1 (fun _ => false) (fun r => r)).
  - intros r. apply fixed_columns_refl.
  - rewrite update_nothing. exact Ho.
  - exact Hn.
Qed.

Lemma set_column_fixed c v o : fixed_columns o (set_column c v o).
Proof. unfold set_column. repeat (destruct (String.eqb c _)); repeat split. Qed.

Lemma apply_assignments_fixed asg o : fixed_columns o (apply_assignments asg o).
Proof.
  unfold apply_assignments. revert o.
  induction asg as [|kv asg IH]; intros o; simpl; [apply fixed_columns_refl|].
  eapply fixed_columns_trans; [apply set_column_fixed | apply IH].
Qed.

Lemma forget_user_fixed uid o : fixed_columns o (forget_user uid o).
Proof.
  unfold forget_user. destruct (Sql.eq (client_id o) _); simpl;
    destruct (Sql.eq _ _); repeat split.
Qed.

Ltac orders_shape :=
  first
    [ apply change_same; reflexivity
    | eapply change_update;
        [ | simpl orders; reflexivity | reflexivity ];
        solve [ intros ?; repeat split ] ].

Lemma step_orders (o : op) (s : store) : orders_change s (step o s).
Proof.
  unfold step, handle. destruct o; simpl fst.
  - unfold register, bad_request. branches; orders_shape.
  - unfold resend_verification, bad_request. branches; orders_shape.
  - unfold verify_email, bad_request. branches; orders_shape.
  - unfold approve_user, admin_only, authMiddleware, requireAdmin, bad_request, ok.
    branches; orders_shape.
  - unfold delete_user, admin_only, authMiddleware, requireAdmin, bad_request, ok.
    branches; try orders_shape.
    apply (change_update _ _ (fun _ => true) (forget_user z));
      [apply forget_user_fixed | reflexivity | reflexivity].
  - unfold create_order, bad_request. branches; try orders_shape;
      (eapply change_insert; [ | simpl orders; reflexivity | reflexivity ]; reflexivity).
  - unfold assign, admin_only, authMiddleware, requireAdmin, bad_request, take_order.
    branches; orders_shape.
  - unfold claim, authMiddleware, bad_request, take_order. branches; orders_shape.
  - unfold update_status, bad_request. branches; orders_shape.
  - unfold submit_work, bad_request. branches; orders_shape.
  - unfold send_to_client, admin_only, authMiddleware, requireAdmin, bad_request.
    branches; orders_shape.
  - unfold delete_order, admin_only, authMiddleware, requireAdmin, bad_request.
    branches; try orders_shape. eapply change_delete; reflexivity.
  - unfold update_order, admin_only, authMiddleware, requireAdmin, bad_request.
    branches; try orders_shape;
      (eapply change_update;
         [apply apply_assignments_fixed | simpl orders; reflexivity | reflexivity]).
  - unfold payments_initiate, bad_request, record_pending. branches; orders_shape.
  - unfold markOrderPaid, confirmed. orders_shape.
  - unfold payments_callback, bad_request, markOrderPaid, confirmed.
    branches; orders_shape.
Qed.

Lemma get_update_fixed p f l oid :
  (forall r, fixed_columns r (f r)) ->
  Sql.get (Sql.order_is oid) (Sql.update p f l)
  = (fun r => if p r then f r else r) <$> Sql.get (Sql.order_is oid) l.
Proof.
  intros Hf. apply get_update. intros r. unfold Sql.order_is.
  destruct (Hf r) as [-> _]. reflexivity.
Qed.

Lemma get_delete_other d oid (l : list order) :
  d <> oid ->
  Sql.get (Sql.order_is oid) (Sql.delete (Sql.order_is d) l)
  = Sql.get (Sql.order_is oid) l.
Proof.
  intros Hd. apply get_delete. unfold Sql.order_is. intros r Hr.
  apply Z.eqb_eq in Hr. apply Z.eqb_neq. congruence.
Qed.

Lemma get_snoc_other {A : Type} (q : A -> bool) (l : list A) (x : A) :
  Sql.get q l = None -> q x = false -> Sql.get q (l ++ [x]) = None.
Proof.
  unfold Sql.get. induction l as [|r l IH]; simpl; intros Hl Hx.
  - rewrite Hx. reflexivity.
  - destruct (q r); [discriminate | auto].
Qed.

Lemma same_order_trans oid s s1 s2 :
  same_order oid s s1 -> same_order oid s1 s2 -> same_order oid s s2.
Proof.
  unfold same_order.
  destruct (Sql.get (Sql.order_is oid) (orders s)) as [r|];
    destruct (Sql.get (Sql.order_is oid) (orders s1)) as [r1|];
    destruct (Sql.get (Sql.order_is oid) (orders s2)) as [r2|];
    try tauto; try discriminate; try congruence.
  apply fixed_columns_trans.
Qed.

Lemma same_order_step (o : op) (s : store) (oid : Z) :
  oid < next_order_id s ->
  oid < next_order_id (step o s) /\ same_order oid s (step o s).
Proof.
  intros Hlt. unfold same_order.
  destruct (step_orders o s) as [p f Hf Ho Hn | d Ho Hn | x Hx Ho Hn]; rewrite Ho, Hn.
  - split; [exact Hlt|]. rewrite (get_update_fixed _ _ _ _ Hf).
    destruct (Sql.get (Sql.order_is oid) (orders s)) as [r|]; simpl; [|reflexivity].
    destruct (p r); [apply Hf | apply fixed_columns_refl].
  - split; [exact Hlt|]. destruct (Z.eq_dec d oid) as [->|Hd].
    + rewrite get_delete_same. destruct (Sql.get _ _); [exact I | reflexivity].
    + rewrite (get_delete_other _ _ _ Hd).
      destruct (Sql.get _ _); [apply fixed_columns_refl | reflexivity].
  - split; [lia|]. destruct (Sql.get (Sql.order_is oid) (orders s)) as [r|] eqn:E.
    + rewrite (get_snoc _ _ _ _ E). apply fixed_columns_refl.
    + apply get_snoc_other; [exact E|]. unfold Sql.order_is. rewrite Hx.
      apply Z.eqb_neq. lia.
Qed.

Lemma same_order_run (ops : list op) (s : store) (oid : Z) :
  oid < next_order_id s -> same_order oid s (run ops s).
Proof.
  unfold run. revert s. induction ops as [|o ops IH]; intros s Hlt; simpl.
  - unfold same_order. destruct (Sql.get _ _); [apply fixed_columns_refl | reflexivity].
  - destruct (same_order_step o s oid Hlt) as [Hlt1 H1].
    exact (same_order_trans _ _ _ _ H1 (IH _ Hlt1)).
Qed.

(** X11. The key of a deleted order is never given out again: once an
    administrator has deleted the order under a key the table had already
    handed out, no later sequence of requests makes that key answer
    anything but 404 on the payment-status route. *)
Theorem deleted_order_key_never_returns
    (s : store) (admin : principal) (oid : Z) (ops : list op) :
  p_role admin = "admin" ->
  oid < next_order_id s ->
  payment_status_route (Some oid)
    (run ops (fst (delete_order (Some admin) (Some oid) s)))
  = inl (Json 404 "Order not found").
Proof.
  intros Hadmin Hlt.
  set (s1 := fst (delete_order (Some admin) (Some oid) s)).
  assert (Hs1 : oid < next_order_id s1
                /\ Sql.get (Sql.order_is oid) (orders s1) = None).
  { subst s1. unfold delete_order, admin_only, authMiddleware, requireAdmin.
    rewrite Hadmin. simpl. split; [exact Hlt | apply get_delete_same]. }
  destruct Hs1 as [Hlt1 Hnone].
  pose proof (same_order_run ops s1 oid Hlt1) as H. unfold same_order in H.
  rewrite Hnone in H. unfold payment_status_route. rewrite H. reflexivity.
Qed.

Lemma deleted_order_key_never_returns_witness :
  payment_status_route (Some 2)
    (run [CreateOrder 9000 "Thesis" "Chapter one" (Some 1) "" "" None]
       (fst (delete_order (Some History.ada) (Some 2)
               (run History.two_orders empty_store))))
  = inl (Json 404 "Order not found").
Proof.
  apply (deleted_order_key_never_returns (run History.two_orders empty_store)
           History.ada 2).
  - reflexivity.
  - vm_compute. reflexivity.
Defined.

(** X12. No request rewrites the guide a client attached to an order or
    the time the order was created: whatever requests are served, an order
    still found under its key has the [client_guide] and [created_at] it
    had before. *)
Theorem order_guide_and_creation_time_fixed
    (s : store) (ops : list op) (oid : Z) (r r1 : order) :
  reachable s ->
  Sql.get (Sql.order_is oid) (orders s) = Some r ->
  Sql.get (Sql.order_is oid) (orders (run ops s)) = Some r1 ->
  client_guide r1 = client_guide r /\ o_created_at r1 = o_created_at r.
Proof.
  intros Hreach Hr Hr1.
  assert (Hlt : oid < next_order_id s).
  { destruct (get_some _ _ _ Hr) as [Hin Hid]. unfold Sql.order_is in Hid.
    apply Z.eqb_eq in Hid.
    pose proof (proj1 (List.Forall_forall _ _)
                  (ok_order_ids s (reachable_store_ok _ Hreach)) r Hin) as Hb.
    simpl in Hb. lia. }
  pose proof (same_order_run ops s oid Hlt) as H. unfold same_order in H.
  rewrite Hr, Hr1 in H. destruct H as (_ & Hg & Hc). split; assumption.
Qed.

Lemma order_guide_and_creation_time_fixed_witness :
  client_guide (confirmed "REF-1" History.essay) = VNull
  /\ o_created_at (confirmed "REF-1" History.essay) = 7.
Proof.
  apply (order_guide_and_creation_time_fixed
           (run History.two_orders empty_store)
           [ Claim (Some History.wes) (Some 1);
             SubmitWork (Some 1) (Some History.upload);
             PaymentsCallback 9000 None (Generic (Some 1) (Some (VText "REF-1"))) ]
           1
           (new_order 1 7000 "Essay" "Two pages on rivers" 1 VNull VNull VNull)
           (confirmed "REF-1" History.essay)).
  - apply reachable_run.
  - vm_compute. reflexivity.
  - vm_compute. reflexivity.
Defined.

Lemma get_by_id s o :
  store_ok s -> In o (orders s) -> Sql.get (Sql.order_is (o_id o)) (orders s) = Some o.
Proof.
  intros Hok Hin.
  destruct (Sql.get (Sql.order_is (o_id o)) (orders s)) as [x|] eqn:E.
  - apply get_some in E as [Hx Hid]. unfold Sql.order_is in Hid. apply Z.eqb_eq in Hid.
    f_equal. exact (NoDup_map_inj o_id (orders s) x o (ok_orders_nodup s Hok) Hx Hin Hid).
  - pose proof (get_none _ _ o E Hin) as H. unfold Sql.order_is in H.
    rewrite Z.eqb_refl in H. discriminate.
Qed.

Lemma unassigned_true o :
  unassigned o = true <-> writer_id o = VNull /\ status o = VText "Pending Assignment".
Proof.
  unfold unassigned. rewrite andb_true_iff, sql_eq_text.
  destruct (writer_id o); simpl; intuition congruence.
Qed.

Lemma claim_open w oid s o :
  p_role w = "writer" ->
  Sql.get (active_for (p_id w)) (orders s) = None ->
  Sql.references_user (users s) (VInt (p_id w)) = true ->
  Sql.get (Sql.order_is oid) (orders s) = Some o ->
  unassigned o = true ->
  claim (Some w) (Some oid) s
  = (take_order oid (p_id w) s, Json 200 "Order claimed successfully").
Proof.
  intros Hw Hfree Href Ho Hu. apply unassigned_true in Hu as [Hwr Hst].
  rewrite (claim_cases _ _ _ Hw), Hfree, Ho, Hwr, Hst, Href. reflexivity.
Qed.

(** X13. What [/api/unassigned-orders] lists is exactly what can be
    claimed: for a writer who is a stored user and has no order in
    progress, a claim succeeds if and only if the order is in that
    listing. *)
Theorem unassigned_listing_is_claimable (s : store) (w : principal) (oid : Z) :
  reachable s ->
  p_role w = "writer" ->
  Sql.references_user (users s) (VInt (p_id w)) = true ->
  Sql.get (active_for (p_id w)) (orders s) = None ->
  code_of (snd (claim (Some w) (Some oid) s)) = 200
  <-> exists o, In o (unassigned_orders s) /\ o_id o = oid.
Proof.
  intros Hreach Hw Href Hfree.
  pose proof (reachable_store_ok _ Hreach) as Hok. split.
  - intros H. destruct (claim_success _ _ _ Hw H) as (_ & (o & Ho & Ht & Hst) & _).
    destruct (get_some _ _ _ Ho) as [Hin Hid]. unfold Sql.order_is in Hid.
    apply Z.eqb_eq in Hid. exists o. split; [|exact Hid].
    unfold unassigned_orders. apply filter_In. split; [exact Hin|].
    apply unassigned_true. split; [|exact Hst].
    destruct (writer_id o) eqn:E; [reflexivity| |];
      (assert (Hx : JS.truthy (writer_id o) = true)
         by (apply (writer_set_truthy s o Hok Hin); congruence);
       rewrite E in Hx; congruence).
  - intros (o & Hin & Hid). unfold unassigned_orders in Hin.
    apply filter_In in Hin as [Hin Hu].
    rewrite (claim_open w oid s o Hw Hfree Href); [reflexivity| |exact Hu].
    rewrite <- Hid. apply get_by_id; assumption.
Qed.

Lemma unassigned_listing_is_claimable_witness :
  exists o, In o (unassigned_orders (run History.two_orders empty_store)) /\ o_id o = 2.
Proof.
  apply (unassigned_listing_is_claimable (run History.two_orders empty_store)
           History.wes 2).
  - apply reachable_run.
  - reflexivity.
  - vm_compute. reflexivity.
  - vm_compute. reflexivity.
  - vm_compute. reflexivity.
Defined.

Lemma create_order_success now t d c sd er f s :
  code_of (snd (create_order now t d (Some c) sd er f s)) = 200 ->
  exists guide,
    orders (fst (create_order now t d (Some c) sd er f s))
    = (orders s ++ [new_order (next_order_id s) now (JS.trim t) (JS.trim d) c
                      (text_or_null sd) (text_or_null er) guide])%list
    /\ users (fst (create_order now t d (Some c) sd er f s)) = users s.
Proof.
  unfold create_order, bad_request.
  destruct (_ || _); [discriminate|].
  destruct (Sql.references_user (users s) (VInt c)); [|discriminate].
  intros _. simpl. eexists. split; reflexivity.
Qed.

(** X14. An order that has just been created is open to the writers: its
    key is the next one of the table, and any stored writer without an
    order in progress who claims it gets it, after which the order is in
    progress under that writer, still unpaid and still the client's. *)
Theorem created_order_can_be_claimed
    (now : Z) (t d : string) (c : Z) (sd er : string) (f : option string)
    (w : principal) (s : store) :
  reachable s ->
  code_of (snd (create_order now t d (Some c) sd er f s)) = 200 ->
  p_role w = "writer" ->
  Sql.references_user (users s) (VInt (p_id w)) = true ->
  Sql.get (active_for (p_id w)) (orders s) = None ->
  let s1 := fst (create_order now t d (Some c) sd er f s) in
  let oid := next_order_id s in
  code_of (snd (claim (Some w) (Some oid) s1)) = 200
  /\ exists o, Sql.get (Sql.order_is oid) (orders (fst (claim (Some w) (Some oid) s1)))
                = Some o
       /\ writer_id o = VInt (p_id w) /\ status o = VText "In Progress"
       /\ client_id o = VInt c /\ payment_status o = VText "unpaid"
       /\ title o = VText (JS.trim t).
Proof.
  intros Hreach Hcode Hw Href Hfree s1 oid.
  pose proof (reachable_store_ok _ Hreach) as Hok.
  destruct (create_order_success _ _ _ _ _ _ _ _ Hcode) as (guide & Ho & Hu).
  fold s1 in Ho, Hu.
  set (o := new_order (next_order_id s) now (JS.trim t) (JS.trim d) c
              (text_or_null sd) (text_or_null er) guide) in Ho.
  assert (Hnew : Sql.get (Sql.order_is oid) (orders s) = None).
  { destruct (Sql.get (Sql.order_is oid) (orders s)) as [x|] eqn:E; [|reflexivity].
    apply get_some in E as [Hin Hid]. unfold Sql.order_is in Hid. apply Z.eqb_eq in Hid.
    pose proof (proj1 (List.Forall_forall _ _) (ok_order_ids s Hok) x Hin) as Hb.
    simpl in Hb. subst oid. lia. }
  assert (Hget : Sql.get (Sql.order_is oid) (orders s1) = Some o).
  { rewrite Ho. apply get_snoc_new; [exact Hnew|]. apply Z.eqb_refl. }
  assert (Hfree1 : Sql.get (active_for (p_id w)) (orders s1) = None).
  { rewrite Ho. apply get_snoc_other; [exact Hfree | reflexivity]. }
  assert (Href1 : Sql.references_user (users s1) (VInt (p_id w)) = true)
    by (rewrite Hu; exact Href).
  rewrite (claim_open w oid s1 o Hw Hfree1 Href1 Hget eq_refl). simpl fst. simpl snd.
  split; [reflexivity|].
  rewrite (get_take_order oid (p_id w) s1 o Hget).
  eexists. split; [reflexivity|]. repeat split.
Qed.

Lemma created_order_can_be_claimed_witness :
  code_of (snd (claim (Some History.wes) (Some 1)
                  (fst (create_order 7000 "Essay" "Two pages on rivers" (Some 1) "" "" None
                          (run History.sign_up empty_store))))) = 200.
Proof.
  apply (created_order_can_be_claimed 7000 "Essay" "Two pages on rivers" 1 "" "" None
           History.wes (run History.sign_up empty_store)).
  - apply reachable_run.
  - vm_compute. reflexivity.
  - reflexivity.
  - vm_compute. reflexivity.
  - vm_compute. reflexivity.
Defined.

(** ** Payments *)

(** X15. A simulated payment runs its course: where no gateway key is
    configured, initiating a payment for an order that exists records it
    as pending under a [SIM-] reference with the amount sent, whatever the
    order's state was, and the call the timer then makes leaves the order
    paid under that same reference, delivered, the amount kept. *)
Theorem simulated_payment_round_trip
    (env : mpesa_env) (now rnd : Z) (k : bool) (oid : Z) (ph : string) (amt : Z)
    (s : store) (o : order) :
  consumer_key env = false ->
  JS.trim ph <> "" ->
  Sql.get (Sql.order_is oid) (orders s) = Some o ->
  let s1 := fst (payments_initiate env now rnd k (Some oid) ph amt s) in
  let ref := make_ref "SIM" now rnd in
  snd (payments_initiate env now rnd k (Some oid) ph amt s)
  = Json 200 "Simulated payment initiated"
  /\ simulated_confirmation env now rnd (Some oid) ph s = Some (oid, ref)
  /\ (exists o1, Sql.get (Sql.order_is oid) (orders s1) = Some o1
        /\ payment_status o1 = VText "pending" /\ payment_ref o1 = VText ref
        /\ amount o1 = VInt amt /\ status o1 = status o)
  /\ (exists o2, Sql.get (Sql.order_is oid) (orders (step (TimerFires oid ref) s1)) = Some o2
        /\ payment_status o2 = VText "paid" /\ payment_ref o2 = VText ref
        /\ amount o2 = VInt amt /\ status o2 = VText "Delivered to Client").
Proof.
  intros Hkey Hph Ho. simpl.
  unfold simulated_confirmation, payments_initiate, bad_request.
  destruct (String.eqb_spec (JS.trim ph) ""); [contradiction|].
  rewrite Ho, Hkey. simpl negb. cbv iota. simpl fst. simpl snd.
  destruct (get_some _ _ _ Ho) as [_ Hid].
  refine (conj eq_refl (conj eq_refl (conj _ _))).
  - unfold record_pending. simpl orders. rewrite get_update by reflexivity.
    rewrite Ho. simpl. rewrite Hid. eexists. split; [reflexivity|]. repeat split.
  - unfold step, handle. simpl fst. rewrite get_update by reflexivity.
    unfold record_pending. simpl orders. rewrite get_update by reflexivity.
    rewrite Ho. simpl. unfold Sql.order_is in *. rewrite Hid. simpl o_id. rewrite Hid.
    eexists. split; [reflexivity|]. repeat split.
Qed.

Lemma simulated_payment_round_trip_witness :
  snd (payments_initiate
         {| consumer_key := false; consumer_secret := false; shortcode := false;
            passkey := false; callback_url := false |}
         9000 42 false (Some 1) "0712345678" 1500
         (run History.submitted empty_store))
  = Json 200 "Simulated payment initiated".
Proof.
  apply (simulated_payment_round_trip
           {| consumer_key := false; consumer_secret := false; shortcode := false;
              passkey := false; callback_url := false |}
           9000 42 false 1 "0712345678" 1500
           (run History.submitted empty_store) History.essay).
  - reflexivity.
  - vm_compute. discriminate.
  - rewrite submitted_store. reflexivity.
Defined.

(** X16. An STK callback whose [ResultCode] is a JSON number never
    confirms a payment: a non-zero number is a failure, and the number
    [0] is falsy, so [Number(cb.ResultCode || -1)] reads it as [-1].  The
    store is left as it was and the answer is 'Callback processed'. *)
Theorem stk_numeric_result_never_confirms
    (now : Z) (q : option Z) (n : Z) (checkout : string)
    (params : option (list (string * option Z))) (s : store) :
  payments_callback now q (StkCallback (Some (VInt n)) checkout params) s
  = (s, Json 200 "Callback processed").
Proof.
  unfold payments_callback, result_code. destruct n; reflexivity.
Qed.

(** ** Documents *)

Lemma strict_eq_int n v :
  JS.strict_eq (Some (VInt n)) (Some v) = true <-> v = VInt n.
Proof.
  destruct v as [|m|t]; simpl; split; try discriminate.
  - intros H. apply Z.eqb_eq in H. congruence.
  - intros H. injection H as ->. apply Z.eqb_refl.
Qed.



(** X17. The preview route gives a document, whole or as a preview, to
    nobody but a party of the order: whenever it ends with a call that
    sends a file rather than with a refusal, and so whenever a file goes
    out, the requester is a stored user who is an administrator, the
    writer of the order or its client, and the order has a submission. *)
Theorem preview_serves_only_parties
    (d : disk) (auth : option principal) (orderId userId : option Z) (s : store) :
  refused (preview d auth orderId userId s) = false
  \/ outcome_of d (preview d auth orderId userId s) <> Deny ->
  exists oid o u,
    orderId = Some oid
    /\ Sql.get (Sql.order_is oid) (orders s) = Some o
    /\ JS.truthy (submission_file o) = true
    /\ resolved s auth userId u
    /\ (u_role u = "admin" \/ writer_id o = VInt (u_id u)
        \/ client_id o = VInt (u_id u)).
Proof.
  assert (Hno : forall c m,
            refused (Reply (Json c m)) = false \/ outcome_of d (Reply (Json c m)) <> Deny ->
            False).
  { intros c m [H|H]; [discriminate H | apply H; reflexivity]. }
  unfold preview. destruct orderId as [oid|]; [|intros H; destruct (Hno _ _ H)].
  destruct (requester auth userId) as [rid|] eqn:Er; [|intros H; destruct (Hno _ _ H)].
  destruct (Z.eqb_spec rid 0) as [|Hz]; [intros H; destruct (Hno _ _ H)|].
  destruct (Sql.get (Sql.order_is oid) (orders s)) as [o|] eqn:Eo;
    [|intros H; destruct (Hno _ _ H)].
  simpl fmap. cbv iota beta. rewrite select_submission_file. simpl JS.truthy_prop.
  destruct (JS.truthy (submission_file o)) eqn:Et; simpl negb; cbv iota;
    [|intros H; destruct (Hno _ _ H)].
  destruct (Sql.get (Sql.user_is rid) (users s)) as [u|] eqn:Eu;
    [|intros H; destruct (Hno _ _ H)].
  simpl fmap. cbv iota beta. unfold preview_respond.
  rewrite user_row_role, user_row_id, select_submission_writer, select_submission_client.
  change (JS.strict_eq (Some (VText (u_role u))) (Some (VText "admin")))
    with (String.eqb (u_role u) "admin").
  intros H.
  exists oid, o, u. split; [reflexivity|]. split; [exact Eo|]. split; [exact Et|].
  split; [exists rid; auto|].
  destruct (String.eqb_spec (u_role u) "admin") as [Ea|_]; [left; exact Ea|].
  destruct (JS.strict_eq (Some (VInt (u_id u))) (Some (writer_id o))) eqn:Ew.
  - right. left. apply strict_eq_int. exact Ew.
  - simpl orb in H. cbv iota in H.
    destruct (JS.strict_eq (Some (VInt (u_id u))) (Some (client_id o))) eqn:Ec;
      [|destruct (Hno _ _ H)].
    right. right. apply strict_eq_int. exact Ec.
Qed.

Lemma preview_serves_only_parties_witness :
  exists oid o u,
    Some 1 = Some oid
    /\ Sql.get (Sql.order_is oid) (orders (run History.submitted empty_store)) = Some o
    /\ JS.truthy (submission_file o) = true
    /\ resolved (run History.submitted empty_store) (Some History.wes) None u
    /\ (u_role u = "admin" \/ writer_id o = VInt (u_id u)
        \/ client_id o = VInt (u_id u)).
Proof.
  apply (preview_serves_only_parties History.on_disk (Some History.wes) (Some 1) None
           (run History.submitted empty_store)).
  left. vm_compute. reflexivity.
Defined.



Lemma toInt_int n : toInt (Some (VInt n)) = Some n.
Proof. unfold toInt, JS.to_Number, JS.trunc. simpl. f_equal. lia. Qed.

Lemma submission_for_client s auth userId oid o c :
  Sql.get (Sql.order_is oid) (orders s) = Some o ->
  JS.truthy (submission_file o) = true ->
  client_id o = VInt c -> c <> 0 ->
  requester auth userId = Some c ->
  (forall a, auth = Some a -> p_role a <> "admin" /\ writer_id o <> VInt (p_id a)) ->
  submission auth (Some oid) userId s
  = if JS.is_paid (Some (payment_status o))
    then Link (String.append "/uploads/"
                 (Path.basename (JS.to_String (Some (submission_file o)))))
    else Json 403 "Download blocked until payment is completed".
Proof.
  intros Ho Ht Hc Hz Hr Hd. unfold submission. rewrite Ho. simpl fmap. cbv iota beta.
  rewrite select_submission_file, select_submission_writer, select_submission_client,
    select_payment.
  simpl JS.truthy_prop. rewrite Ht. simpl negb. cbv iota. cbv zeta.
  assert (Hdirect : match auth with
                    | Some a => String.eqb (p_role a) "admin"
                                || JS.strict_eq (Some (VInt (p_id a))) (Some (writer_id o))
                    | None => false
                    end = false).
  { destruct auth as [a|]; [|reflexivity]. destruct (Hd a eq_refl) as [Hr1 Hw1].
    apply orb_false_iff. split.
    - apply String.eqb_neq. exact Hr1.
    - destruct (JS.strict_eq _ _) eqn:E; [|reflexivity].
      apply strict_eq_int in E. contradiction. }
  rewrite Hdirect, Hr, Hc. unfold falsy_id. apply Z.eqb_neq in Hz. rewrite Hz.
  rewrite toInt_int, bool_decide_eq_true_2 by reflexivity. reflexivity.
Qed.

(** X19. Payment is what opens the submission to the client: asked by the
    client of an order for its submitted file, [/api/submission] answers
    403 as long as the payment status does not read 'paid', and answers
    with the link to the file once the gateway callback has confirmed a
    payment for the order. *)
Theorem payment_unlocks_submission_link
    (s : store) (auth : option principal) (userId : option Z)
    (oid c now : Z) (q : option Z) (o : order) (ref : string) :
  Sql.get (Sql.order_is oid) (orders s) = Some o ->
  JS.truthy (submission_file o) = true ->
  client_id o = VInt c -> c <> 0 ->
  requester auth userId = Some c ->
  (forall a, auth = Some a -> p_role a <> "admin" /\ writer_id o <> VInt (p_id a)) ->
  ref <> "" ->
  let s1 := fst (payments_callback now q (Generic (Some oid) (Some (VText ref))) s) in
  (JS.is_paid (Some (payment_status o)) = false ->
     submission auth (Some oid) userId s
     = Json 403 "Download blocked until payment is completed")
  /\ submission auth (Some oid) userId s1
     = Link (String.append "/uploads/"
               (Path.basename (JS.to_String (Some (submission_file o))))).
Proof.
  intros Ho Ht Hc Hz Hr Hd Href s1. split.
  - intros Hp. rewrite (submission_for_client s auth userId oid o c Ho Ht Hc Hz Hr Hd), Hp.
    reflexivity.
  - assert (Ho1 : Sql.get (Sql.order_is oid) (orders s1) = Some (confirmed ref o)).
    { subst s1. unfold payments_callback.
      assert (Htr : JS.truthy_prop (Some (VText ref)) = true).
      { simpl. destruct ref; [congruence | reflexivity]. }
      rewrite Htr. simpl fst. rewrite markOrderPaid_orders, get_update by reflexivity.
      rewrite Ho. simpl. destruct (get_some _ _ _ Ho) as [_ Hid]. rewrite Hid.
      reflexivity. }
    rewrite (submission_for_client s1 auth userId oid (confirmed ref o) c Ho1 Ht Hc Hz Hr Hd).
    reflexivity.
Qed.

Lemma payment_unlocks_submission_link_witness :
  submission (Some History.ann) (Some 1) None (run History.submitted empty_store)
  = Json 403 "Download blocked until payment is completed".
Proof.
  apply (payment_unlocks_submission_link (run History.submitted empty_store)
           (Some History.ann) None 1 1 9000 None History.essay "REF-1").
  - rewrite submitted_store. reflexivity.
  - reflexivity.
  - reflexivity.
  - discriminate.
  - reflexivity.
  - intros a [= <-]. split; discriminate.
  - discriminate.
  - reflexivity.
Defined.

Lemma get_submit_work oid f s o :
  Sql.get (Sql.order_is oid) (orders s) = Some o ->
  Sql.get (Sql.order_is oid) (orders (fst (submit_work (Some oid) (Some f) s)))
  = Some (set_status (VText "Submitted")
            (set_submission_file
               (VText (String.append "/uploads/" (Path.basename f))) o)).
Proof.
  intros Ho. unfold submit_work. simpl fst. simpl orders.
  rewrite get_update by reflexivity. rewrite Ho. simpl.
  destruct (get_some _ _ _ Ho) as [_ Hid]. rewrite Hid. reflexivity.
Qed.



(** X21. The legacy file route knows every file handed in.  Once
    [/api/submit-work] has stored an upload under its multer name for an
    order that exists, the lookup of the [/uploads/<name>] handler finds
    an order for that name: the handler takes its 403 branch or its
    [res.sendFile] branch, not its 'Not found' branch.  For the request
    as a whole, when the site's pages hold nothing of that name: with the
    upload in the upload directory the static middleware sends it and the
    handler does not run; with nothing there the handler runs and,
    whichever of the two branches it takes, no file is sent. *)
Theorem submitted_file_known_to_legacy_route
    (d : disk) (s : store) (oid : Z) (o : order) (f : string) (req : file_request) :
  Sql.get (Sql.order_is oid) (orders s) = Some o ->
  upload_name f = true -> Path.dot_name f = false ->
  fr_name req = f ->
  d !! Path.join (Path.join Path.publicDir "uploads") f = None ->
  let s1 := fst (submit_work (Some oid) (Some f) s) in
  let file := Path.join Path.uploadDir f in
  (uploads_route req s1 = SendFile [] file
   \/ uploads_route req s1
      = Text 403 "Direct download blocked. Payment required.")
  /\ (d !! file = Some File ->
        get_uploads d s1 req = ([StaticPublic; StaticUploads], Some (SendFile [] file))
        /\ legacy_outcome d s1 req = Full)
  /\ (d !! file = None ->
        get_uploads d s1 req
        = ([StaticPublic; StaticUploads; UploadsRoute], Some (uploads_route req s1))
        /\ legacy_outcome d s1 req = Deny).
Proof.
  intros Ho Hf Hdot Hname Hpub s1 file.
  pose proof (upload_name_plain f Hf) as Hp.
  pose proof (basename_plain f Hp) as Hb.
  assert (Hne : f <> "").
  { unfold plain_name in Hp. apply andb_true_iff in Hp as [Hp _].
    apply negb_true_iff in Hp. apply String.eqb_neq. exact Hp. }
  rewrite <- Hname in Hf, Hpub.
  pose proof (get_uploads_cases d s1 req Hf Hpub) as G.
  pose proof (legacy_outcome_cases d s1 req Hf Hpub) as L.
  rewrite (sends_upload d _ Hf) in L. rewrite Hname in G, L. fold file in G, L.
  rewrite Hdot in G, L.
  split; [|split].
  - pose proof (get_submit_work oid f s o Ho) as Ho1. fold s1 in Ho1.
    apply get_some in Ho1 as [Hin _]. rewrite Hb in Hin.
    destruct (Sql.get (file_matches (Path.basename (fr_name req))) (orders s1))
      as [x|] eqn:E.
    + rewrite (uploads_route_found req s1 x); [|rewrite Hname, Hb; exact Hne | exact E].
      rewrite Hname, Hb. destruct (JS.is_paid _); [left | right]; reflexivity.
    + pose proof (get_none _ _ _ E Hin) as Hm. rewrite Hname, Hb in Hm.
      change (Sql.like (String "%"%char f) (String.append "/uploads/" f) = false) in Hm.
      rewrite (like_suffix "/uploads/" f) in Hm. discriminate.
  - intros Hfile. rewrite Hfile in G, L. split; [exact G|].
    rewrite L. reflexivity.
  - intros Hnone. rewrite Hnone in G, L. split; [exact G|].
    rewrite L. reflexivity.
Qed.

Lemma submitted_file_known_to_legacy_route_witness :
  let s1 := fst (submit_work (Some 2) (Some "1700000000001-42.pdf")
                   (run History.submitted empty_store)) in
  let req := {| fr_auth := None; fr_name := "1700000000001-42.pdf" |} in
  get_uploads History.on_disk s1 req
  = ([StaticPublic; StaticUploads; UploadsRoute], Some (uploads_route req s1))
  /\ legacy_outcome History.on_disk s1 req = Deny.
Proof.
  apply (submitted_file_known_to_legacy_route History.on_disk
           (run History.submitted empty_store)
           2 History.report "1700000000001-42.pdf"
           {| fr_auth := None; fr_name := "1700000000001-42.pdf" |}).
  - rewrite submitted_store. reflexivity.
  - reflexivity.
  - reflexivity.
  - reflexivity.
  - reflexivity.
  - reflexivity.
Defined.

(** X22. A bearer header shadows the token of the query: a request whose
    [Authorization] header starts with ['Bearer '] is judged by the token
    in the header alone, so that with a token the server does not accept
    there it is answered 401 behind [authMiddleware], whatever [userToken]
    it also carries. *)
Theorem bearer_header_shadows_query_token
    (verify : string -> option principal) (t q : string)
    (s : store) (k : principal -> store * reply) :
  verify t = None ->
  getUserFromRequest verify (String.append "Bearer " t) q = None
  /\ authMiddleware (getUserFromRequest verify (String.append "Bearer " t) q) s k
     = (s, Json 401 "Unauthorized").
Proof.
  intros Hv.
  assert (E : getUserFromRequest verify (String.append "Bearer " t) q = None).
  { unfold getUserFromRequest, token_of.
    assert (Hp : String.prefix "Bearer " (String.append "Bearer " t) = true)
      by (destruct t; reflexivity).
    rewrite Hp. change (slice_from 7 (String.append "Bearer " t)) with t.
    cbv iota. destruct (String.eqb t ""); [reflexivity | exact Hv]. }
  split; [exact E|]. rewrite E. reflexivity.
Qed.

Lemma bearer_header_shadows_query_token_witness :
  getUserFromRequest
    (fun t => if String.eqb t "good" then Some History.ada else None)
    "Bearer stale" "good"
  = None.
Proof.
  apply (bearer_header_shadows_query_token
           (fun t => if String.eqb t "good" then Some History.ada else None)
           "stale" "good" empty_store (fun _ => (empty_store, Json 200 "in"))).
  reflexivity.
Defined.

Lemma user_card_email u : user_card u !! "email" = Some (VText (u_email u)).
Proof. reflexivity. Qed.

Lemma user_card_name u : user_card u !! "name" = Some (VText (u_name u)).
Proof. reflexivity. Qed.

(** X23. The preview page and the preview stream refuse alike: whenever
    [/api/preview-view] refuses a request, [/api/preview] refuses the same
    request with the same status and text; and whenever the page is
    shown, the requester is a stored user, the order has a submission, and
    the stream answers what the party check decides, which the page does
    not make. *)
Theorem preview_view_refuses_as_preview
    (d : disk) (rawToken : string) (auth : option principal)
    (orderId userId : option Z) (s : store) :
  match preview_view rawToken auth orderId userId s with
  | ViewRefused (Text c m) => preview d auth orderId userId s = Json c m
  | ViewRefused _ => False
  | ViewPage _ who =>
      exists oid o u,
        orderId = Some oid
        /\ Sql.get (Sql.order_is oid) (orders s) = Some o
        /\ resolved s auth userId u
        /\ preview d auth orderId userId s
           = preview_respond d oid (select submission_columns o) (user_row u)
        /\ who = (if String.eqb (u_email u) ""
                  then if String.eqb (u_name u) "" then "user" else u_name u
                  else u_email u)
  end.
Proof.
  unfold preview_view, preview. destruct orderId as [oid|]; [|reflexivity].
  destruct (requester auth userId) as [rid|] eqn:Er; [|reflexivity].
  destruct (Z.eqb_spec rid 0) as [|Hz]; [reflexivity|].
  destruct (Sql.get (Sql.order_is oid) (orders s)) as [o|] eqn:Eo; [|reflexivity].
  simpl fmap. cbv iota beta. rewrite select_submission_file. simpl JS.truthy_prop.
  destruct (JS.truthy (submission_file o)) eqn:Et; simpl negb; cbv iota; [|reflexivity].
  destruct (Sql.get (Sql.user_is rid) (users s)) as [u|] eqn:Eu; [|reflexivity].
  simpl fmap. cbv iota beta.
  exists oid, o, u. split; [reflexivity|]. split; [exact Eo|].
  split; [exists rid; auto|]. split; [reflexivity|].
  unfold watermark_name. rewrite user_card_email, user_card_name. simpl.
  destruct (String.eqb (u_email u) ""); [|reflexivity].
  destruct (String.eqb (u_name u) ""); reflexivity.
Qed.

(** ** Deleting accounts *)

Lemma forget_user_writer uid o :
  writer_id o = VInt uid ->
  writer_id (forget_user uid o) = VNull /\ status (forget_user uid o) = status o.
Proof.
  intros Hw. unfold forget_user.
  destruct (Sql.eq (client_id o) (VInt uid)); simpl; rewrite Hw; simpl;
    rewrite Z.eqb_refl; split; reflexivity.
Qed.

Lemma forget_user_clears uid o :
  client_id (forget_user uid o) <> VInt uid /\ writer_id (forget_user uid o) <> VInt uid.
Proof.
  unfold forget_user.
  destruct (Sql.eq (client_id o) (VInt uid)) eqn:Ec; simpl;
    destruct (Sql.eq (writer_id o) (VInt uid)) eqn:Ew; simpl;
    split; try discriminate; intros E;
    try (apply sql_eq_int in E; congruence).
Qed.

Lemma delete_user_success admin uid s u :
  p_role admin = "admin" ->
  Sql.get (Sql.user_is uid) (users s) = Some u ->
  delete_user (Some admin) (Some uid) s
  = ({| users := Sql.delete (Sql.user_is uid) (users s);
        orders := map (forget_user uid) (orders s);
        email_verifications :=
          Sql.delete (fun v => (v_user_id v =? uid)%Z) (email_verifications s);
        next_user_id := next_user_id s; next_order_id := next_order_id s;
        next_verification_id := next_verification_id s |},
     Json 200 "User deleted successfully").
Proof.
  intros Hadmin Hu. unfold delete_user, admin_only, authMiddleware, requireAdmin.
  rewrite Hadmin. simpl String.eqb. cbv iota.
  assert (E : existsb (Sql.user_is uid) (users s) = true).
  { apply existsb_exists. exists u. apply get_some in Hu. exact Hu. }
  rewrite E. reflexivity.
Qed.

(** X24. Deleting an account forgets the user and keeps the orders: after
    an administrator has deleted a stored user, the key holds no account,
    no verification row and no order refers to it, every order is still
    in the table under its key, and a login under the account's address is
    answered 401. *)
Theorem deleted_user_is_forgotten
    (s : store) (admin : principal) (uid : Z) (u : user) :
  reachable s ->
  p_role admin = "admin" ->
  Sql.get (Sql.user_is uid) (users s) = Some u ->
  let s1 := fst (delete_user (Some admin) (Some uid) s) in
  Sql.get (Sql.user_is uid) (users s1) = None
  /\ Forall (fun v => v_user_id v <> uid) (email_verifications s1)
  /\ map o_id (orders s1) = map o_id (orders s)
  /\ Forall (fun o => client_id o <> VInt uid /\ writer_id o <> VInt uid) (orders s1)
  /\ (forall compareSync e pw,
        normalize_email e = u_email u -> e <> "" -> pw <> "" ->
        login compareSync e pw s1 = LoginRefused (Json 401 "Invalid account")).
Proof.
  intros Hreach Hadmin Hu s1. subst s1.
  rewrite (delete_user_success admin uid s u Hadmin Hu). simpl fst.
  pose proof (reachable_accounts_ok _ Hreach) as Hacc.
  destruct (get_some _ _ _ Hu) as [Hin Hid].
  refine (conj _ (conj _ (conj _ (conj _ _)))).
  - simpl users. apply get_delete_same.
  - simpl email_verifications. unfold Sql.delete. apply List.Forall_forall.
    intros v Hv. apply filter_In in Hv as [_ Hv]. apply negb_true_iff in Hv.
    apply Z.eqb_neq. exact Hv.
  - simpl orders. rewrite map_map. apply map_ext. intros o.
    apply (forget_user_fixed uid o).
  - simpl orders. apply List.Forall_forall. intros x Hx.
    apply in_map_iff in Hx as (o & <- & _). apply forget_user_clears.
  - intros cmp e pw He Hne Hpw. unfold login.
    destruct (String.eqb_spec e ""); [contradiction|].
    destruct (String.eqb_spec pw ""); [contradiction|]. simpl orb. cbv iota.
    simpl users. rewrite He.
    destruct (Sql.get (user_by_email (u_email u)) (Sql.delete (Sql.user_is uid) (users s)))
      as [x|] eqn:E; [|reflexivity].
    exfalso. apply get_some in E as [Hx Hem]. unfold Sql.delete in Hx.
    apply filter_In in Hx as [Hx Hnot]. unfold user_by_email in Hem.
    apply String.eqb_eq in Hem.
    assert (x = u) by (eapply user_is_unique; eauto). subst x.
    rewrite Hid in Hnot. discriminate.
Qed.

Lemma deleted_user_is_forgotten_witness :
  Sql.get (Sql.user_is 2)
    (users (fst (delete_user (Some History.ada) (Some 2)
                   (run History.submitted empty_store))))
  = None.
Proof.
  apply (deleted_user_is_forgotten (run History.submitted empty_store)
           History.ada 2 History.wes_row).
  - apply reachable_run.
  - reflexivity.
  - rewrite submitted_store. reflexivity.
Defined.

(** X25. The order a deleted writer had in progress is left stranded:
    after the deletion it is still 'In Progress' but has no writer, it is
    not in the unassigned listing, and no writer can claim it nor can an
    administrator assign it; each attempt is answered 400 and writes
    nothing. *)
Theorem deleted_writer_strands_order
    (s : store) (admin : principal) (uid : Z) (u : user) (o : order) :
  reachable s ->
  p_role admin = "admin" ->
  Sql.get (Sql.user_is uid) (users s) = Some u ->
  In o (orders s) -> writer_id o = VInt uid -> status o = VText "In Progress" ->
  let s1 := fst (delete_user (Some admin) (Some uid) s) in
  (exists o1, Sql.get (Sql.order_is (o_id o)) (orders s1) = Some o1
     /\ writer_id o1 = VNull /\ status o1 = VText "In Progress")
  /\ (forall x, In x (unassigned_orders s1) -> o_id x <> o_id o)
  /\ (forall w, p_role w = "writer" ->
        fst (claim (Some w) (Some (o_id o)) s1) = s1
        /\ code_of (snd (claim (Some w) (Some (o_id o)) s1)) = 400)
  /\ (forall a w, p_role a = "admin" ->
        fst (assign (Some a) (Some (o_id o)) (Some w) s1) = s1
        /\ code_of (snd (assign (Some a) (Some (o_id o)) (Some w) s1)) = 400).
Proof.
  intros Hreach Hadmin Hu Hin Hw Hst s1.
  pose proof (reachable_store_ok _ Hreach) as Hok.
  assert (Hok1 : store_ok s1).
  { exact (reachable_store_ok _ (reachable_step (DeleteUser (Some admin) (Some uid)) s Hreach)). }
  destruct (forget_user_writer uid o Hw) as [Hw1 Hst1]. rewrite Hst in Hst1.
  assert (Ho1 : Sql.get (Sql.order_is (o_id o)) (orders s1) = Some (forget_user uid o)).
  { subst s1. rewrite (delete_user_success admin uid s u Hadmin Hu). simpl fst.
    simpl orders. rewrite get_map.
    - rewrite (get_by_id s o Hok Hin). reflexivity.
    - intros r. unfold Sql.order_is. destruct (forget_user_fixed uid r) as [-> _].
      reflexivity. }
  refine (conj _ (conj _ (conj _ _))).
  - exists (forget_user uid o). auto.
  - intros x Hx Hid. unfold unassigned_orders in Hx. apply filter_In in Hx as [Hx Hun].
    apply unassigned_true in Hun as [_ Hpending].
    rewrite <- Hid, (get_by_id s1 x Hok1 Hx) in Ho1. injection Ho1 as ->.
    congruence.
  - intros w Hrole. rewrite (claim_cases _ _ _ Hrole).
    destruct (Sql.get (active_for (p_id w)) (orders s1)); [split; reflexivity|].
    rewrite Ho1, Hw1, Hst1. split; reflexivity.
  - intros a w Hrole. rewrite (assign_cases _ _ _ _ Hrole).
    destruct (Sql.get (active_for w) (orders s1)); [split; reflexivity|].
    rewrite Ho1, Hw1, Hst1. split; reflexivity.
Qed.

Lemma deleted_writer_strands_order_witness :
  let s := run (History.two_orders ++ [Claim (Some History.wes) (Some 1)]) empty_store in
  let s1 := fst (delete_user (Some History.ada) (Some 2) s) in
  exists o1, Sql.get (Sql.order_is 1) (orders s1) = Some o1
    /\ writer_id o1 = VNull /\ status o1 = VText "In Progress".
Proof.
  apply (deleted_writer_strands_order
           (run (History.two_orders ++ [Claim (Some History.wes) (Some 1)]) empty_store)
           History.ada 2 History.wes_row
           (set_status (VText "In Progress")
              (set_writer_id (VInt 2)
                 (new_order 1 7000 "Essay" "Two pages on rivers" 1 VNull VNull VNull)))).
  - apply reachable_run.
  - reflexivity.
  - vm_compute. reflexivity.
  - vm_compute. left. reflexivity.
  - reflexivity.
  - reflexivity.
Defined.
